(** * ocs_ci.helpers.helpers: resource-state waiting, batch orchestration
      and log-timeline correlation

    A shallow embedding of the functions of [ocs_ci/helpers/helpers.py]
    that wait for resource states, create and delete resources in batches
    and reconstruct timestamps from the provisioner logs, together with the
    fragments of the Python library they rely on ([str], [re],
    [datetime]).

    Strings are sequences of code points below 256; integers are [Z];
    [datetime.total_seconds] is the exact rational it denotes. *)

From Stdlib Require Import String Ascii List ZArith QArith Lia Bool Arith.
From stdpp Require Import base strings gmap.
Import ListNotations.

Local Open Scope string_scope.
Local Open Scope Z_scope.

(** [s + t] on strings is [String.append]; it unfolds on a constructor. *)
#[local] Arguments String.append !s1 s2 : simpl nomatch.

(** ** Exceptions and results *)

Inductive exn : Type :=
| IndexError
| ValueError
| TypeError
| UnboundLocalError
| TimeoutExpiredError
| ResourceWrongStatusException (name describe : string)
| UnexpectedBehaviour (names : list string)
| CommandFailed (msg : string).

Inductive result (A : Type) : Type :=
| Ok (a : A)
| Raise (e : exn).
Arguments Ok {A} a.
Arguments Raise {A} e.

Definition rbind {A B} (r : result A) (k : A -> result B) : result B :=
  match r with
  | Ok a => k a
  | Raise e => Raise e
  end.

Notation "'try!' x := r 'in' k" := (rbind r (fun x => k))
  (at level 10, x name, r at level 100, k at level 200).

(** ** Python strings and lists *)

Module PyStr.

(** The double quote, which the deletion patterns hold. *)
Definition dquote : ascii := ascii_of_nat 34.
Definition newline : ascii := ascii_of_nat 10.
Definition space : ascii := ascii_of_nat 32.

Definition code (c : ascii) : Z := Z.of_nat (nat_of_ascii c).

(** [s.split(sep)] for a one-character separator: the first field and the
    fields after it.  The result is never empty. *)
Fixpoint split_go (sep : ascii) (s : string) : string * list string :=
  match s with
  | EmptyString => (EmptyString, [])
  | String c s' =>
      let (w, ws) := split_go sep s' in
      if Ascii.eqb c sep then (EmptyString, w :: ws) else (String c w, ws)
  end.

Definition split (sep : ascii) (s : string) : list string :=
  let (w, ws) := split_go sep s in w :: ws.

(** [sep.join(l)] *)
Definition join (sep : string) (l : list string) : string :=
  String.concat sep l.

(** [s[:n]] *)
Fixpoint take (n : nat) (s : string) : string :=
  match n, s with
  | S n', String c s' => String c (take n' s')
  | _, _ => EmptyString
  end.

(** [len(s)] *)
Definition len (s : string) : Z := Z.of_nat (String.length s).

(** [l[0]] and [l[-1]] *)
Definition first {A} (l : list A) : result A :=
  match l with
  | x :: _ => Ok x
  | [] => Raise IndexError
  end.

Fixpoint last {A} (l : list A) : result A :=
  match l with
  | [] => Raise IndexError
  | [x] => Ok x
  | _ :: l' => last l'
  end.

(** [s.lower()] on the letters A to Z. *)
Definition lower_char (c : ascii) : ascii :=
  if (65 <=? code c) && (code c <=? 90)
  then ascii_of_nat (nat_of_ascii c + 32) else c.

Fixpoint lower (s : string) : string :=
  match s with
  | EmptyString => EmptyString
  | String c s' => String (lower_char c) (lower s')
  end.

(** [a < b] on strings: lexicographic on code points, a proper prefix
    being smaller. *)
Fixpoint ltb (a b : string) : bool :=
  match a, b with
  | _, EmptyString => false
  | EmptyString, String _ _ => true
  | String x a', String y b' =>
      if code x <? code y then true
      else if code x =? code y then ltb a' b' else false
  end.

(** [sorted(l)] for a list of strings, as a stable insertion sort. *)
Fixpoint insert (x : string) (l : list string) : list string :=
  match l with
  | [] => [x]
  | y :: l' => if ltb y x then y :: insert x l' else x :: y :: l'
  end.

Fixpoint sorted (l : list string) : list string :=
  match l with
  | [] => []
  | x :: l' => insert x (sorted l')
  end.

(** [str(n)]: the decimal digits of an integer, without padding. *)
Definition digit_char (d : Z) : ascii := ascii_of_nat (48 + Z.to_nat d).

Fixpoint str_go (fuel : nat) (n : Z) (acc : string) : string :=
  match fuel with
  | O => acc
  | S fuel' =>
      let acc' := String (digit_char (n mod 10)) acc in
      if n <? 10 then acc' else str_go fuel' (n / 10) acc'
  end.

Definition str (n : Z) : string :=
  if n <? 0
  then String (ascii_of_nat 45) (str_go (S (Z.to_nat (Z.log2 (- n)))) (- n) EmptyString)
  else str_go (S (Z.to_nat (Z.log2 n))) n EmptyString.

End PyStr.

(** ** The fragment of [re] the helpers use

    Every pattern of the helpers is a literal text into which a resource
    name is interpolated.  A Kubernetes object name holds lower-case
    letters, digits, [-] and [.]; of these only [.] is special to [re].
    The templates add [.*].  So a pattern is a sequence of one-character
    atoms, each possibly starred. *)

Module Re.

Inductive atom : Type :=
| Lit (c : ascii)
| Dot.

Inductive item : Type :=
| One (a : atom)
| Many (a : atom).

Definition regex : Type := list item.

Definition star : ascii := ascii_of_nat 42.
Definition dot : ascii := ascii_of_nat 46.

(** [re.compile(p)] on this fragment. *)
Fixpoint compile (p : string) : regex :=
  match p with
  | EmptyString => []
  | String c p' =>
      let a := if Ascii.eqb c dot then Dot else Lit c in
      match p' with
      | String c' p'' =>
          if Ascii.eqb c' star then Many a :: compile p''
          else One a :: compile p'
      | EmptyString => [One a]
      end
  end.

(** [.] matches any character but a newline. *)
Definition atom_ok (a : atom) (c : ascii) : bool :=
  match a with
  | Lit x => Ascii.eqb x c
  | Dot => negb (Ascii.eqb c PyStr.newline)
  end.

(** Does [r] match a prefix of [s]?  A starred atom is tried with every
    number of repetitions. *)
Fixpoint match_here (r : regex) (s : string) {struct r} : bool :=
  match r with
  | [] => true
  | One a :: r' =>
      match s with
      | String c s' => atom_ok a c && match_here r' s'
      | EmptyString => false
      end
  | Many a :: r' =>
      (fix many (s : string) : bool :=
         match_here r' s ||
         match s with
         | String c s' => atom_ok a c && many s'
         | EmptyString => false
         end) s
  end.

(** Does [r] match somewhere in [s]? *)
Fixpoint search_re (r : regex) (s : string) : bool :=
  match_here r s ||
  match s with
  | String _ s' => search_re r s'
  | EmptyString => false
  end.

(** [re.search(p, s)] as a truth value. *)
Definition search (p s : string) : bool := search_re (compile p) s.

End Re.

(** ** The fragment of [datetime] the helpers use *)

Module DateTime.

Record datetime : Type := mk_datetime {
  year : Z; month : Z; day : Z;
  hour : Z; minute : Z; second : Z; microsecond : Z
}.

Record timedelta : Type := mk_timedelta {
  days : Z; seconds : Z; microseconds : Z
}.

Definition is_leap (y : Z) : bool :=
  (y mod 4 =? 0) && (negb (y mod 100 =? 0) || (y mod 400 =? 0)).

Definition days_in_month (y m : Z) : Z :=
  if m =? 2 then (if is_leap y then 29 else 28)
  else if (m =? 4) || (m =? 6) || (m =? 9) || (m =? 11) then 30
  else 31.

Definition days_before_year (y : Z) : Z :=
  let y1 := y - 1 in
  y1 * 365 + y1 / 4 - y1 / 100 + y1 / 400.

Definition days_before_month (y m : Z) : Z :=
  nth (Z.to_nat (m - 1))
      [0; 31; 59; 90; 120; 151; 181; 212; 243; 273; 304; 334] 0
  + (if (2 <? m) && is_leap y then 1 else 0).

Definition toordinal (d : datetime) : Z :=
  days_before_year (year d) + days_before_month (year d) (month d) + day d.

(** The checks of the [datetime] constructor. *)
Definition valid (d : datetime) : bool :=
  (1 <=? year d) && (year d <=? 9999)
  && (1 <=? month d) && (month d <=? 12)
  && (1 <=? day d) && (day d <=? days_in_month (year d) (month d))
  && (0 <=? hour d) && (hour d <=? 23)
  && (0 <=? minute d) && (minute d <=? 59)
  && (0 <=? second d) && (second d <=? 59)
  && (0 <=? microsecond d) && (microsecond d <=? 999999).

(** [timedelta(days, seconds, microseconds)], normalised. *)
Definition make_timedelta (d s us : Z) : timedelta :=
  let s1 := s + us / 1000000 in
  {| days := d + s1 / 86400;
     seconds := s1 mod 86400;
     microseconds := us mod 1000000 |}.

(** [a - b] *)
Definition sub (a b : datetime) : timedelta :=
  let secs d := second d + minute d * 60 + hour d * 3600 in
  make_timedelta (toordinal a - toordinal b)
                 (secs a - secs b)
                 (microsecond a - microsecond b).

(** [td.total_seconds()] *)
Definition total_seconds (td : timedelta) : Q :=
  ((days td * 86400 + seconds td) * 1000000 + microseconds td) # 1000000.

(** [a <= b] and [a < b]: field by field, the year first. *)
Definition key (d : datetime) : list Z :=
  [year d; month d; day d; hour d; minute d; second d; microsecond d].

Fixpoint lex_ltb (a b : list Z) : bool :=
  match a, b with
  | x :: a', y :: b' => (x <? y) || ((x =? y) && lex_ltb a' b')
  | [], _ :: _ => true
  | _, [] => false
  end.

Definition ltb (a b : datetime) : bool := lex_ltb (key a) (key b).
Definition leb (a b : datetime) : bool := negb (ltb b a).

(** *** [strptime] with the format ["%Y I%m%d %H:%M:%S.%f"]

    [_strptime] turns the format into the regular expression
<<
 (?P<Y>\d\d\d\d)\s+I(?P<m>1[0-2]|0[1-9]|[1-9])
 (?P<d>3[0-1]|[1-2]\d|0[1-9]|[1-9]| [1-9])\s+
 (?P<H>2[0-3]|[0-1]\d|\d):(?P<M>[0-5]\d|\d):(?P<S>6[0-1]|[0-5]\d|\d)
 \.(?P<f>[0-9]{1,6})
>>
    matched from the start of the text and ignoring case, then requires
    the match to end where the text ends, and builds a [datetime], which
    checks the ranges.  Each piece below takes the continuation for the
    rest of the expression: alternatives are tried in order and a later
    failure backtracks into them. *)

Section Pieces.
Context {R : Type}.

Definition alt (p q : option R) : option R :=
  match p with
  | Some x => Some x
  | None => q
  end.

Definition is_digit (c : ascii) : bool :=
  (48 <=? PyStr.code c) && (PyStr.code c <=? 57).

Definition digit (c : ascii) : Z := PyStr.code c - 48.

(** [\s] *)
Definition is_space (c : ascii) : bool :=
  let n := PyStr.code c in
  ((9 <=? n) && (n <=? 13)) || ((28 <=? n) && (n <=? 32))
  || (n =? 133) || (n =? 160).

(** two characters, both digits, accepted by [ok] *)
Definition two (ok : Z -> Z -> bool) (k : Z -> string -> option R)
           (s : string) : option R :=
  match s with
  | String a (String b r) =>
      if is_digit a && is_digit b && ok (digit a) (digit b)
      then k (10 * digit a + digit b) r else None
  | _ => None
  end.

(** one digit accepted by [ok] *)
Definition one (ok : Z -> bool) (k : Z -> string -> option R)
           (s : string) : option R :=
  match s with
  | String a r => if is_digit a && ok (digit a) then k (digit a) r else None
  | _ => None
  end.

(** a literal character, in either case *)
Definition lit (c : ascii) (k : string -> option R) (s : string) : option R :=
  match s with
  | String a r =>
      if Ascii.eqb (PyStr.lower_char a) (PyStr.lower_char c) then k r else None
  | _ => None
  end.

(** [\s+], the longest run first *)
Fixpoint spaces (k : string -> option R) (s : string) : option R :=
  match s with
  | String c r => if is_space c then alt (spaces k r) (k r) else None
  | EmptyString => None
  end.

(** [\d\d\d\d] *)
Definition re_Y (k : Z -> string -> option R) (s : string) : option R :=
  match s with
  | String a (String b (String c (String d r))) =>
      if is_digit a && is_digit b && is_digit c && is_digit d
      then k (1000 * digit a + 100 * digit b + 10 * digit c + digit d) r
      else None
  | _ => None
  end.

(** [1[0-2]|0[1-9]|[1-9]] *)
Definition re_m (k : Z -> string -> option R) (s : string) : option R :=
  alt (two (fun a b => (a =? 1) && (b <=? 2)) k s)
 (alt (two (fun a b => (a =? 0) && (1 <=? b)) k s)
      (one (fun a => 1 <=? a) k s)).

(** [3[0-1]|[1-2]\d|0[1-9]|[1-9]| [1-9]] *)
Definition re_d (k : Z -> string -> option R) (s : string) : option R :=
  alt (two (fun a b => (a =? 3) && (b <=? 1)) k s)
 (alt (two (fun a b => (1 <=? a) && (a <=? 2)) k s)
 (alt (two (fun a b => (a =? 0) && (1 <=? b)) k s)
 (alt (one (fun a => 1 <=? a) k s)
      (lit PyStr.space (one (fun a => 1 <=? a) k) s)))).

(** [2[0-3]|[0-1]\d|\d] *)
Definition re_H (k : Z -> string -> option R) (s : string) : option R :=
  alt (two (fun a b => (a =? 2) && (b <=? 3)) k s)
 (alt (two (fun a b => a <=? 1) k s)
      (one (fun _ => true) k s)).

(** [[0-5]\d|\d] *)
Definition re_M (k : Z -> string -> option R) (s : string) : option R :=
  alt (two (fun a b => a <=? 5) k s)
      (one (fun _ => true) k s).

(** [6[0-1]|[0-5]\d|\d] *)
Definition re_S (k : Z -> string -> option R) (s : string) : option R :=
  alt (two (fun a b => (a =? 6) && (b <=? 1)) k s)
 (alt (two (fun a b => a <=? 5) k s)
      (one (fun _ => true) k s)).

(** [[0-9]{1,6}], the longest run first; the digits read are padded
    with zeros on the right to six. *)
Fixpoint frac_more (n : nat) (acc : Z) (k : Z -> string -> option R)
         (s : string) : option R :=
  match n with
  | O => k acc s
  | S n' =>
      let stop := k (acc * 10 ^ Z.of_nat n) s in
      match s with
      | String c r =>
          if is_digit c
          then alt (frac_more n' (10 * acc + digit c) k r) stop
          else stop
      | EmptyString => stop
      end
  end.

Definition re_f (k : Z -> string -> option R) (s : string) : option R :=
  match s with
  | String c r => if is_digit c then frac_more 5 (digit c) k r else None
  | EmptyString => None
  end.

End Pieces.

(** The whole expression; the match and the text after it. *)
Definition match_format (s : string) : option (datetime * string) :=
  re_Y (fun Y => spaces (lit "I" (re_m (fun m => re_d (fun d => spaces
    (re_H (fun H => lit ":" (re_M (fun M => lit ":" (re_S (fun S => lit "."
    (re_f (fun f rest =>
       Some (mk_datetime Y m d H M S f, rest)))))))))))))) s.

(** [datetime.datetime.strptime(s, DATE_TIME_FORMAT)] *)
Definition strptime (s : string) : result datetime :=
  match match_format s with
  | Some (d, EmptyString) => if valid d then Ok d else Raise ValueError
  | _ => Raise ValueError
  end.

End DateTime.


(** ** The cluster the helpers talk to

    The collaborators ([pod.get_csi_provisioner_pod], [pod.get_pod_logs],
    the clock) are outside this file.  A [cluster] fixes what they answer;
    the text of a log may differ from one call of [get_pod_logs] to the
    next, so it depends on the number of calls made before.  A [cluster]
    answers every call: the lookups are stated on the log that was read.
    The bulk measurements, whose course depends on the outcome of every
    read, take collaborators that can fail ([Bulk.env]). *)

Record cluster : Type := {
  get_csi_provisioner_pod : string -> list string;
  get_csi_snapshoter_pod : string;
  get_pod_logs : nat -> string -> option string -> option string -> string;
  now_year : Z
}.

(** A computation changes a state and may raise.  For the log readers the
    state is the number of calls of [get_pod_logs] made so far; for the
    orchestration it is the trace of calls to the collaborators. *)
Definition M (S A : Type) : Type := S -> result A * S.

Definition ret {S A} (a : A) : M S A := fun s => (Ok a, s).

Definition raise {S A} (e : exn) : M S A := fun s => (Raise e, s).

Definition lift {S A} (r : result A) : M S A := fun s => (r, s).

Definition bind {S A B} (m : M S A) (k : A -> M S B) : M S B :=
  fun s =>
    match m s with
    | (Ok a, s') => k a s'
    | (Raise e, s') => (Raise e, s')
    end.

Notation "'let!' x := m 'in' k" := (bind m (fun x => k))
  (at level 10, x name, m at level 100, k at level 200).

(** [for x in l: ...] collecting the results, stopping at the first
    exception. *)
Fixpoint map_result {A B} (f : A -> result B) (l : list A) : result (list B) :=
  match l with
  | [] => Ok []
  | x :: l' =>
      try! y := f x in
      try! ys := map_result f l' in
      Ok (y :: ys)
  end.

Module Helpers.

(** An object of the test library, as far as the helpers look at it. *)
Record OCS : Type := { name : string; kind : string }.

(** The argument that is either a name or a list of objects. *)
Inductive name_arg : Type :=
| Name (s : string)
| Objs (l : list OCS).

Section Correlator.
Variable c : cluster.

(** [pod.get_pod_logs(pod_name, container, namespace=namespace)] *)
Definition read_logs (pod : string) (container namespace : option string)
  : M nat string :=
  fun n => (Ok (get_pod_logs c n pod container namespace), S n).

(** [l[i]] *)
Definition index (l : list string) (i : nat) : result string :=
  match nth_error l i with
  | Some x => Ok x
  | None => Raise IndexError
  end.

(** The two reads every provisioner function starts with:
<<
logs = pod.get_pod_logs(pod_name[0], "csi-provisioner")
logs += pod.get_pod_logs(pod_name[1], "csi-provisioner")
logs = logs.split("\n")
>> *)
Definition provisioner_logs (pod_name : list string) : M nat (list string) :=
  let! p0 := lift (index pod_name 0) in
  let! l0 := read_logs p0 (Some "csi-provisioner") None in
  let! p1 := lift (index pod_name 1) in
  let! l1 := read_logs p1 (Some "csi-provisioner") None in
  ret (PyStr.split PyStr.newline (String.append l0 l1)).

(** [[i for i in logs if re.search(p, i)]] *)
Definition grep (p : string) (logs : list string) : list string :=
  List.filter (Re.search p) logs.

(** [f"provision.*{name}.*{operation}"] *)
Definition provision_pattern (name operation : string) : string :=
  String.append "provision.*" (String.append name (String.append ".*" operation)).

(** [f'delete "{pv}": {operation}'] *)
Definition delete_pattern (pv operation : string) : string :=
  String.append "delete "
    (String PyStr.dquote
       (String.append pv
          (String PyStr.dquote (String.append ": " operation)))).

(** [" ".join(line.split(" ")[0:2])] *)
Definition mon_day (line : string) : string :=
  PyStr.join " " (firstn 2 (PyStr.split PyStr.space line)).

(** [f"{this_year} {mon_day}"] *)
Definition stamp (this_year line : string) : string :=
  String.append this_year (String.append " " (mon_day line)).

Definition get_provision_time (interface : string) (pvc_name : name_arg)
           (status : string) : M nat DateTime.datetime :=
  let operation :=
    if String.eqb (PyStr.lower status) "end" then "succeeded" else "started" in
  let this_year := PyStr.str (now_year c) in
  let pod_name := get_csi_provisioner_pod c interface in
  let! logs := provisioner_logs pod_name in
  let! stat :=
    lift
      match pvc_name with
      | Name pvc_name =>
          try! line := PyStr.first (grep (provision_pattern pvc_name operation) logs) in
          Ok (stamp this_year line)
      | Objs pvc_name =>
          try! all_stats :=
            map_result
              (fun pv_name =>
                 try! line :=
                   PyStr.first (grep (provision_pattern (name pv_name) operation) logs) in
                 Ok (stamp this_year line))
              pvc_name in
          let sorted_stats := PyStr.sorted all_stats in
          if String.eqb (PyStr.lower status) "end" then PyStr.last sorted_stats
          else if String.eqb (PyStr.lower status) "start" then PyStr.first sorted_stats
          else match PyStr.last all_stats with
               | Ok stat => Ok stat
               | Raise _ => Raise UnboundLocalError
               end
      end in
  lift (DateTime.strptime stat).

Definition get_start_creation_time (interface pvc_name : string)
  : M nat DateTime.datetime :=
  let this_year := PyStr.str (now_year c) in
  let pod_name := get_csi_provisioner_pod c interface in
  let! logs := provisioner_logs pod_name in
  let start := grep (provision_pattern pvc_name "started") logs in
  let! line := lift (PyStr.first start) in
  lift (DateTime.strptime (stamp this_year line)).

Definition get_end_creation_time (interface pvc_name : string)
  : M nat DateTime.datetime :=
  let this_year := PyStr.str (now_year c) in
  let pod_name := get_csi_provisioner_pod c interface in
  let! logs := provisioner_logs pod_name in
  let end_ := grep (provision_pattern pvc_name "succeeded") logs in
  let! line := lift (PyStr.last end_) in
  lift (DateTime.strptime (stamp this_year line)).

Definition measure_pvc_creation_time (interface pvc_name : string) : M nat Q :=
  let! start := get_start_creation_time interface pvc_name in
  let! end_ := get_end_creation_time interface pvc_name in
  let total := DateTime.sub end_ start in
  ret (DateTime.total_seconds total).

Definition get_start_deletion_time (interface pv_name : string)
  : M nat DateTime.datetime :=
  let this_year := PyStr.str (now_year c) in
  let pod_name := get_csi_provisioner_pod c interface in
  let! logs := provisioner_logs pod_name in
  let start := grep (delete_pattern pv_name "started") logs in
  let! line := lift (PyStr.first start) in
  lift (DateTime.strptime (stamp this_year line)).

Definition get_end_deletion_time (interface pv_name : string)
  : M nat DateTime.datetime :=
  let this_year := PyStr.str (now_year c) in
  let pod_name := get_csi_provisioner_pod c interface in
  let! logs := provisioner_logs pod_name in
  let end_ := grep (delete_pattern pv_name "succeeded") logs in
  let! line := lift (PyStr.first end_) in
  lift (DateTime.strptime (stamp this_year line)).

Definition measure_pvc_deletion_time (interface pv_name : string) : M nat Q :=
  let! start := get_start_deletion_time interface pv_name in
  let! end_ := get_end_deletion_time interface pv_name in
  let total := DateTime.sub end_ start in
  ret (DateTime.total_seconds total).

(** *** The snapshot variant *)

(** The inner function of [get_snapshot_time]. *)
Fixpoint get_pattern_time (log : list string) (snapname pattern : string)
  : option string :=
  let this_year := PyStr.str (now_year c) in
  match log with
  | [] => None
  | line :: log' =>
      if Re.search snapname line && Re.search pattern line
      then Some (stamp this_year line)
      else get_pattern_time log' snapname pattern
  end.

(** [for log_pod in pod_name: logs += pod.get_pod_logs(log_pod, ...)] *)
Fixpoint read_all (pod_name : list string) (container : string)
         (logs : string) : M nat string :=
  match pod_name with
  | [] => ret logs
  | log_pod :: rest =>
      let! l := read_logs log_pod (Some container) None in
      read_all rest container (String.append logs l)
  end.

Fixpoint all_strings (l : list (option string)) : option (list string) :=
  match l with
  | [] => Some []
  | Some x :: l' =>
      match all_strings l' with
      | Some xs => Some (x :: xs)
      | None => None
      end
  | None :: _ => None
  end.

(** [sorted] on strings and [None]: with two elements or more every
    element is compared with another one, and comparing [None] is a
    [TypeError]. *)
Definition sorted_stats (l : list (option string))
  : result (list (option string)) :=
  match l with
  | [] | [_] => Ok l
  | _ =>
      match all_strings l with
      | Some xs => Ok (map Some (PyStr.sorted xs))
      | None => Raise TypeError
      end
  end.

(** The first half of [get_snapshot_time]: the pattern and the log text
    a status stands for; [None] for a status that is neither ["start"]
    nor ["end"], for which the function returns [None]. *)
Definition snapshot_source (interface status : string)
  : M nat (option (string * string)) :=
  if String.eqb (PyStr.lower status) "start" then
    let pattern := "Creating content for snapshot" in
    let pod_name := get_csi_snapshoter_pod c in
    let! logs := read_logs pod_name None (Some "openshift-cluster-storage-operator") in
    ret (Some (pattern, logs))
  else if String.eqb (PyStr.lower status) "end" then
    let pattern := "readyToUse true" in
    let pod_name := get_csi_provisioner_pod c interface in
    let! logs := read_all pod_name "csi-snapshotter" EmptyString in
    ret (Some (pattern, logs))
  else ret None.

Definition get_snapshot_time (interface : string) (snap_name : name_arg)
           (status : string) : M nat (option DateTime.datetime) :=
  let! source := snapshot_source interface status in
  match source with
  | None => ret None
  | Some (pattern, logs) =>
      let logs := PyStr.split PyStr.newline logs in
      let! stat :=
        lift
          match snap_name with
          | Name snap_name => Ok (get_pattern_time logs snap_name pattern)
          | Objs snap_name =>
              let all_stats :=
                map (fun snapname => get_pattern_time logs (name snapname) pattern)
                    snap_name in
              try! all_stats := sorted_stats all_stats in
              if String.eqb (PyStr.lower status) "end" then PyStr.last all_stats
              else if String.eqb (PyStr.lower status) "start" then PyStr.first all_stats
              else Ok None
          end in
      match stat with
      | Some (String a stat') =>
          let! d := lift (DateTime.strptime (String a stat')) in
          ret (Some d)
      | _ => ret None
      end
  end.

End Correlator.

(** *** Unique names *)

(** [uuid_hex] is the text [uuid4().hex] returned: 32 hexadecimal
    digits. *)
Definition create_unique_resource_name (uuid_hex : string)
           (resource_description resource_type : string) : string :=
  let name :=
    String.append resource_type
      (String.append "-"
         (String.append (PyStr.take 23 resource_description)
            (String.append "-" uuid_hex))) in
  if PyStr.len name <? 40 then name else PyStr.take 40 name.

(** *** Waiting, creating and deleting

    The collaborators ([resource.ocp.wait_for_resource],
    [resource.reload], [resource.describe], [obj.delete] and the creation
    of resources from their manifests) are outside this file.  An [api]
    fixes what they answer; every call to them is appended to a trace. *)

Record pod_options : Type := {
  interface_type : string;
  pvc_name : string;
  do_reload : bool;
  namespace : string;
  raw_block_pv : bool;
  pod_dict_path : option string;
  sa_name : option string;
  dc_deployment : bool;
  node_selector : option (list (string * string))
}.

Inductive call : Type :=
| WaitForResource (resource_name condition : string) (timeout : Z)
| Reload (resource_name : string)
| Describe (resource_name : string)
| Delete (resource_name : string)
| CreateMultiplePvcs (sc_name namespace : string) (number_of_pvc : Z)
                     (access_mode size : string)
| CreatePod (o : pod_options).

Record api : Type := {
  DEFAULT_STORAGECLASS_CEPHFS : string;
  DEFAULT_STORAGECLASS_RBD : string;
  CSI_RBD_RAW_BLOCK_POD_YAML : string;
  wait_for_resource : string -> string -> Z -> result bool;
  reload : string -> result unit;
  describe : string -> result string;
  delete : string -> result unit;
  create_multiple_pvcs : string -> string -> Z -> string -> string -> result (list OCS);
  create_pod : pod_options -> result OCS
}.

Definition trace : Type := list call.

(** A call to a collaborator: it is recorded, and its answer is the
    outcome. *)
Definition do_call {A} (ev : call) (answer : result A) : M trace A :=
  fun tr => (answer, app tr [ev]).

(** [try: body  except TimeoutExpiredError: handler] *)
Definition except_timeout {S A} (body handler : M S A) : M S A :=
  fun s =>
    match body s with
    | (Raise TimeoutExpiredError, s') => handler s'
    | r => r
    end.

(** [for x in l] in a computation, collecting the results. *)
Fixpoint for_each {S A B} (l : list A) (f : A -> M S B) : M S (list B) :=
  match l with
  | [] => ret []
  | x :: l' =>
      let! y := f x in
      let! ys := for_each l' f in
      ret (y :: ys)
  end.

(** A value a worker can hand back, as far as [False in [...]] tells
    them apart. *)
Inductive pyval : Type :=
| PyNone
| PyBool (b : bool)
| PyObj (o : OCS).

(** [False in l]: [False == None] and [False == obj] are false. *)
Definition False_in (l : list pyval) : bool :=
  existsb (fun v => match v with PyBool false => true | _ => false end) l.

(** [executor.submit(task)]: the worker runs the task and the future
    keeps how it ended.  Leaving the [with ThreadPoolExecutor()] block
    waits for every worker, so all the tasks submitted in a block have
    run when the block is over.  The workers of a block run side by side;
    the trace lists their calls in the order of submission, and the
    answers of the collaborators do not depend on that order. *)
Definition future (A : Type) : Type := result A.

Definition submit {A} (task : M trace A) : M trace (future A) :=
  fun tr => let (r, tr') := task tr in (Ok r, tr').

(** [future.result()]: the value, or the exception of the worker raised
    again. *)
Definition future_result {A} (f : future A) : M trace A := lift f.

(** [threading.Thread(target=task).start()]: an exception of the target
    ends the thread and is reported by the thread's excepthook; nothing
    keeps it.  [join] waits and returns [None]. *)
Definition start_thread {A} (task : M trace A) : M trace unit :=
  fun tr => let (_, tr') := task tr in (Ok tt, tr').

Definition join (process : unit) : M trace unit := ret tt.

Section Orchestration.
Variable a : api.

Definition wait_for_resource_state (resource : OCS) (state : string)
           (timeout : Z) : M trace unit :=
  if String.eqb (name resource) (DEFAULT_STORAGECLASS_CEPHFS a)
     || String.eqb (name resource) (DEFAULT_STORAGECLASS_RBD a)
  then ret tt
  else
    except_timeout
      (let! _ := do_call (WaitForResource (name resource) state timeout)
                         (wait_for_resource a (name resource) state timeout) in
       ret tt)
      (let! _ := do_call (Reload (name resource)) (reload a (name resource)) in
       let! d := do_call (Describe (name resource)) (describe a (name resource)) in
       raise (ResourceWrongStatusException (name resource) d)).

(** [[item for sublist in list_to_converge for item in sublist]] *)
Definition converge_lists {A} (list_to_converge : list (list A)) : list A :=
  concat list_to_converge.

Definition create_multiple_pvc_parallel (sc_obj : OCS) (namespace : string)
           (number_of_pvc : Z) (size : string) (access_modes : list string)
  : M trace (list OCS) :=
  let! result_lists :=
    for_each access_modes
      (fun mode =>
         submit (do_call
                   (CreateMultiplePvcs (name sc_obj) namespace number_of_pvc mode size)
                   (create_multiple_pvcs a (name sc_obj) namespace number_of_pvc mode size))) in
  let! result_list := for_each result_lists future_result in
  let pvc_objs_list := converge_lists result_list in
  let! obj_status_list :=
    for_each pvc_objs_list
      (fun objs => submit (wait_for_resource_state objs "Bound" 90)) in
  let! statuses := for_each obj_status_list future_result in
  if False_in (map (fun _ : unit => PyNone) statuses)
  then raise TimeoutExpiredError
  else ret pvc_objs_list.

Definition create_pods_parallel (pvc_list : list OCS) (namespace interface : string)
           (pod_dict_path sa_name : option string)
           (raw_block_pv dc_deployment : bool)
           (node_selector : option (list (string * string)))
  : M trace (list OCS) :=
  let wait_time := 300 in
  let pod_dict_path :=
    match raw_block_pv, pod_dict_path with
    | true, None => Some (CSI_RBD_RAW_BLOCK_POD_YAML a)
    | true, Some EmptyString => Some (CSI_RBD_RAW_BLOCK_POD_YAML a)
    | _, _ => pod_dict_path
    end in
  let! future_pod_objs :=
    for_each pvc_list
      (fun pvc_obj =>
         let o := {| interface_type := interface;
                     pvc_name := name pvc_obj;
                     do_reload := false;
                     namespace := namespace;
                     raw_block_pv := raw_block_pv;
                     pod_dict_path := pod_dict_path;
                     sa_name := sa_name;
                     dc_deployment := dc_deployment;
                     node_selector := node_selector |} in
         submit (do_call (CreatePod o) (create_pod a o))) in
  let! pod_objs := for_each future_pod_objs future_result in
  let! waits :=
    for_each pod_objs
      (fun obj => submit (wait_for_resource_state obj "Running" wait_time)) in
  (* the waits were appended to [future_pod_objs] *)
  let! created := for_each future_pod_objs future_result in
  let! statuses := for_each waits future_result in
  if False_in (app (map PyObj created) (map (fun _ : unit => PyNone) statuses))
  then raise TimeoutExpiredError
  else ret pod_objs.

Definition delete_objs_parallel (obj_list : list OCS) : M trace bool :=
  let! threads :=
    for_each obj_list
      (fun obj =>
         start_thread (do_call (Delete (name obj)) (delete a (name obj)))) in
  let! _ := for_each threads join in
  ret true.

End Orchestration.

End Helpers.

Import Helpers.

(** * The bulk measurements

    [measure_pvc_creation_time_bulk] and [measure_pv_deletion_time_bulk]
    are the same text in the source up to the two patterns, which
    [started] and [succeeded] stand for.  Here the collaborators can fail:
    [pod.get_csi_provisioner_pod] and [pod.get_pod_logs] run commands on
    the cluster, and [time.sleep] may not come to its end.  An [env]
    fixes what they answer; the answer of [get_pod_logs] may change from
    one call to the next, and the state is the number of its calls. *)

Module Bulk.

Record env : Type := {
  get_csi_provisioner_pod : string -> result (list string);
  time_sleep : Z -> result unit;
  get_pod_logs : nat -> string -> option string -> option string -> result string;
  now_year : Z
}.

Section Measure.
Variable e : env.

(** [time.sleep(wait_time)]: a negative time is a [ValueError]; how a
    sleep of another length ends is the answer of [time_sleep]. *)
Definition sleep (wait_time : Z) : result unit :=
  if wait_time <? 0 then Raise ValueError else time_sleep e wait_time.

(** [pod.get_pod_logs(pod_name, container)] *)
Definition read_logs (pod : string) (container namespace : option string)
  : M nat string :=
  fun n => (get_pod_logs e n pod container namespace, S n).

(** The sleep and the two reads that come before the loop and again in
    every round of it:
<<
time.sleep(wait_time)
logs = pod.get_pod_logs(pod_name[0], "csi-provisioner")
logs += pod.get_pod_logs(pod_name[1], "csi-provisioner")
logs = logs.split("\n")
>> *)
Definition fetch (wait_time : Z) (pod_name : list string) : M nat (list string) :=
  let! _ := lift (sleep wait_time) in
  let! p0 := lift (index pod_name 0) in
  let! l0 := read_logs p0 (Some "csi-provisioner") None in
  let! p1 := lift (index pod_name 1) in
  let! l1 := read_logs p1 (Some "csi-provisioner") None in
  ret (PyStr.split PyStr.newline (String.append l0 l1)).

Section Patterns.
Variables started succeeded : string -> string.

(** The subjects a log has no start line or no end line for. *)
Definition no_data (logs : list string) (names : list string) : list string :=
  List.filter
    (fun name =>
       match grep (started name) logs, grep (succeeded name) logs with
       | _ :: _, _ :: _ => false
       | _, _ => true
       end)
    names.

(** The [while True] loop.  [fuel] bounds the number of iterations of
    the model; [None] is a loop that was not over when it ran out. *)
Fixpoint await_data (fuel : nat) (wait_time : Z) (pod_name names : list string)
         (loop_counter : Z) (logs : list string)
  : M nat (option (list string)) :=
  match fuel with
  | O => ret None
  | S fuel' =>
      let no_data_list := no_data logs names in
      match no_data_list with
      | _ :: _ =>
          let! logs := fetch wait_time pod_name in
          let loop_counter := loop_counter + 1 in
          if loop_counter >=? 6
          then raise (UnexpectedBehaviour no_data_list)
          else await_data fuel' wait_time pod_name names loop_counter logs
      | [] => ret (Some logs)
      end
  end.

(** The loop that fills the dictionary. *)
Fixpoint fill (this_year : string) (logs : list string)
         (names : list string) (d : gmap string Q)
  : result (gmap string Q) :=
  match names with
  | [] => Ok d
  | pvc_name :: rest =>
      try! start := PyStr.first (grep (started pvc_name) logs) in
      try! start_time := DateTime.strptime (stamp this_year start) in
      try! end_ := PyStr.first (grep (succeeded pvc_name) logs) in
      try! end_time := DateTime.strptime (stamp this_year end_) in
      let total := DateTime.sub end_time start_time in
      fill this_year logs rest (<[pvc_name := DateTime.total_seconds total]> d)
  end.

Definition measure_bulk (fuel : nat) (interface : string)
           (names : list string) (wait_time : Z)
  : M nat (option (gmap string Q)) :=
  let! pod_name := lift (get_csi_provisioner_pod e interface) in
  let! logs := fetch wait_time pod_name in
  let! logs := await_data fuel wait_time pod_name names 0 logs in
  match logs with
  | None => ret None
  | Some logs =>
      let this_year := PyStr.str (now_year e) in
      let! d := lift (fill this_year logs names ∅) in
      ret (Some d)
  end.

End Patterns.

Definition measure_pvc_creation_time_bulk :=
  measure_bulk (fun name => provision_pattern name "started")
               (fun name => provision_pattern name "succeeded").

Definition measure_pv_deletion_time_bulk :=
  measure_bulk (fun pv => delete_pattern pv "started")
               (fun pv => delete_pattern pv "succeeded").

End Measure.

End Bulk.

(** * Further helpers of the file *)

(** ** More of Python *)

Module Py.

(** [sub in s] on strings. *)
Fixpoint contains (sub s : string) : bool :=
  String.prefix sub s
  || match s with
     | EmptyString => false
     | String _ s' => contains sub s'
     end.

(** What a [for] loop gets from an iterator: the values it yields, and the
    way it ends, with the exception it raises or, for an iterator that is
    exhausted, with none. *)
Record iterator (S : Type) : Type := {
  yields : list S;
  ending : option exn
}.

Arguments yields {S} _.
Arguments ending {S} _.

(** The helpers below also fail with an [assert] and with a key that a
    dictionary does not hold. *)
Inductive error : Type :=
| Exn (e : exn)
| AssertionError (msg : string)
| KeyError (key : string).

Inductive outcome (A : Type) : Type :=
| Returns (a : A)
| Fails (e : error).

Arguments Returns {A} _.
Arguments Fails {A} _.

Definition of_result {A} (r : result A) : outcome A :=
  match r with
  | Ok a => Returns a
  | Raise e => Fails (Exn e)
  end.

End Py.

Module Housekeeping.

(** *** Deleting one object after the other *)

Section Deleting.
Variable a : api.

Definition delete_storageclasses (sc_objs : list OCS) : M trace bool :=
  let! _ :=
    for_each sc_objs
      (fun sc => do_call (Delete (name sc)) (delete a (name sc))) in
  ret true.

Definition delete_cephblockpools (cbp_objs : list OCS) : M trace bool :=
  let! _ :=
    for_each cbp_objs
      (fun cbp => do_call (Delete (name cbp)) (delete a (name cbp))) in
  ret true.

End Deleting.

(** *** The replica count of a deployment

    [ocp.OCP(kind, namespace).patch(resource_name, params)] is outside this
    file; an [ocp] fixes what it answers, and every patch is appended to a
    trace. *)

Inductive ocp_call : Type :=
| Patch (kind namespace resource_name params : string).

Record ocp : Type := {
  DEPLOYMENT : string;
  ROOK_CLUSTER_NAMESPACE : string;
  patch : string -> string -> string -> string -> result bool
}.

Section Replicas.
Variable o : ocp.

(** [f'{{"spec": {{"replicas": {replica_count}}}}}'] *)
Definition replica_params (replica_count : Z) : string :=
  let q := String PyStr.dquote EmptyString in
  String.append "{"
    (String.append q
       (String.append "spec"
          (String.append q
             (String.append ": {"
                (String.append q
                   (String.append "replicas"
                      (String.append q
                         (String.append ": "
                            (String.append (PyStr.str replica_count) "}}"))))))))).

Definition dash : ascii := ascii_of_nat 45.

Definition modify_osd_replica_count (resource_name : string) (replica_count : Z)
  : M (list ocp_call) bool :=
  let params := replica_params replica_count in
  let resource_name :=
    PyStr.join "-" (firstn 4 (PyStr.split dash resource_name)) in
  fun tr =>
    (patch o (DEPLOYMENT o) (ROOK_CLUSTER_NAMESPACE o) resource_name params,
     app tr [Patch (DEPLOYMENT o) (ROOK_CLUSTER_NAMESPACE o) resource_name params]).

Definition modify_deployment_replica_count (deployment_name : string)
           (replica_count : Z) : M (list ocp_call) bool :=
  let params := replica_params replica_count in
  fun tr =>
    (patch o (DEPLOYMENT o) (ROOK_CLUSTER_NAMESPACE o) deployment_name params,
     app tr [Patch (DEPLOYMENT o) (ROOK_CLUSTER_NAMESPACE o) deployment_name params]).

End Replicas.

(** *** Waiting for a count to change

    [TimeoutSampler(timeout, interval, func, namespace, **kwargs)] is
    outside this file: iterating over it yields what [func] returns, call
    after call, and it raises [TimeoutExpiredError] when the time is over.
    A [sampler] fixes, for the arguments it is made with, the samples it
    yields and how it ends.  The functions the helper supports are
    [pod.get_all_pods], which returns a list of pods, and
    [pod.get_all_pvcs], which returns a listing with its [items]. *)

Inductive fetcher : Type :=
| get_all_pods
| get_all_pvcs.

Record listing : Type := { items : list OCS }.

Definition sample (f : fetcher) : Type :=
  match f with
  | get_all_pods => list OCS
  | get_all_pvcs => listing
  end.

Definition sampler : Type :=
  forall f : fetcher,
    Z -> Z -> string -> list (string * string) -> Py.iterator (sample f).

(** [len(sample)] for the pods, [len(sample["items"])] otherwise. *)
Definition current_num (func_to_use : fetcher) : sample func_to_use -> Z :=
  match func_to_use with
  | get_all_pods => fun s => Z.of_nat (length s)
  | get_all_pvcs => fun s => Z.of_nat (length (items s))
  end.

(** The result is [None] when the loop ends without a [return]. *)
Definition wait_for_resource_count_change (TimeoutSampler : sampler)
           (func_to_use : fetcher) (previous_num : Z)
           (namespace change_type : string)
           (min_difference timeout interval : Z)
           (func_kwargs : list (string * string)) : result (option bool) :=
  let it := TimeoutSampler func_to_use timeout interval namespace func_kwargs in
  (fix loop (l : list (sample func_to_use)) : result (option bool) :=
     match l with
     | [] =>
         match Py.ending it with
         | Some TimeoutExpiredError => Ok (Some false)
         | Some e => Raise e
         | None => Ok None
         end
     | s :: l' =>
         let count_diff :=
           if String.eqb change_type "increase"
           then current_num func_to_use s - previous_num
           else previous_num - current_num func_to_use s in
         if min_difference <=? count_diff then Ok (Some true) else loop l'
     end) (Py.yields it).

(** *** The recovery of the Ceph tools pod

    [pod.get_ceph_tools_pod()] and the command run on that pod are outside
    this file.  Of the reply to [ceph auth get-key client.admin] the code
    reads the entry [key]. *)

Record toolbox : Type := {
  cluster_namespace : string;
  TOOL_APP_LABEL : string;
  get_ceph_tools_pod : result unit;
  ceph_auth_get_key : result string;
  TimeoutSampler : sampler
}.

Section Toolbox.
Variable t : toolbox.

Definition get_admin_key : result string :=
  try! ct_pod := get_ceph_tools_pod t in
  ceph_auth_get_key t.

(** [str(ex)] of a [CommandFailed] is its message. *)
Definition wait_for_ct_pod_recovery : result bool :=
  match get_admin_key with
  | Ok _ => Ok true
  | Raise (CommandFailed ex) =>
      if Py.contains "connection timed out" ex
      then
        try! _ := wait_for_resource_count_change (TimeoutSampler t)
                    get_all_pods 1 (cluster_namespace t) "increase" 1 120 2
                    [("selector", TOOL_APP_LABEL t)] in
        Ok true
      else Ok false
  | Raise e => Raise e
  end.

End Toolbox.

End Housekeeping.

Import Housekeeping.

(** ** Volumes in the backend *)

Module Backend.

Import Py.

(** A computation that runs commands on the Ceph tools pod: the state is
    the number of commands run so far. *)
Definition B (A : Type) : Type := nat -> outcome A * nat.

Definition unit_ {A} (a : A) : B A := fun n => (Returns a, n).

Definition fail {A} (e : error) : B A := fun n => (Fails e, n).

Definition then_ {A C} (m : B A) (k : A -> B C) : B C :=
  fun n =>
    match m n with
    | (Returns a, n') => k a n'
    | (Fails e, n') => (Fails e, n')
    end.

Notation "'do!' x := m 'in' k" := (then_ m (fun x => k))
  (at level 10, x name, m at level 100, k at level 200).

(** The collaborators.  [CEPHBLOCKPOOL] and [CEPHFILESYSTEM] are the
    constants of that name.  [ceph_fs_ls] is the reply to [ceph fs ls] as
    the code reads it, the name of each file system listed;
    [exec_ceph_cmd] answers the commands whose reply is not read.  Both
    may answer differently from one command to the next.  [ocp_get kind
    name] is [ocp.OCP(kind=kind, namespace=...).get(resource_name=name,
    dont_raise=True)], of which the code reads the entry [kind].
    [pod_logs] is [pod.get_pod_logs] with its argument [previous].
    [TimeoutSampler timeout interval interface image_uuid pool_name] is
    what iterating over the sampler of [is_volume_present_in_backend]
    gives. *)
Record ceph : Type := {
  CEPHBLOCKPOOL : string;
  CEPHFILESYSTEM : string;
  get_ceph_tools_pod : result unit;
  ceph_fs_ls : nat -> result (list string);
  exec_ceph_cmd : nat -> string -> result unit;
  ocp_get : string -> option string -> result (option string);
  pod_logs : string -> string -> option string -> bool -> result string;
  TimeoutSampler : Z -> Z -> string -> string -> option string -> Py.iterator bool
}.

(** [f"{x}"] for a string or [None]. *)
Definition fmt (x : option string) : string :=
  match x with
  | Some s => s
  | None => "None"
  end.

Section Volumes.
Variable c : ceph.

Definition call {A} (r : result A) : B A := fun n => (of_result r, n).

Definition exec {A} (answer : nat -> result A) : B A :=
  fun n => (of_result (answer n), S n).

Definition get_cephfs_name : B string :=
  do! ct_pod := call (get_ceph_tools_pod c) in
  do! result := exec (ceph_fs_ls c) in
  call (PyStr.first result).

Definition get_pool_cr (pool_name : option string) : B (option string) :=
  do! pool_cr := call (ocp_get c (CEPHBLOCKPOOL c) pool_name) in
  match pool_cr with
  | Some _ => unit_ pool_cr
  | None => call (ocp_get c "CephFilesystem" pool_name)
  end.

(** [any([error in str(ecf) for error in valid_error])] *)
Definition any_in (valid_error : list string) (ecf : string) : bool :=
  existsb (fun error => Py.contains error ecf) valid_error.

Definition is_volume_present_in_backend (interface image_uuid : string)
           (pool_name : option string) : B bool :=
  let cmd := EmptyString in
  let valid_error := @nil string in
  do! ct_pod := call (get_ceph_tools_pod c) in
  let '(valid_error, cmd) :=
    if String.eqb interface (CEPHBLOCKPOOL c)
    then ([String.append "error opening image csi-vol-" image_uuid],
          String.append "rbd info -p "
            (String.append (fmt pool_name)
               (String.append " csi-vol-" image_uuid)))
    else (valid_error, cmd) in
  do! p :=
    if String.eqb interface (CEPHFILESYSTEM c)
    then
      do! fs := get_cephfs_name in
      unit_ ([String.append "Subvolume 'csi-vol-"
                (String.append image_uuid "' not found");
              String.append "subvolume 'csi-vol-"
                (String.append image_uuid "' does not exist")],
             String.append "ceph fs subvolume getpath "
               (String.append fs
                  (String.append " csi-vol-"
                     (String.append image_uuid " csi"))))
    else unit_ (valid_error, cmd) in
  let '(valid_error, cmd) := p in
  fun n =>
    match exec_ceph_cmd c n cmd with
    | Ok _ => (Returns true, S n)
    | Raise (CommandFailed ecf) =>
        if any_in valid_error ecf
        then (Returns false, S n)
        else
          (Fails
             (AssertionError
                (String.append
                   "Error occurred while verifying volume is present in backend: "
                   (String.append ecf
                      (String.append " ImageUUID: "
                         (String.append image_uuid
                            (String.append ". Interface type: " interface)))))),
           S n)
    | Raise e => (Fails (Exn e), S n)
    end.

Definition verify_volume_deleted_in_backend (interface image_uuid : string)
           (pool_name : option string) (timeout : Z) : B bool :=
  let it := TimeoutSampler c timeout 2 interface image_uuid pool_name in
  (fix loop (l : list bool) : B bool :=
     match l with
     | [] =>
         match Py.ending it with
         | None => unit_ true
         | Some TimeoutExpiredError =>
             do! ct_pod := call (get_ceph_tools_pod c) in
             do! _ := exec (fun n => exec_ceph_cmd c n "ceph progress json") in
             do! _ := exec (fun n => exec_ceph_cmd c n "ceph rbd task list") in
             unit_ false
         | Some e => fail (Exn e)
         end
     | ret :: l' => if negb ret then unit_ true else loop l'
     end) (Py.yields it).

Definition delete_volume_in_backend (img_uuid : string)
           (pool_name : option string) : B bool :=
  let cmd := EmptyString in
  let valid_error := @nil string in
  do! pool_cr := get_pool_cr pool_name in
  match pool_cr with
  | None => unit_ false
  | Some kind =>
      let interface :=
        if String.eqb kind "CephFilesystem" then "CephFileSystem" else kind in
      do! image_present_results :=
        is_volume_present_in_backend interface img_uuid pool_name in
      if image_present_results : bool
      then
        let '(valid_error, cmd) :=
          if String.eqb interface (CEPHBLOCKPOOL c)
          then (["No such file or directory"],
                String.append "rbd rm -p "
                  (String.append (fmt pool_name)
                     (String.append " csi-vol-" img_uuid)))
          else (valid_error, cmd) in
        do! p :=
          if String.eqb interface (CEPHFILESYSTEM c)
          then
            do! fs := get_cephfs_name in
            unit_ ([String.append "Subvolume 'csi-vol-"
                      (String.append img_uuid "' not found");
                    String.append "subvolume 'csi-vol-"
                      (String.append img_uuid "' does not exist")],
                   String.append "ceph fs subvolume rm "
                     (String.append fs
                        (String.append " csi-vol-"
                           (String.append img_uuid " csi"))))
          else unit_ (valid_error, cmd) in
        let '(valid_error, cmd) := p in
        do! ct_pod := call (get_ceph_tools_pod c) in
        do! refused :=
          (fun n =>
             match exec_ceph_cmd c n cmd with
             | Ok _ => (Returns false, S n)
             | Raise (CommandFailed ecf) => (Returns (any_in valid_error ecf), S n)
             | Raise e => (Fails (Exn e), S n)
             end) in
        if refused : bool
        then unit_ false
        else
          do! verify_img_delete_result :=
            is_volume_present_in_backend interface img_uuid pool_name in
          if negb verify_img_delete_result then unit_ true else unit_ false
      else unit_ false
  end.

(** [pod_log.find("signal: killed") != -1] is [Py.contains]. *)
Definition validate_pod_oomkilled (pod_name namespace : string)
           (container : option string) : outcome bool :=
  let q := String PyStr.dquote EmptyString in
  match pod_logs c pod_name namespace container true with
  | Ok pod_log =>
      if Py.contains "signal: killed" pod_log then Returns false else Returns true
  | Raise (CommandFailed ecf) =>
      if Py.contains
           (String.append "previous terminated container "
              (String.append q
                 (String.append (fmt container)
                    (String.append q
                       (String.append " in pod "
                          (String.append q
                             (String.append pod_name
                                (String.append q " not found"))))))))
           ecf
      then Returns true
      else Fails (AssertionError "Failed to fetch logs")
  | Raise e => Fails (Exn e)
  end.

End Volumes.

End Backend.

(** ** Pods for a list of PVCs *)

Module Pods.

(** A PVC object, as far as [create_pods] looks at it: the attributes
    [volume_mode] and [access_mode] when the object has them, each a
    string or [None]; [pvc_obj.get()["spec"]["volumeMode"]]; and what
    reading [pvc_obj.get_pvc_access_mode] gives, [None] standing for a
    value that is not a string. *)
Record PVC : Type := {
  pvc_name : string;
  volume_mode : option (option string);
  access_mode : option (option string);
  get_spec_volumeMode : result (option string);
  get_pvc_access_mode : result (option string)
}.

(** The keyword arguments of a call of [pod_factory]. *)
Record factory_args : Type := {
  interface : string;
  pvc : PVC;
  status : string;
  node_name : option string;
  pod_dict_path : string;
  raw_block_pv : bool
}.

Record env : Type := {
  ACCESS_MODE_RWX : string;
  CSI_RBD_RAW_BLOCK_POD_YAML : string;
  pod_factory : factory_args -> result OCS
}.

(** [v == s] for a value that is a string or [None]. *)
Definition is_str (v : option string) (s : string) : bool :=
  match v with
  | Some x => String.eqb x s
  | None => false
  end.

(** The state of [create_pods]: what [cycle(nodes)] still has to yield
    before it starts the list again, and the calls of [pod_factory] made
    so far. *)
Definition state : Type := (list string * list factory_args)%type.

Section CreatePods.
Variable e : env.

(** [next(nodes_iter) if nodes_iter else None]; [nodes_iter] is [None]
    for no list and for the empty list. *)
Definition next_node (nodes : option (list string)) : M state (option string) :=
  match nodes with
  | Some (first :: others) =>
      fun s =>
        match fst s with
        | x :: rest => (Ok (Some x), (rest, snd s))
        | [] => (Ok (Some first), (others, snd s))
        end
  | _ => ret None
  end.

Definition make_pod (interface : string) (pvc_obj : PVC) (status : string)
           (nodes : option (list string)) (pod_dict : string)
           (raw_block_pv : bool) : M state OCS :=
  let! node := next_node nodes in
  let args := {| interface := interface;
                 pvc := pvc_obj;
                 status := status;
                 node_name := node;
                 pod_dict_path := pod_dict;
                 raw_block_pv := raw_block_pv |} in
  fun s => (pod_factory e args, (fst s, app (snd s) [args])).

Definition pods_of_pvc (interface : string) (pods_for_rwx : Z) (status : string)
           (nodes : option (list string)) (pvc_obj : PVC) : M state (list OCS) :=
  let! from_spec := lift (get_spec_volumeMode pvc_obj) in
  let volume_mode :=
    match volume_mode pvc_obj with
    | Some v => v
    | None => from_spec
    end in
  let! from_property := lift (get_pvc_access_mode pvc_obj) in
  let access_mode :=
    match access_mode pvc_obj with
    | Some v => v
    | None => from_property
    end in
  let '(pod_dict, raw_block_pv) :=
    if is_str volume_mode "Block"
    then (CSI_RBD_RAW_BLOCK_POD_YAML e, true)
    else (EmptyString, false) in
  let! pod_obj_rwx :=
    if is_str access_mode (ACCESS_MODE_RWX e)
    then
      for_each (seq 1 (Z.to_nat (pods_for_rwx - 1)))
        (fun _ => make_pod interface pvc_obj status nodes pod_dict raw_block_pv)
    else ret [] in
  let! pod_obj := make_pod interface pvc_obj status nodes pod_dict raw_block_pv in
  ret (app pod_obj_rwx [pod_obj]).

Definition create_pods (pvc_objs : list PVC) (interface : string)
           (pods_for_rwx : Z) (status : string) (nodes : option (list string))
  : M (list factory_args) (list OCS) :=
  fun made =>
    let nodes_iter :=
      match nodes with
      | Some l => l
      | None => []
      end in
    let r :=
      (let! pod_objs :=
         for_each pvc_objs (pods_of_pvc interface pods_for_rwx status nodes) in
       ret (concat pod_objs)) (nodes_iter, made) in
    (fst r, snd (snd r)).

End CreatePods.

End Pods.

(** ** The start time of a pod *)

Module PodStart.
Import Py.

(** [pod_obj.data["status"]], as far as [pod_start_time] reads it.  A pod
    that is not scheduled yet has no [startTime] and no
    [containerStatuses]; the [state] of a container holds [running], with
    its [startedAt], only while the container is running. *)
Record container_status : Type := {
  container_name : string;
  running_startedAt : option string
}.

Record pod_status : Type := {
  startTime : option string;
  containerStatuses : option (list container_status)
}.

(** [strptime] with the format ["%Y-%m-%dT%H:%M:%SZ"]: the regular
    expression is
<<
 (?P<Y>\d\d\d\d)-(?P<m>1[0-2]|0[1-9]|[1-9])-
 (?P<d>3[0-1]|[1-2]\d|0[1-9]|[1-9]| [1-9])T
 (?P<H>2[0-3]|[0-1]\d|\d):(?P<M>[0-5]\d|\d):(?P<S>6[0-1]|[0-5]\d|\d)Z
>>
    matched as for [DATE_TIME_FORMAT]. *)
Definition match_format (s : string) : option (DateTime.datetime * string) :=
  DateTime.re_Y (fun Y => DateTime.lit "-" (DateTime.re_m (fun m =>
    DateTime.lit "-" (DateTime.re_d (fun d => DateTime.lit "T"
    (DateTime.re_H (fun H => DateTime.lit ":" (DateTime.re_M (fun M =>
    DateTime.lit ":" (DateTime.re_S (fun S => DateTime.lit "Z"
    (fun rest =>
       Some (DateTime.mk_datetime Y m d H M S 0, rest))))))))))))) s.

Definition strptime (s : string) : outcome DateTime.datetime :=
  match match_format s with
  | Some (d, EmptyString) =>
      if DateTime.valid d then Returns d else Fails (Exn ValueError)
  | _ => Fails (Exn ValueError)
  end.

(** The [return] is inside the loop: the first round ends the function.
    The result is [None] when the loop has no round. *)
Definition pod_start_time (pod_obj : pod_status)
  : outcome (option (gmap string Z)) :=
  let containers_start_time : gmap string Z := ∅ in
  match startTime pod_obj with
  | None => Fails (KeyError "startTime")
  | Some start_time =>
      match strptime start_time with
      | Fails e => Fails e
      | Returns start_time =>
          match containerStatuses pod_obj with
          | None => Fails (KeyError "containerStatuses")
          | Some [] => Returns None
          | Some (container :: _) =>
              match running_startedAt container with
              | None => Fails (KeyError "running")
              | Some started_time =>
                  match strptime started_time with
                  | Fails e => Fails e
                  | Returns started_time =>
                      let container_start_time :=
                        DateTime.seconds (DateTime.sub started_time start_time) in
                      Returns
                        (Some (<[container_name container := container_start_time]>
                                 containers_start_time))
                  end
              end
          end
      end
  end.

End PodStart.

(** * The vocabulary of the statements *)

(** The lines a provisioner function works on when it starts after [n]
    calls of [get_pod_logs] and the provisioner pods are [p0] and [p1]. *)
Definition logs_at (c : cluster) (p0 p1 : string) (n : nat) : list string :=
  PyStr.split PyStr.newline
    (String.append (get_pod_logs c n p0 (Some "csi-provisioner") None)
                   (get_pod_logs c (S n) p1 (Some "csi-provisioner") None)).

(** The marker a status stands for in [get_provision_time]. *)
Definition marker (status : string) : string :=
  if String.eqb (PyStr.lower status) "end" then "succeeded" else "started".

(** The text [create_unique_resource_name] cuts the name from. *)
Definition full_name (uuid_hex resource_description resource_type : string) : string :=
  String.append resource_type
    (String.append "-"
       (String.append (PyStr.take 23 resource_description)
          (String.append "-" uuid_hex))).

(** The part of that text before the uuid. *)
Definition name_base (resource_description resource_type : string) : string :=
  String.append resource_type
    (String.append "-"
       (String.append (PyStr.take 23 resource_description) "-")).

(** ** The stamp of a klog line

    The provisioner writes its log with klog: a line begins with
    [Lmmdd hh:mm:ss.uuuuuu], the severity letter and zero-padded numbers of
    fixed width.  [DATE_TIME_FORMAT] is made for the severity [I]. *)

(** [v] on [k] digits, zero-padded. *)
Fixpoint pad (k : nat) (v : Z) : string :=
  match k with
  | O => EmptyString
  | S k' =>
      String (PyStr.digit_char (v / 10 ^ Z.of_nat k'))
             (pad k' (v mod 10 ^ Z.of_nat k'))
  end.

Definition klog_stamp (d : DateTime.datetime) : string :=
  String "I"
    (String.append (pad 2 (DateTime.month d))
    (String.append (pad 2 (DateTime.day d))
    (String " "
    (String.append (pad 2 (DateTime.hour d))
    (String ":"
    (String.append (pad 2 (DateTime.minute d))
    (String ":"
    (String.append (pad 2 (DateTime.second d))
    (String "."
    (pad 6 (DateTime.microsecond d))))))))))).

(** [line] begins with the stamp klog writes for [d], a moment of the
    current year. *)
Definition klog_line (c : cluster) (line : string) (d : DateTime.datetime) : Prop :=
  mon_day line = klog_stamp d
  /\ DateTime.valid d = true
  /\ DateTime.year d = now_year c.

(** The first line of the log for [subject] and [operation] is a klog
    line. *)
Definition first_line_stamped (c : cluster) (p0 p1 : string) (n : nat)
           (subject operation : string) : Prop :=
  exists line d,
    PyStr.first (grep (provision_pattern subject operation) (logs_at c p0 p1 n))
    = Ok line
    /\ klog_line c line d.

(** The text one turn of the loop of [get_provision_time] over the objects
    appends to [all_stats]. *)
Definition stat_of (c : cluster) (p0 p1 : string) (n : nat)
           (operation : string) (pv_name : OCS) : result string :=
  try! line := PyStr.first (grep (provision_pattern (name pv_name) operation)
                                 (logs_at c p0 p1 n)) in
  Ok (stamp (PyStr.str (now_year c)) line).

(** That text, or the empty text when there is no line. *)
Definition text_of (c : cluster) (p0 p1 : string) (n : nat)
           (operation : string) (o : OCS) : string :=
  match stat_of c p0 p1 n operation o with
  | Ok s => s
  | Raise _ => EmptyString
  end.

(** The fields of the datetime a text is read as. *)
Definition time_key (s : string) : list Z :=
  match DateTime.strptime s with
  | Ok d => DateTime.key d
  | Raise _ => []
  end.

(** On the texts of [l] the order of the texts is the order of the keys
    [K] reads off them. *)
Definition keyed (K : string -> list Z) (l : list string) : Prop :=
  forall x y, In x l -> In y l ->
              PyStr.ltb x y = DateTime.lex_ltb (K x) (K y).

(** ** Batches *)

(** The wait for [o] comes to an end without an exception: [o] bears the
    name of a default storage class, or [wait_for_resource] returns. *)
Definition reaches (a : api) (state : string) (timeout : Z) (o : OCS) : Prop :=
  name o = DEFAULT_STORAGECLASS_CEPHFS a
  \/ name o = DEFAULT_STORAGECLASS_RBD a
  \/ exists b, wait_for_resource a (name o) state timeout = Ok b.

(** The calls [wait_for_resource_state] makes for [o] when the wait comes
    to an end without an exception. *)
Definition wait_calls (a : api) (state : string) (timeout : Z) (o : OCS)
  : list call :=
  if String.eqb (name o) (DEFAULT_STORAGECLASS_CEPHFS a)
     || String.eqb (name o) (DEFAULT_STORAGECLASS_RBD a)
  then []
  else [WaitForResource (name o) state timeout].

(** The options [create_pods_parallel] hands to [create_pod] for a PVC. *)
Definition options_of (a : api) (namespace interface : string)
           (pod_dict_path sa_name : option string)
           (raw_block_pv dc_deployment : bool)
           (node_selector : option (list (string * string)))
           (pvc_obj : OCS) : pod_options :=
  {| interface_type := interface;
     pvc_name := name pvc_obj;
     do_reload := false;
     namespace := namespace;
     raw_block_pv := raw_block_pv;
     pod_dict_path :=
       match raw_block_pv, pod_dict_path with
       | true, None => Some (CSI_RBD_RAW_BLOCK_POD_YAML a)
       | true, Some EmptyString => Some (CSI_RBD_RAW_BLOCK_POD_YAML a)
       | _, _ => pod_dict_path
       end;
     sa_name := sa_name;
     dc_deployment := dc_deployment;
     node_selector := node_selector |}.

(** The call [create_multiple_pvc_parallel] makes to create the PVCs of
    an access mode. *)
Definition creation (sc_obj : OCS) (namespace : string) (number_of_pvc : Z)
           (size mode : string) : call :=
  CreateMultiplePvcs (name sc_obj) namespace number_of_pvc mode size.

(** ** Bulk measurements *)

(** The markers of the two bulk functions, as the source writes them:
    [f"provision.*{name}.*{operation}"] for a creation and
    [f'delete "{pv}": {operation}'] for a deletion. *)
Definition creation_marker (operation name : string) : string :=
  String.append "provision.*" (String.append name (String.append ".*" operation)).

Definition deletion_marker (operation pv : string) : string :=
  String.append "delete "
    (String PyStr.dquote
       (String.append pv
          (String PyStr.dquote (String.append ": " operation)))).

(** A line of the log matches the marker; the first line that does. *)
Definition has_line (marker : string) (logs : list string) : bool :=
  existsb (Re.search marker) logs.

Definition first_line (marker : string) (logs : list string) : option string :=
  List.find (Re.search marker) logs.

(** The log lacks data for [name]: it has no start line or no end line
    of it.  The names of a list a log lacks data for, in the order of the
    list. *)
Definition lacks_data (started succeeded : string -> string)
           (logs : list string) (name : string) : bool :=
  negb (has_line (started name) logs) || negb (has_line (succeeded name) logs).

Definition without_data (started succeeded : string -> string)
           (logs names : list string) : list string :=
  List.filter (lacks_data started succeeded logs) names.

(** The lines of the two logs fetched when [m] logs have been read
    before: the log of [p0] is read [m], the log of [p1] read [m + 1];
    the exception of the read that fails first, if one does.  The number
    of reads the fetch makes. *)
Definition fetched (e : Bulk.env) (p0 p1 : string) (m : nat)
  : result (list string) :=
  try! l0 := Bulk.get_pod_logs e m p0 (Some "csi-provisioner") None in
  try! l1 := Bulk.get_pod_logs e (S m) p1 (Some "csi-provisioner") None in
  Ok (PyStr.split PyStr.newline (String.append l0 l1)).

Definition reads_of (e : Bulk.env) (p0 : string) (m : nat) : nat :=
  match Bulk.get_pod_logs e m p0 (Some "csi-provisioner") None with
  | Ok _ => 2
  | Raise _ => 1
  end.

(** [q] is the time of [name] on [logs]: the seconds from the stamp of
    its first start line to the stamp of its first end line. *)
Definition timed (year : Z) (started succeeded : string -> string)
           (logs : list string) (name : string) (q : Q) : Prop :=
  exists start end_ start_time end_time,
    first_line (started name) logs = Some start
    /\ first_line (succeeded name) logs = Some end_
    /\ DateTime.strptime (stamp (PyStr.str year) start) = Ok start_time
    /\ DateTime.strptime (stamp (PyStr.str year) end_) = Ok end_time
    /\ q = DateTime.total_seconds (DateTime.sub end_time start_time).

(** The first start line of [name] or its first end line bears a stamp
    [strptime] cannot read. *)
Definition unreadable (year : Z) (started succeeded : string -> string)
           (logs : list string) (name : string) : Prop :=
  exists line,
    (first_line (started name) logs = Some line
     \/ first_line (succeeded name) logs = Some line)
    /\ DateTime.strptime (stamp (PyStr.str year) line) = Raise ValueError.

(** What C8 says of a bulk measurement [bulk] whose markers are [started]
    and [succeeded], with the provisioner pods [p0] and [p1] and [n] logs
    read before the call.

    A negative [wait_time] or a sleep that fails ends the call before a
    log is read.  Otherwise the logs are fetched once and then [k] more
    times, [k] at most six, each time because the log fetched before
    lacked data for some name.  Fetch [k] is the last one.  If a read of it
    fails, the call raises the exception of that read.  If it is the sixth
    re-fetch, the call raises [UnexpectedBehaviour] with the names the log
    of the fifth re-fetch lacked data for, and the log of the sixth is not
    looked at.  Otherwise that log has data for every name, and the call
    returns a dictionary whose keys are the names of the list, each with
    its time on that log, unless a stamp cannot be read, which is a
    [ValueError].  Six rounds of fuel are enough for the loop of the
    model. *)
Definition bounded_refetch (e : Bulk.env) (started succeeded : string -> string)
           (bulk : nat -> string -> list string -> Z
                   -> M nat (option (gmap string Q)))
  : Prop :=
  forall (interface p0 p1 : string) (rest names : list string)
         (wait_time : Z) (n fuel : nat),
    Bulk.get_csi_provisioner_pod e interface = Ok (p0 :: p1 :: rest) ->
    (6 <= fuel)%nat ->
    let run := bulk fuel interface names wait_time n in
    let round j := fetched e p0 p1 (n + 2 * j) in
    let missing logs := without_data started succeeded logs names in
    (wait_time < 0 -> run = (Raise ValueError, n))
    /\ (forall err, 0 <= wait_time -> Bulk.time_sleep e wait_time = Raise err ->
                    run = (Raise err, n))
    /\ (0 <= wait_time -> Bulk.time_sleep e wait_time = Ok tt ->
        exists k : nat,
          (k <= 6)%nat
          /\ (forall j, (j < k)%nat ->
                        exists logs, round j = Ok logs /\ missing logs <> [])
          /\ snd run = (n + 2 * k + reads_of e p0 (n + 2 * k))%nat
          /\ match round k with
             | Raise err => fst run = Raise err
             | Ok logs =>
                 if (k =? 6)%nat
                 then exists logs5,
                     round 5%nat = Ok logs5
                     /\ fst run = Raise (UnexpectedBehaviour (missing logs5))
                 else
                   missing logs = []
                   /\ ((exists d,
                           fst run = Ok (Some d)
                           /\ (forall name, In name names ->
                                 exists q,
                                   d !! name = Some q
                                   /\ timed (Bulk.now_year e) started succeeded
                                            logs name q)
                           /\ (forall name, is_Some (d !! name) -> In name names))
                       \/ (fst run = Raise ValueError
                           /\ exists name,
                               In name names
                               /\ unreadable (Bulk.now_year e) started succeeded
                                             logs name))
             end)
    /\ run = bulk 6%nat interface names wait_time n.

(** The collaborators of a cluster whose commands never fail: a sleep of
    a length that is not negative ends, and every log is read. *)
Definition reliable (c : cluster) : Bulk.env := {|
  Bulk.get_csi_provisioner_pod := fun interface =>
    Ok (get_csi_provisioner_pod c interface);
  Bulk.time_sleep := fun _ => Ok tt;
  Bulk.get_pod_logs := fun n pod container namespace =>
    Ok (get_pod_logs c n pod container namespace);
  Bulk.now_year := now_year c
|}.

(** ** The clusters and collaborators of the examples *)

(** A cluster with two provisioner pods; the first one holds the log [text]
    at every read, the second one an empty log, and so does the snapshot
    controller. *)
Definition cluster_with_log (text : string) (this_year : Z) : cluster := {|
  get_csi_provisioner_pod := fun _ =>
    ["csi-rbdplugin-provisioner-0"; "csi-rbdplugin-provisioner-1"];
  get_csi_snapshoter_pod := "csi-snapshot-controller-0";
  get_pod_logs := fun _ pod _ _ =>
    if String.eqb pod "csi-rbdplugin-provisioner-0" then text else EmptyString;
  now_year := this_year
|}.

(** [lines.join("\n")], with a newline after the last line. *)
Fixpoint log_text (lines : list string) : string :=
  match lines with
  | [] => EmptyString
  | l :: lines' => String.append l (String PyStr.newline (log_text lines'))
  end.

Definition pvc_a : OCS := {| name := "pvc-a"; kind := "PersistentVolumeClaim" |}.
Definition pvc_b : OCS := {| name := "pvc-b"; kind := "PersistentVolumeClaim" |}.

(** The log of the example of the specification: A starts at 10:00:00 and
    ends at 10:00:02, B starts at 10:00:01 and ends at 10:00:05. *)
Definition two_subjects : cluster :=
  cluster_with_log
    (log_text
       ["I0105 10:00:00.000000 provision pvc-a started";
        "I0105 10:00:01.000000 provision pvc-b started";
        "I0105 10:00:02.000000 provision pvc-a succeeded";
        "I0105 10:00:05.000000 provision pvc-b succeeded"])
    2026.

(** The collaborators of the examples: the default storage classes bear
    their usual names, every resource can be reloaded, described and
    deleted, and every wait succeeds. *)
Definition quiet_api : api := {|
  DEFAULT_STORAGECLASS_CEPHFS := "ocs-storagecluster-cephfs";
  DEFAULT_STORAGECLASS_RBD := "ocs-storagecluster-ceph-rbd";
  CSI_RBD_RAW_BLOCK_POD_YAML := "csi-rbd-raw-block-pod.yaml";
  wait_for_resource := fun _ _ _ => Ok true;
  reload := fun _ => Ok tt;
  describe := fun _ => Ok "Status: Pending";
  delete := fun _ => Ok tt;
  create_multiple_pvcs := fun _ _ _ _ _ => Ok [];
  create_pod := fun o => Ok {| name := String.append "pod-" (pvc_name o); kind := "Pod" |}
|}.

Definition pvc_1 : OCS := {| name := "pvc-1"; kind := "PersistentVolumeClaim" |}.
Definition pvc_2 : OCS := {| name := "pvc-2"; kind := "PersistentVolumeClaim" |}.

(** The wait for [pvc-2] runs out of time. *)
Definition pvc_2_pending : api := {|
  DEFAULT_STORAGECLASS_CEPHFS := DEFAULT_STORAGECLASS_CEPHFS quiet_api;
  DEFAULT_STORAGECLASS_RBD := DEFAULT_STORAGECLASS_RBD quiet_api;
  CSI_RBD_RAW_BLOCK_POD_YAML := CSI_RBD_RAW_BLOCK_POD_YAML quiet_api;
  wait_for_resource := fun n _ _ =>
    if String.eqb n "pvc-2" then Raise TimeoutExpiredError else Ok true;
  reload := reload quiet_api;
  describe := describe quiet_api;
  delete := delete quiet_api;
  create_multiple_pvcs := fun _ _ _ _ _ => Ok [pvc_1; pvc_2];
  create_pod := create_pod quiet_api
|}.

(** The wait for [pvc-2] runs out of time and by then the resource is gone,
    so reloading it fails. *)
Definition pvc_2_gone : api := {|
  DEFAULT_STORAGECLASS_CEPHFS := DEFAULT_STORAGECLASS_CEPHFS quiet_api;
  DEFAULT_STORAGECLASS_RBD := DEFAULT_STORAGECLASS_RBD quiet_api;
  CSI_RBD_RAW_BLOCK_POD_YAML := CSI_RBD_RAW_BLOCK_POD_YAML quiet_api;
  wait_for_resource := wait_for_resource pvc_2_pending;
  reload := fun n =>
    if String.eqb n "pvc-2" then Raise (CommandFailed "pvc-2 not found") else Ok tt;
  describe := describe quiet_api;
  delete := delete quiet_api;
  create_multiple_pvcs := create_multiple_pvcs pvc_2_pending;
  create_pod := create_pod quiet_api
|}.

(** Deleting [pvc-2] fails. *)
Definition pvc_2_protected : api := {|
  DEFAULT_STORAGECLASS_CEPHFS := DEFAULT_STORAGECLASS_CEPHFS quiet_api;
  DEFAULT_STORAGECLASS_RBD := DEFAULT_STORAGECLASS_RBD quiet_api;
  CSI_RBD_RAW_BLOCK_POD_YAML := CSI_RBD_RAW_BLOCK_POD_YAML quiet_api;
  wait_for_resource := wait_for_resource quiet_api;
  reload := reload quiet_api;
  describe := describe quiet_api;
  delete := fun n =>
    if String.eqb n "pvc-2" then Raise (CommandFailed "pvc-2 is in use") else Ok tt;
  create_multiple_pvcs := create_multiple_pvcs quiet_api;
  create_pod := create_pod quiet_api
|}.

Definition sc_rbd : OCS := {| name := "sc-test-rbd"; kind := "StorageClass" |}.


(** The log of the first provisioner pod is empty at the first read of
    the two logs and holds [text] from the second read on. *)
Definition cluster_with_late_log (text : string) (this_year : Z) : cluster := {|
  get_csi_provisioner_pod := fun _ =>
    ["csi-rbdplugin-provisioner-0"; "csi-rbdplugin-provisioner-1"];
  get_csi_snapshoter_pod := "csi-snapshot-controller-0";
  get_pod_logs := fun k pod _ _ =>
    if String.eqb pod "csi-rbdplugin-provisioner-0" && (2 <=? k)%nat
    then text else EmptyString;
  now_year := this_year
|}.

(** The wait for the pod of [pvc-2] runs out of time. *)
Definition pod_2_pending : api := {|
  DEFAULT_STORAGECLASS_CEPHFS := DEFAULT_STORAGECLASS_CEPHFS quiet_api;
  DEFAULT_STORAGECLASS_RBD := DEFAULT_STORAGECLASS_RBD quiet_api;
  CSI_RBD_RAW_BLOCK_POD_YAML := CSI_RBD_RAW_BLOCK_POD_YAML quiet_api;
  wait_for_resource := fun n _ _ =>
    if String.eqb n "pod-pvc-2" then Raise TimeoutExpiredError else Ok true;
  reload := reload quiet_api;
  describe := describe quiet_api;
  delete := delete quiet_api;
  create_multiple_pvcs := create_multiple_pvcs quiet_api;
  create_pod := create_pod quiet_api
|}.

(** The cluster refuses PVCs with the access mode [ReadWriteMany]; every
    other creation gives [pvc-1] and [pvc-2]. *)
Definition rwx_refused : api := {|
  DEFAULT_STORAGECLASS_CEPHFS := DEFAULT_STORAGECLASS_CEPHFS quiet_api;
  DEFAULT_STORAGECLASS_RBD := DEFAULT_STORAGECLASS_RBD quiet_api;
  CSI_RBD_RAW_BLOCK_POD_YAML := CSI_RBD_RAW_BLOCK_POD_YAML quiet_api;
  wait_for_resource := wait_for_resource quiet_api;
  reload := reload quiet_api;
  describe := describe quiet_api;
  delete := delete quiet_api;
  create_multiple_pvcs := fun _ _ _ mode _ =>
    if String.eqb mode "ReadWriteMany"
    then Raise (CommandFailed "ReadWriteMany is not supported")
    else Ok [pvc_1; pvc_2];
  create_pod := create_pod quiet_api
|}.

(** The API server cannot be reached: every wait fails at once. *)
Definition api_down : api := {|
  DEFAULT_STORAGECLASS_CEPHFS := DEFAULT_STORAGECLASS_CEPHFS quiet_api;
  DEFAULT_STORAGECLASS_RBD := DEFAULT_STORAGECLASS_RBD quiet_api;
  CSI_RBD_RAW_BLOCK_POD_YAML := CSI_RBD_RAW_BLOCK_POD_YAML quiet_api;
  wait_for_resource := fun _ _ _ => Raise (CommandFailed "connection refused");
  reload := reload quiet_api;
  describe := describe quiet_api;
  delete := delete quiet_api;
  create_multiple_pvcs := create_multiple_pvcs quiet_api;
  create_pod := create_pod quiet_api
|}.

(** ** Further helpers *)

(** The number of dashes of a name. *)
Fixpoint dashes (s : string) : nat :=
  match s with
  | EmptyString => O
  | String c s' => if Ascii.eqb c dash then S (dashes s') else dashes s'
  end.

(** [sub] occurs in [s]. *)
Definition occurs_in (sub s : string) : Prop :=
  exists pre post, s = String.append pre (String.append sub post).

(** A sample shows the change [wait_for_resource_count_change] waits
    for: at least [min_difference] more than [previous_num] for the change
    type [increase], at least [min_difference] fewer for any other. *)
Definition count_changed (f : fetcher) (change_type : string)
           (previous_num min_difference : Z) (s : sample f) : Prop :=
  if String.eqb change_type "increase"
  then previous_num + min_difference <= current_num f s
  else current_num f s + min_difference <= previous_num.

(** The deletions of a list of objects, in the order of the list. *)
Definition deletions (objs : list OCS) : trace :=
  map (fun o => Delete (name o)) objs.

Definition tools_pod : OCS := {| name := "rook-ceph-tools-7c8f"; kind := "Pod" |}.

(** The tools pod is out of reach and no second one comes up in time. *)
Definition lost_toolbox : toolbox := {|
  cluster_namespace := "openshift-storage";
  TOOL_APP_LABEL := "app=rook-ceph-tools";
  get_ceph_tools_pod := Ok tt;
  ceph_auth_get_key :=
    Raise (CommandFailed "dial tcp 10.0.0.1:6443: connection timed out");
  TimeoutSampler := fun f _ _ _ _ =>
    {| Py.yields :=
         match f return list (sample f) with
         | get_all_pods => [[tools_pod]; [tools_pod]]
         | get_all_pvcs => []
         end;
       Py.ending := Some TimeoutExpiredError |}
|}.

(** The command on the tools pod fails for another reason. *)
Definition broken_toolbox : toolbox := {|
  cluster_namespace := cluster_namespace lost_toolbox;
  TOOL_APP_LABEL := TOOL_APP_LABEL lost_toolbox;
  get_ceph_tools_pod := Ok tt;
  ceph_auth_get_key := Raise (CommandFailed "command terminated with exit code 1");
  TimeoutSampler := TimeoutSampler lost_toolbox
|}.

(** Three pods, then four, then the time is over. *)
Definition growing : sampler := fun f _ _ _ _ =>
  {| Py.yields :=
       match f return list (sample f) with
       | get_all_pods =>
           [[tools_pod; tools_pod; tools_pod];
            [tools_pod; tools_pod; tools_pod; tools_pod]]
       | get_all_pvcs => []
       end;
     Py.ending := Some TimeoutExpiredError |}.

(** ** Volumes in the backend *)

(** The interface [delete_volume_in_backend] takes for a pool of the kind
    [kind]. *)
Definition interface_of (kind : string) : string :=
  if String.eqb kind "CephFilesystem" then "CephFileSystem" else kind.

(** [rbd info] finds the image until two commands have been run, and no
    longer after that. *)
Definition ceph_image_removed : Backend.ceph := {|
  Backend.CEPHBLOCKPOOL := "CephBlockPool";
  Backend.CEPHFILESYSTEM := "CephFileSystem";
  Backend.get_ceph_tools_pod := Ok tt;
  Backend.ceph_fs_ls := fun _ => Ok ["ocs-storagecluster-cephfilesystem"];
  Backend.exec_ceph_cmd := fun n cmd =>
    if (2 <=? n)%nat && String.prefix "rbd info" cmd
    then Raise (CommandFailed
                  "rbd: error opening image csi-vol-f301898c: (2) No such file or directory")
    else if String.eqb cmd EmptyString
    then Raise (CommandFailed "no command given")
    else Ok tt;
  Backend.ocp_get := fun kind _ =>
    if String.eqb kind "CephBlockPool" then Ok (Some "CephBlockPool") else Ok None;
  Backend.pod_logs := fun _ _ _ _ => Ok "starting; signal: killed";
  Backend.TimeoutSampler := fun _ _ _ _ _ =>
    {| Py.yields := [true; true; false; true];
       Py.ending := Some TimeoutExpiredError |}
|}.

(** The volume stays, and the first of the two commands run for the
    record after the time-out fails. *)
Definition ceph_image_stays : Backend.ceph := {|
  Backend.CEPHBLOCKPOOL := "CephBlockPool";
  Backend.CEPHFILESYSTEM := "CephFileSystem";
  Backend.get_ceph_tools_pod := Ok tt;
  Backend.ceph_fs_ls := fun _ => Ok ["ocs-storagecluster-cephfilesystem"];
  Backend.exec_ceph_cmd := fun n cmd =>
    if String.eqb cmd "ceph progress json"
    then Raise (CommandFailed "no valid command found")
    else Ok tt;
  Backend.ocp_get := fun kind _ => Ok None;
  Backend.pod_logs := fun _ _ _ _ => Raise (CommandFailed "pod not found");
  Backend.TimeoutSampler := fun _ _ _ _ _ =>
    {| Py.yields := [true; true];
       Py.ending := Some TimeoutExpiredError |}
|}.

(** ** Pods for a list of PVCs *)

(** The access mode [create_pods] finds for a PVC is [ACCESS_MODE_RWX]. *)
Definition is_rwx (e : Pods.env) (p : Pods.PVC) : bool :=
  match Pods.access_mode p with
  | Some v => Pods.is_str v (Pods.ACCESS_MODE_RWX e)
  | None =>
      match Pods.get_pvc_access_mode p with
      | Ok v => Pods.is_str v (Pods.ACCESS_MODE_RWX e)
      | Raise _ => false
      end
  end.

(** The number of pods of a PVC. *)
Definition pods_for (e : Pods.env) (pods_for_rwx : Z) (p : Pods.PVC) : Z :=
  if is_rwx e p then Z.max 1 pods_for_rwx else 1.

(** The calls made so far went to the nodes in turn, and the cycle is
    where that many calls leave it. *)
Definition in_turn (ns : list string) (s : Pods.state) : Prop :=
  (exists pre,
      ns = app pre (fst s)
      /\ (length (snd s) mod length ns = length pre mod length ns)%nat)
  /\ forall i args,
      nth_error (snd s) i = Some args ->
      Pods.node_name args = nth_error ns (i mod length ns)%nat.

Definition keeps_turn {A} (ns : list string) (m : M Pods.state A) : Prop :=
  forall s, in_turn ns s -> in_turn ns (snd (m s)).

Definition pods_env : Pods.env := {|
  Pods.ACCESS_MODE_RWX := "ReadWriteMany";
  Pods.CSI_RBD_RAW_BLOCK_POD_YAML := "csi-rbd-raw-block-pod.yaml";
  Pods.pod_factory := fun args =>
    Ok {| name := String.append "pod-" (Pods.pvc_name (Pods.pvc args));
          kind := "Pod" |}
|}.

Definition shared_pvc : Pods.PVC := {|
  Pods.pvc_name := "pvc-rwx";
  Pods.volume_mode := Some (Some "Block");
  Pods.access_mode := Some (Some "ReadWriteMany");
  Pods.get_spec_volumeMode := Ok (Some "Block");
  Pods.get_pvc_access_mode := Ok (Some "ReadWriteMany")
|}.

Definition own_pvc : Pods.PVC := {|
  Pods.pvc_name := "pvc-rwo";
  Pods.volume_mode := None;
  Pods.access_mode := None;
  Pods.get_spec_volumeMode := Ok None;
  Pods.get_pvc_access_mode := Ok (Some "ReadWriteOnce")
|}.

(** ** The start time of a pod *)

(** The seconds since midnight. *)
Definition time_of_day (d : DateTime.datetime) : Z :=
  DateTime.hour d * 3600 + DateTime.minute d * 60 + DateTime.second d.

(** Every result of a parser has the property [P]. *)
Definition results {A} (P : A -> Prop) (r : option A) : Prop :=
  forall x, r = Some x -> P x.

(** The pod started on 1 March at 10:00:00, its first container a day
    and five seconds later, its second one was not started. *)
Definition slow_pod : PodStart.pod_status := {|
  PodStart.startTime := Some "2021-03-01T10:00:00Z";
  PodStart.containerStatuses :=
    Some [{| PodStart.container_name := "web";
             PodStart.running_startedAt := Some "2021-03-02T10:00:05Z" |};
          {| PodStart.container_name := "sidecar";
             PodStart.running_startedAt := None |}]
|}.

(** A steady log with the deletion of [pv-a], which took five seconds. *)
Definition deleted_pv : cluster :=
  cluster_with_log
    (log_text
       [String.append "I0105 10:00:00.000000 delete "
          (String PyStr.dquote
             (String.append "pv-a" (String PyStr.dquote ": started")));
        String.append "I0105 10:00:05.000000 delete "
          (String PyStr.dquote
             (String.append "pv-a" (String PyStr.dquote ": succeeded")))])
    2026.

(** ** Lists of snapshots *)

Definition snap_a : OCS := {| name := "snap-a"; kind := "VolumeSnapshot" |}.
Definition snap_b : OCS := {| name := "snap-b"; kind := "VolumeSnapshot" |}.

(** The snapshot controller logs the start of [snap-b] only. *)
Definition one_snapshot_logged : cluster :=
  cluster_with_log
    (log_text ["I0105 10:00:05.000000 Creating content for snapshot snap-b"])
    2026.

(** ** The collaborators of the bulk examples *)

(** The log of [cluster_with_log], which the first provisioner pod holds
    only once [first] logs have been read; before that it is empty. *)
Definition cluster_with_log_after (first : nat) (text : string) (this_year : Z)
  : cluster := {|
  get_csi_provisioner_pod := fun _ =>
    ["csi-rbdplugin-provisioner-0"; "csi-rbdplugin-provisioner-1"];
  get_csi_snapshoter_pod := "csi-snapshot-controller-0";
  get_pod_logs := fun k pod _ _ =>
    if String.eqb pod "csi-rbdplugin-provisioner-0" && (first <=? k)%nat
    then text else EmptyString;
  now_year := this_year
|}.

Definition pvc_a_provisioned : string :=
  log_text
    ["I0105 10:00:00.000000 provision pvc-a started";
     "I0105 10:00:05.000000 provision pvc-a succeeded"].

(** The deletion of [pv-a] took five seconds; a line before the two names
    the PV without being one of them. *)
Definition pv_a_deleted : cluster :=
  cluster_with_log
    (log_text
       ["I0105 09:59:00.000000 pv-a is released";
        String.append "I0105 10:00:00.000000 delete "
          (String PyStr.dquote
             (String.append "pv-a" (String PyStr.dquote ": started")));
        String.append "I0105 10:00:05.000000 delete "
          (String PyStr.dquote
             (String.append "pv-a" (String PyStr.dquote ": succeeded")))])
    2026.

(** The logs of [c] can be read [k] times; every read after that fails. *)
Definition reads_fail_from (k : nat) (c : cluster) : Bulk.env := {|
  Bulk.get_csi_provisioner_pod := Bulk.get_csi_provisioner_pod (reliable c);
  Bulk.time_sleep := Bulk.time_sleep (reliable c);
  Bulk.get_pod_logs := fun n pod container namespace =>
    if (k <=? n)%nat
    then Raise (CommandFailed "unable to retrieve container logs")
    else Ok (get_pod_logs c n pod container namespace);
  Bulk.now_year := now_year c
|}.

(** * Waiting for a state *)

Section WaitForState.
Variable a : api.

(** C4: a resource that bears the name of the default CephFS or of the
    default RBD storage class is reported ready at once: for every target
    state and timeout [wait_for_resource_state] returns, and the trace of
    calls to the collaborators is the one it started with, so
    [wait_for_resource] was not called. *)
Theorem wait_for_resource_state_default
        (resource : OCS) (state : string) (timeout : Z) (tr : trace) :
  name resource = DEFAULT_STORAGECLASS_CEPHFS a
  \/ name resource = DEFAULT_STORAGECLASS_RBD a ->
  wait_for_resource_state a resource state timeout tr = (Ok tt, tr).
Proof.
  intros H. unfold wait_for_resource_state.
  destruct H as [H | H]; rewrite H, String.eqb_refl.
  - reflexivity.
  - rewrite orb_true_r. reflexivity.
Qed.

(** What [wait_for_resource_state] does for any other resource whose wait
    runs out of time. *)
Lemma wait_for_resource_state_timed_out
      (resource : OCS) (state : string) (timeout : Z) (tr : trace) :
  name resource <> DEFAULT_STORAGECLASS_CEPHFS a ->
  name resource <> DEFAULT_STORAGECLASS_RBD a ->
  wait_for_resource a (name resource) state timeout = Raise TimeoutExpiredError ->
  wait_for_resource_state a resource state timeout tr =
  (let! _ := do_call (Reload (name resource)) (reload a (name resource)) in
   let! d := do_call (Describe (name resource)) (describe a (name resource)) in
   raise (ResourceWrongStatusException (name resource) d))
    (app tr [WaitForResource (name resource) state timeout]).
Proof.
  intros H1 H2 Hw. unfold wait_for_resource_state.
  apply String.eqb_neq in H1. apply String.eqb_neq in H2.
  rewrite H1, H2. simpl.
  unfold except_timeout, bind, do_call at 1. rewrite Hw. reflexivity.
Qed.

(** C3, as the code has it: when the wait of a resource runs out of time
    the resource is reloaded once and described once; if both succeed the
    caller gets the wrong-state error with the description, and if the
    reload or the description fails the caller gets that failure
    instead. *)
Theorem wait_for_resource_state_timeout
        (resource : OCS) (state : string) (timeout : Z) (tr : trace) :
  name resource <> DEFAULT_STORAGECLASS_CEPHFS a ->
  name resource <> DEFAULT_STORAGECLASS_RBD a ->
  wait_for_resource a (name resource) state timeout = Raise TimeoutExpiredError ->
  let n := name resource in
  let run := wait_for_resource_state a resource state timeout tr in
  (forall d, reload a n = Ok tt -> describe a n = Ok d ->
     run = (Raise (ResourceWrongStatusException n d),
            app tr [WaitForResource n state timeout; Reload n; Describe n]))
  /\ (forall e, reload a n = Raise e ->
        run = (Raise e, app tr [WaitForResource n state timeout; Reload n]))
  /\ (forall e, reload a n = Ok tt -> describe a n = Raise e ->
        run = (Raise e,
               app tr [WaitForResource n state timeout; Reload n; Describe n])).
Proof.
  intros H1 H2 Hw n run. subst run.
  rewrite (wait_for_resource_state_timed_out _ _ _ _ H1 H2 Hw). fold n.
  unfold bind, do_call, raise.
  repeat split.
  - intros d Hr Hd. rewrite Hr, Hd, <- !app_assoc. reflexivity.
  - intros e Hr. rewrite Hr, <- !app_assoc. reflexivity.
  - intros e Hr Hd. rewrite Hr, Hd, <- !app_assoc. reflexivity.
Qed.

End WaitForState.

Lemma wait_for_resource_state_default_witness :
  (name {| name := "ocs-storagecluster-ceph-rbd"; kind := "StorageClass" |}
   = DEFAULT_STORAGECLASS_CEPHFS pvc_2_gone
   \/ name {| name := "ocs-storagecluster-ceph-rbd"; kind := "StorageClass" |}
      = DEFAULT_STORAGECLASS_RBD pvc_2_gone)
  /\ wait_for_resource_state pvc_2_gone
       {| name := "ocs-storagecluster-ceph-rbd"; kind := "StorageClass" |}
       "Bound" 60 []
     = (Ok tt, []).
Proof.
  split.
  - right. reflexivity.
  - apply (wait_for_resource_state_default pvc_2_gone). right. reflexivity.
Defined.

(** C3 as the specification words it fails: the wait for [pvc-2] runs out
    of time, the reload fails, and the caller gets the failure of the
    reload, not the wrong-state error. *)
Lemma reload_failure_hides_wrong_state :
  fst (wait_for_resource_state pvc_2_gone pvc_2 "Bound" 60 [])
  = Raise (CommandFailed "pvc-2 not found")
  /\ forall n d,
      fst (wait_for_resource_state pvc_2_gone pvc_2 "Bound" 60 [])
      <> Raise (ResourceWrongStatusException n d).
Proof.
  split; [reflexivity | intros n d; vm_compute; discriminate].
Qed.

Lemma wait_for_resource_state_timeout_witness :
  name pvc_2 <> DEFAULT_STORAGECLASS_CEPHFS pvc_2_pending
  /\ name pvc_2 <> DEFAULT_STORAGECLASS_RBD pvc_2_pending
  /\ wait_for_resource pvc_2_pending (name pvc_2) "Bound" 60 = Raise TimeoutExpiredError
  /\ wait_for_resource_state pvc_2_pending pvc_2 "Bound" 60 []
     = (Raise (ResourceWrongStatusException "pvc-2" "Status: Pending"),
        [WaitForResource "pvc-2" "Bound" 60; Reload "pvc-2"; Describe "pvc-2"]).
Proof.
  assert (H1 : name pvc_2 <> DEFAULT_STORAGECLASS_CEPHFS pvc_2_pending)
    by (vm_compute; discriminate).
  assert (H2 : name pvc_2 <> DEFAULT_STORAGECLASS_RBD pvc_2_pending)
    by (vm_compute; discriminate).
  assert (H3 : wait_for_resource pvc_2_pending (name pvc_2) "Bound" 60
               = Raise TimeoutExpiredError) by reflexivity.
  split; [exact H1 | split; [exact H2 | split; [exact H3 |]]].
  apply (proj1 (wait_for_resource_state_timeout pvc_2_pending pvc_2 "Bound" 60 []
                  H1 H2 H3) "Status: Pending"); reflexivity.
Defined.

(** * Batches *)

Section Batches.
Variable a : api.

(** No worker hands back [False]: a wait either returns [None] or
    raises, so the test that guards [raise TimeoutExpiredError] never
    holds. *)
Lemma False_in_None (l : list unit) :
  False_in (map (fun _ : unit => PyNone) l) = false.
Proof. induction l as [| u l IH]; [reflexivity | exact IH]. Qed.

Lemma False_in_objs (objs : list OCS) (l : list unit) :
  False_in (app (map PyObj objs) (map (fun _ : unit => PyNone) l)) = false.
Proof.
  induction objs as [| o objs IH]; simpl.
  - apply False_in_None.
  - exact IH.
Qed.

(** Every thread is started and joined, the outcome of a delete is
    dropped, and the answer is [True] whatever the deletes did. *)
Lemma for_each_join (threads : list unit) (tr : trace) :
  for_each threads join tr = (Ok threads, tr).
Proof.
  revert tr. induction threads as [| [] threads IH]; intros tr.
  - reflexivity.
  - simpl. unfold bind, join, ret. rewrite IH. reflexivity.
Qed.

Lemma for_each_start_delete (obj_list : list OCS) (tr : trace) :
  for_each obj_list
    (fun obj => start_thread (do_call (Delete (name obj)) (delete a (name obj)))) tr
  = (Ok (map (fun _ => tt) obj_list),
     app tr (map (fun obj => Delete (name obj)) obj_list)).
Proof.
  revert tr. induction obj_list as [| obj objs IH]; intros tr; simpl.
  - rewrite app_nil_r. reflexivity.
  - unfold bind, start_thread, do_call at 1. rewrite IH.
    unfold ret. rewrite <- app_assoc. reflexivity.
Qed.

Lemma delete_objs_parallel_always_true (obj_list : list OCS) (tr : trace) :
  delete_objs_parallel a obj_list tr
  = (Ok true, app tr (map (fun obj => Delete (name obj)) obj_list)).
Proof.
  unfold delete_objs_parallel, bind.
  rewrite for_each_start_delete, for_each_join. reflexivity.
Qed.

End Batches.

(** C9 at a failing delete: of the two objects handed to
    [delete_objs_parallel] the second cannot be deleted and its [delete]
    raises; both deletes are made, no wait follows them, and the call
    returns [True]: the exception is raised nowhere. *)
Theorem delete_objs_parallel_failed_delete :
  delete pvc_2_protected (name pvc_2) = Raise (CommandFailed "pvc-2 is in use")
  /\ delete_objs_parallel pvc_2_protected [pvc_1; pvc_2] []
     = (Ok true, [Delete "pvc-1"; Delete "pvc-2"]).
Proof.
  split; [reflexivity |].
  rewrite delete_objs_parallel_always_true. reflexivity.
Qed.

(** C2 at a failing wait: both PVCs are created, the wait for [pvc-2] runs
    out of time.  [create_multiple_pvc_parallel] and [create_pods_parallel]
    make one wait per resource and delete nothing, and what the caller gets
    is the wrong-state error of the wait, raised again by [result()]: the
    line that raises [TimeoutExpiredError] is not reached. *)
Theorem batch_failed_wait_raises_wrong_state :
  create_multiple_pvc_parallel pvc_2_pending sc_rbd "ns" 2 "10Gi" ["ReadWriteOnce"] []
  = (Raise (ResourceWrongStatusException "pvc-2" "Status: Pending"),
     [CreateMultiplePvcs "sc-test-rbd" "ns" 2 "ReadWriteOnce" "10Gi";
      WaitForResource "pvc-1" "Bound" 90;
      WaitForResource "pvc-2" "Bound" 90; Reload "pvc-2"; Describe "pvc-2"])
  /\ exists o1 o2,
      create_pods_parallel pod_2_pending
        [pvc_1; pvc_2] "ns" "CephBlockPool" None None false false None []
      = (Raise (ResourceWrongStatusException "pod-pvc-2" "Status: Pending"),
         [CreatePod o1; CreatePod o2;
          WaitForResource "pod-pvc-1" "Running" 300;
          WaitForResource "pod-pvc-2" "Running" 300;
          Reload "pod-pvc-2"; Describe "pod-pvc-2"]).
Proof.
  split; [reflexivity |].
  eexists. eexists. reflexivity.
Qed.

(** * Unique names *)

Section UniqueNames.

Lemma take_length (n : nat) (s : string) :
  (String.length (PyStr.take n s) <= n)%nat.
Proof.
  revert s. induction n as [| n IH]; intros [| c s]; simpl; try lia.
  specialize (IH s). lia.
Qed.

Lemma take_all (n : nat) (s : string) :
  (String.length s <= n)%nat -> PyStr.take n s = s.
Proof.
  revert s. induction n as [| n IH]; intros [| c s]; simpl; intros H;
    try reflexivity; try lia.
  rewrite IH by lia. reflexivity.
Qed.

Lemma prefix_take_append (n : nat) (p r : string) :
  (String.length p <= n)%nat ->
  String.prefix p (PyStr.take n (String.append p r)) = true.
Proof.
  revert n. induction p as [| c p IH]; intros n H.
  - destruct (PyStr.take n (String.append EmptyString r)); reflexivity.
  - destruct n as [| n]; simpl in *; [lia |].
    destruct (ascii_dec c c) as [_ | Hc]; [| congruence].
    apply IH. lia.
Qed.

Lemma length_append (s t : string) :
  String.length (String.append s t) = (String.length s + String.length t)%nat.
Proof. induction s as [| c s IH]; simpl; [reflexivity | rewrite IH; reflexivity]. Qed.

Lemma append_assoc (s t u : string) :
  String.append (String.append s t) u = String.append s (String.append t u).
Proof. induction s as [| c s IH]; simpl; [reflexivity | rewrite IH; reflexivity]. Qed.

(** C10, as the code has it: the name is the first 40 characters of
    ["{resource_type}-{resource_description[:23]}-{uuid hex}"], so it has
    at most 40 characters; it begins with ["{resource_type}-"] when the
    resource type has at most 39 characters. *)
Theorem create_unique_resource_name_cut
        (uuid_hex resource_description resource_type : string) :
  let name :=
    create_unique_resource_name uuid_hex resource_description resource_type in
  name = PyStr.take 40 (full_name uuid_hex resource_description resource_type)
  /\ (String.length name <= 40)%nat
  /\ ((String.length resource_type <= 39)%nat ->
      String.prefix (String.append resource_type "-") name = true).
Proof.
  intros nm.
  assert (E : nm = PyStr.take 40
                     (full_name uuid_hex resource_description resource_type)).
  { subst nm. unfold create_unique_resource_name. fold (full_name uuid_hex resource_description resource_type).
    destruct (Z.ltb_spec (PyStr.len (full_name uuid_hex resource_description resource_type)) 40) as [H | H].
    - unfold PyStr.len in H. rewrite take_all by lia. reflexivity.
    - reflexivity. }
  split; [exact E |]. split.
  - rewrite E. apply take_length.
  - intros H. rewrite E. unfold full_name.
    replace (String.append resource_type
               (String.append "-"
                  (String.append (PyStr.take 23 resource_description)
                     (String.append "-" uuid_hex))))
      with (String.append (String.append resource_type "-")
              (String.append (PyStr.take 23 resource_description)
                 (String.append "-" uuid_hex))).
    + apply prefix_take_append. rewrite length_append. simpl. lia.
    + apply append_assoc.
Qed.

End UniqueNames.

Lemma create_unique_resource_name_cut_witness :
  (String.length "pvc" <= 39)%nat
  /\ String.prefix (String.append "pvc" "-")
       (create_unique_resource_name "0f8fad5bd9cb469fa16570867728950e"
          "test-cephfs-for-scale" "pvc") = true.
Proof.
  split.
  - simpl. lia.
  - apply (proj2 (proj2 (create_unique_resource_name_cut
                           "0f8fad5bd9cb469fa16570867728950e"
                           "test-cephfs-for-scale" "pvc"))).
    simpl. lia.
Defined.

(** C10 as the specification words it fails for a long resource type: the
    cut at 40 characters falls inside the type, so the name does not begin
    with the type followed by a dash. *)
Lemma create_unique_resource_name_long_type :
  let resource_type := "volumesnapshotcontent-ocs-storagecluster-rbd" in
  let name :=
    create_unique_resource_name "0f8fad5bd9cb469fa16570867728950e"
      "test" resource_type in
  name = "volumesnapshotcontent-ocs-storagecluster"
  /\ String.prefix (String.append resource_type "-") name = false.
Proof. split; reflexivity. Qed.

(** * Timestamps from the logs *)

Section Lookups.
Variable c : cluster.

Lemma provisioner_logs_run (p0 p1 : string) (rest : list string) (n : nat) :
  provisioner_logs c (p0 :: p1 :: rest) n = (Ok (logs_at c p0 p1 n), S (S n)).
Proof. reflexivity. Qed.

Lemma get_provision_time_name (interface nm status p0 p1 : string)
      (rest : list string) (n : nat) :
  get_csi_provisioner_pod c interface = p0 :: p1 :: rest ->
  get_provision_time c interface (Name nm) status n
  = ((try! line := PyStr.first (grep (provision_pattern nm (marker status))
                                     (logs_at c p0 p1 n)) in
      DateTime.strptime (stamp (PyStr.str (now_year c)) line)),
     S (S n)).
Proof.
  intros Hp. unfold get_provision_time. rewrite Hp.
  unfold bind. rewrite provisioner_logs_run. fold (marker status).
  unfold lift.
  destruct (PyStr.first _) as [line | e]; reflexivity.
Qed.

Lemma get_pattern_time_none (log : list string) (snapname pattern : string) :
  (forall line, In line log ->
                Re.search snapname line && Re.search pattern line = false) ->
  get_pattern_time c log snapname pattern = None.
Proof.
  induction log as [| line log IH]; intros H; simpl; [reflexivity |].
  rewrite (H line) by (left; reflexivity).
  apply IH. intros l Hl. apply H. right. exact Hl.
Qed.

(** C7, as the code has it: when no line of the log matches the pattern
    of the subject and the marker, [get_provision_time] for a name,
    [get_start_creation_time], [get_end_creation_time],
    [get_start_deletion_time] and [get_end_deletion_time] raise
    [IndexError]; [get_snapshot_time] for a name returns [None]. *)
Theorem lookup_without_matching_line
        (interface nm p0 p1 : string) (rest : list string) (n : nat) :
  get_csi_provisioner_pod c interface = p0 :: p1 :: rest ->
  let logs := logs_at c p0 p1 n in
  (forall status,
      grep (provision_pattern nm (marker status)) logs = [] ->
      fst (get_provision_time c interface (Name nm) status n) = Raise IndexError)
  /\ (grep (provision_pattern nm "started") logs = [] ->
      fst (get_start_creation_time c interface nm n) = Raise IndexError)
  /\ (grep (provision_pattern nm "succeeded") logs = [] ->
      fst (get_end_creation_time c interface nm n) = Raise IndexError)
  /\ (grep (delete_pattern nm "started") logs = [] ->
      fst (get_start_deletion_time c interface nm n) = Raise IndexError)
  /\ (grep (delete_pattern nm "succeeded") logs = [] ->
      fst (get_end_deletion_time c interface nm n) = Raise IndexError)
  /\ (forall status pattern text n',
        snapshot_source c interface status n = (Ok (Some (pattern, text)), n') ->
        (forall line, In line (PyStr.split PyStr.newline text) ->
                      Re.search nm line && Re.search pattern line = false) ->
        get_snapshot_time c interface (Name nm) status n = (Ok None, n')).
Proof.
  intros Hp logs. repeat apply conj.
  - intros status H. rewrite (get_provision_time_name _ _ _ _ _ _ _ Hp).
    fold logs. rewrite H. reflexivity.
  - intros H. unfold get_start_creation_time. rewrite Hp.
    unfold bind. rewrite provisioner_logs_run. fold logs. rewrite H. reflexivity.
  - intros H. unfold get_end_creation_time. rewrite Hp.
    unfold bind. rewrite provisioner_logs_run. fold logs. rewrite H. reflexivity.
  - intros H. unfold get_start_deletion_time. rewrite Hp.
    unfold bind. rewrite provisioner_logs_run. fold logs. rewrite H. reflexivity.
  - intros H. unfold get_end_deletion_time. rewrite Hp.
    unfold bind. rewrite provisioner_logs_run. fold logs. rewrite H. reflexivity.
  - intros status pattern text n' Hs H. unfold get_snapshot_time, bind.
    rewrite Hs. unfold lift. rewrite (get_pattern_time_none _ _ _ H). reflexivity.
Qed.

End Lookups.

(** C7 as the specification words it fails for the snapshot variant: the
    log has no line for [snap-a], and [get_snapshot_time] returns [None]
    where the claim has an [IndexError]. *)
Lemma get_snapshot_time_without_line :
  let c := cluster_with_log
             (log_text ["I0105 10:00:05.000000 snap-b readyToUse true"]) 2026 in
  fst (get_snapshot_time c "rbd" (Name "snap-a") "end" 0%nat) = Ok None
  /\ fst (get_snapshot_time c "rbd" (Name "snap-a") "end" 0%nat) <> Raise IndexError.
Proof. split; [reflexivity | vm_compute; discriminate]. Qed.

Lemma lookup_without_matching_line_witness :
  let c := cluster_with_log
             (log_text ["I0105 10:00:05.000000 provision pvc-b succeeded"]) 2026 in
  get_csi_provisioner_pod c "rbd"
  = "csi-rbdplugin-provisioner-0" :: "csi-rbdplugin-provisioner-1" :: []
  /\ grep (provision_pattern "pvc-a" (marker "end"))
          (logs_at c "csi-rbdplugin-provisioner-0" "csi-rbdplugin-provisioner-1" 0) = []
  /\ fst (get_provision_time c "rbd" (Name "pvc-a") "end" 0%nat) = Raise IndexError.
Proof.
  intros c.
  assert (Hp : get_csi_provisioner_pod c "rbd"
               = "csi-rbdplugin-provisioner-0" :: "csi-rbdplugin-provisioner-1" :: [])
    by reflexivity.
  assert (Hg : grep (provision_pattern "pvc-a" (marker "end"))
                    (logs_at c "csi-rbdplugin-provisioner-0"
                             "csi-rbdplugin-provisioner-1" 0) = [])
    by reflexivity.
  split; [exact Hp | split; [exact Hg |]].
  exact (proj1 (lookup_without_matching_line c "rbd" "pvc-a" _ _ _ 0%nat Hp) "end" Hg).
Defined.

(** C6 at a repeated marker: the log says twice that the provisioning of
    [pvc-a] succeeded.  [get_end_creation_time] takes the latest line,
    [get_provision_time] with status ["end"] the first one, so the two give
    different times. *)
Theorem end_time_of_repeated_marker :
  let c := cluster_with_log
             (log_text
                ["I0105 10:00:00.000000 provision pvc-a started";
                 "I0105 10:00:05.000000 provision pvc-a succeeded";
                 "I0105 10:00:09.000000 provision pvc-a succeeded"]) 2026 in
  fst (get_end_creation_time c "rbd" "pvc-a" 0%nat)
  = Ok (DateTime.mk_datetime 2026 1 5 10 0 9 0)
  /\ fst (get_provision_time c "rbd" (Name "pvc-a") "end" 0%nat)
     = Ok (DateTime.mk_datetime 2026 1 5 10 0 5 0).
Proof. split; reflexivity. Qed.

(** C1 as the specification words it fails: the first two tokens of
    ["Jan  5 10:00:00.000000 ..."] between single spaces are ["Jan"] and
    the empty text, the text handed to [strptime] is ["2026 Jan "], and
    the format does not match it. *)
Lemma measure_pvc_creation_time_syslog_lines :
  let c := cluster_with_log
             (log_text
                ["Jan  5 10:00:00.000000 ... provision ... pvc-a ... started";
                 "Jan  5 10:00:05.000000 ... provision ... pvc-a ... succeeded"])
             2026 in
  stamp (PyStr.str (now_year c))
        "Jan  5 10:00:00.000000 ... provision ... pvc-a ... started" = "2026 Jan "
  /\ fst (measure_pvc_creation_time c "rbd" "pvc-a" 0%nat) = Raise ValueError.
Proof. split; reflexivity. Qed.

Section Digits.

Lemma code_digit_char (d : Z) :
  0 <= d <= 9 -> PyStr.code (PyStr.digit_char d) = 48 + d.
Proof.
  intros H. unfold PyStr.code, PyStr.digit_char.
  rewrite nat_ascii_embedding by lia. lia.
Qed.

Lemma is_digit_digit_char (d : Z) :
  0 <= d <= 9 -> DateTime.is_digit (PyStr.digit_char d) = true.
Proof.
  intros H. unfold DateTime.is_digit. rewrite code_digit_char by exact H.
  apply andb_true_intro. split; apply Z.leb_le; lia.
Qed.

Lemma digit_digit_char (d : Z) :
  0 <= d <= 9 -> DateTime.digit (PyStr.digit_char d) = d.
Proof.
  intros H. unfold DateTime.digit. rewrite code_digit_char by exact H. lia.
Qed.

Lemma is_space_digit_char (d : Z) :
  0 <= d <= 9 -> DateTime.is_space (PyStr.digit_char d) = false.
Proof.
  intros H. unfold DateTime.is_space. rewrite code_digit_char by exact H.
  repeat match goal with
         | |- context [Z.leb ?x ?y] => destruct (Z.leb_spec x y)
         | |- context [Z.eqb ?x ?y] => destruct (Z.eqb_spec x y)
         end; simpl; try reflexivity; lia.
Qed.

Lemma pad_2 (v : Z) :
  pad 2 v = String (PyStr.digit_char (v / 10))
                   (String (PyStr.digit_char (v mod 10)) EmptyString).
Proof.
  unfold pad. change (10 ^ Z.of_nat 1) with 10. change (10 ^ Z.of_nat 0) with 1.
  rewrite Z.div_1_r. reflexivity.
Qed.

Lemma pad_4 (v : Z) :
  pad 4 v = String (PyStr.digit_char (v / 1000))
           (String (PyStr.digit_char (v mod 1000 / 100))
           (String (PyStr.digit_char (v mod 1000 mod 100 / 10))
           (String (PyStr.digit_char (v mod 1000 mod 100 mod 10)) EmptyString))).
Proof.
  unfold pad.
  change (10 ^ Z.of_nat 3) with 1000. change (10 ^ Z.of_nat 2) with 100.
  change (10 ^ Z.of_nat 1) with 10. change (10 ^ Z.of_nat 0) with 1.
  rewrite Z.div_1_r. reflexivity.
Qed.

(** Every year of four digits is printed as its four digits. *)
Lemma str_four_digits (y : Z) : 1000 <= y <= 9999 -> PyStr.str y = pad 4 y.
Proof.
  intros H.
  assert (A : forallb (fun n => String.eqb (PyStr.str (1000 + Z.of_nat n))
                                          (pad 4 (1000 + Z.of_nat n)))
                      (seq 0 (Z.to_nat 9000)) = true) by (vm_compute; reflexivity).
  rewrite forallb_forall in A.
  specialize (A (Z.to_nat (y - 1000))).
  rewrite Z2Nat.id in A by lia.
  replace (1000 + (y - 1000)) with y in A by lia.
  apply String.eqb_eq. apply A. apply in_seq. lia.
Qed.

End Digits.

(** ** Reading a klog stamp back *)

Ltac dlia := Z.to_euclidean_division_equations; lia.

Section ReadingBack.
Context {R : Type}.

Ltac decide_comparisons :=
  repeat match goal with
         | |- context [Z.leb ?x ?y] => destruct (Z.leb_spec x y)
         | |- context [Z.eqb ?x ?y] => destruct (Z.eqb_spec x y)
         end;
  cbn [andb orb negb DateTime.alt].

Lemma two_pad (ok : Z -> Z -> bool) (k : Z -> string -> option R)
      (v : Z) (rest : string) :
  0 <= v <= 99 ->
  DateTime.two ok k (String.append (pad 2 v) rest)
  = if ok (v / 10) (v mod 10) then k v rest else None.
Proof.
  intros H. rewrite pad_2. cbn [String.append DateTime.two].
  rewrite !is_digit_digit_char, !digit_digit_char by dlia.
  replace (10 * (v / 10) + v mod 10) with v by dlia.
  reflexivity.
Qed.

Lemma re_Y_pad (k : Z -> string -> option R) (y : Z) (rest : string) :
  0 <= y <= 9999 ->
  DateTime.re_Y k (String.append (pad 4 y) rest) = k y rest.
Proof.
  intros H. rewrite pad_4. cbn [String.append DateTime.re_Y].
  rewrite !is_digit_digit_char, !digit_digit_char by dlia.
  cbn [andb]. f_equal. dlia.
Qed.

Lemma re_m_pad (k : Z -> string -> option R) (v : Z) (rest : string) (r : R) :
  1 <= v <= 12 -> k v rest = Some r ->
  DateTime.re_m k (String.append (pad 2 v) rest) = Some r.
Proof.
  intros H Hk. unfold DateTime.re_m. rewrite !two_pad by dlia.
  decide_comparisons; rewrite ?Hk; try reflexivity; dlia.
Qed.

Lemma re_d_pad (k : Z -> string -> option R) (v : Z) (rest : string) (r : R) :
  1 <= v <= 31 -> k v rest = Some r ->
  DateTime.re_d k (String.append (pad 2 v) rest) = Some r.
Proof.
  intros H Hk. unfold DateTime.re_d. rewrite !two_pad by dlia.
  decide_comparisons; rewrite ?Hk; try reflexivity; dlia.
Qed.

Lemma re_H_pad (k : Z -> string -> option R) (v : Z) (rest : string) (r : R) :
  0 <= v <= 23 -> k v rest = Some r ->
  DateTime.re_H k (String.append (pad 2 v) rest) = Some r.
Proof.
  intros H Hk. unfold DateTime.re_H. rewrite !two_pad by dlia.
  decide_comparisons; rewrite ?Hk; try reflexivity; dlia.
Qed.

Lemma re_M_pad (k : Z -> string -> option R) (v : Z) (rest : string) (r : R) :
  0 <= v <= 59 -> k v rest = Some r ->
  DateTime.re_M k (String.append (pad 2 v) rest) = Some r.
Proof.
  intros H Hk. unfold DateTime.re_M. rewrite !two_pad by dlia.
  decide_comparisons; rewrite ?Hk; try reflexivity; dlia.
Qed.

Lemma re_S_pad (k : Z -> string -> option R) (v : Z) (rest : string) (r : R) :
  0 <= v <= 59 -> k v rest = Some r ->
  DateTime.re_S k (String.append (pad 2 v) rest) = Some r.
Proof.
  intros H Hk. unfold DateTime.re_S. rewrite !two_pad by dlia.
  decide_comparisons; rewrite ?Hk; try reflexivity; dlia.
Qed.

(** Six digits are all read, whatever follows them. *)
Lemma re_f_pad (k : Z -> string -> option R) (v : Z) (rest : string) (r : R) :
  0 <= v <= 999999 -> k v rest = Some r ->
  DateTime.re_f k (String.append (pad 6 v) rest) = Some r.
Proof.
  intros H Hk. unfold pad.
  change (10 ^ Z.of_nat 5) with 100000. change (10 ^ Z.of_nat 4) with 10000.
  change (10 ^ Z.of_nat 3) with 1000. change (10 ^ Z.of_nat 2) with 100.
  change (10 ^ Z.of_nat 1) with 10. change (10 ^ Z.of_nat 0) with 1.
  cbn [String.append DateTime.re_f DateTime.frac_more].
  rewrite !is_digit_digit_char, !digit_digit_char by dlia.
  match goal with
  | |- DateTime.alt (DateTime.alt (DateTime.alt (DateTime.alt (DateTime.alt (k ?x _) _) _) _) _) _ = _ =>
      replace x with v by dlia
  end.
  rewrite Hk. reflexivity.
Qed.

Lemma spaces_one (k : string -> option R) (c : ascii) (rest : string) :
  DateTime.is_space c = false ->
  DateTime.spaces k (String " " (String c rest)) = k (String c rest).
Proof.
  intros H. cbn [DateTime.spaces].
  change (DateTime.is_space " ") with true. rewrite H. reflexivity.
Qed.

Lemma spaces_pad (k : string -> option R) (v : Z) (rest : string) :
  0 <= v <= 99 ->
  DateTime.spaces k (String " " (String.append (pad 2 v) rest))
  = k (String.append (pad 2 v) rest).
Proof.
  intros H. rewrite pad_2. cbn [String.append].
  apply spaces_one. apply is_space_digit_char. dlia.
Qed.

Lemma lit_same (c : ascii) (k : string -> option R) (rest : string) :
  DateTime.lit c k (String c rest) = k rest.
Proof. unfold DateTime.lit. rewrite Ascii.eqb_refl. reflexivity. Qed.

End ReadingBack.

Section KlogStamps.

Lemma append_empty (s : string) : String.append s EmptyString = s.
Proof. induction s as [| c s IH]; simpl; [reflexivity | rewrite IH; reflexivity]. Qed.

(** The bounds [valid] checks. *)
Lemma valid_bounds (d : DateTime.datetime) :
  DateTime.valid d = true ->
  1 <= DateTime.year d <= 9999 /\ 1 <= DateTime.month d <= 12
  /\ 1 <= DateTime.day d <= 31 /\ 0 <= DateTime.hour d <= 23
  /\ 0 <= DateTime.minute d <= 59 /\ 0 <= DateTime.second d <= 59
  /\ 0 <= DateTime.microsecond d <= 999999.
Proof.
  unfold DateTime.valid. rewrite !andb_true_iff, !Z.leb_le.
  intros H.
  assert (DateTime.days_in_month (DateTime.year d) (DateTime.month d) <= 31).
  { unfold DateTime.days_in_month.
    repeat match goal with |- context [if ?b then _ else _] => destruct b end; dlia. }
  lia.
Qed.

(** [strptime] reads a well-formed stamp back: the datetime it was made
    from. *)
Lemma strptime_klog_stamp (d : DateTime.datetime) :
  DateTime.valid d = true -> 1000 <= DateTime.year d ->
  DateTime.strptime
    (String.append (PyStr.str (DateTime.year d)) (String.append " " (klog_stamp d)))
  = Ok d.
Proof.
  intros Hv Hy. pose proof (valid_bounds d Hv) as B.
  unfold DateTime.strptime.
  assert (E : DateTime.match_format
                (String.append (PyStr.str (DateTime.year d))
                               (String.append " " (klog_stamp d)))
              = Some (d, EmptyString)).
  { unfold DateTime.match_format. rewrite str_four_digits by dlia.
    rewrite re_Y_pad by dlia.
    unfold klog_stamp. cbn [String.append].
    rewrite spaces_one by reflexivity. rewrite lit_same.
    apply re_m_pad; [dlia |]. apply re_d_pad; [dlia |].
    rewrite spaces_pad by lia.
    apply re_H_pad; [lia |]. rewrite lit_same.
    apply re_M_pad; [lia |]. rewrite lit_same.
    apply re_S_pad; [lia |]. rewrite lit_same.
    rewrite <- (append_empty (pad 6 (DateTime.microsecond d))) at 1.
    apply re_f_pad; [lia |].
    destruct d; reflexivity. }
  rewrite E, Hv. reflexivity.
Qed.

End KlogStamps.

Section KlogLines.
Variable c : cluster.

(** A line that begins with a well-formed stamp of the current year is read
    as the datetime of the stamp. *)
Lemma strptime_stamp (line : string) (d : DateTime.datetime) :
  mon_day line = klog_stamp d ->
  DateTime.valid d = true ->
  DateTime.year d = now_year c ->
  1000 <= now_year c ->
  DateTime.strptime (stamp (PyStr.str (now_year c)) line) = Ok d.
Proof.
  intros Hl Hv Hy H. unfold stamp. rewrite Hl, <- Hy.
  apply strptime_klog_stamp; [exact Hv | lia].
Qed.

(** C1, as the code has it: the log holds the two lines
    ["I0105 10:00:00.000000 ... provision ... pvc-a ... started"] and
    ["I0105 10:00:05.000000 ... provision ... pvc-a ... succeeded"], with
    the stamp klog writes, and the current year has four digits;
    [measure_pvc_creation_time] of ["pvc-a"] returns 5.0 seconds. *)
Theorem measure_pvc_creation_time_klog_lines
        (interface p0 p1 : string) (rest : list string) (n : nat) :
  get_csi_provisioner_pod c interface = p0 :: p1 :: rest ->
  (forall k,
      String.append (get_pod_logs c k p0 (Some "csi-provisioner") None)
                    (get_pod_logs c (S k) p1 (Some "csi-provisioner") None)
      = log_text ["I0105 10:00:00.000000 ... provision ... pvc-a ... started";
                  "I0105 10:00:05.000000 ... provision ... pvc-a ... succeeded"]) ->
  1000 <= now_year c <= 9999 ->
  exists q : Q,
    fst (measure_pvc_creation_time c interface "pvc-a" n) = Ok q /\ (q == 5)%Q.
Proof.
  intros Hp Hl Hy.
  set (t0 := DateTime.mk_datetime (now_year c) 1 5 10 0 0 0).
  set (t1 := DateTime.mk_datetime (now_year c) 1 5 10 0 5 0).
  assert (V : forall s, 0 <= s <= 59 ->
                DateTime.valid (DateTime.mk_datetime (now_year c) 1 5 10 0 s 0) = true).
  { intros s Hs. unfold DateTime.valid. cbn.
    repeat (apply andb_true_intro; split); try reflexivity; apply Z.leb_le; lia. }
  assert (S0 : fst (get_start_creation_time c interface "pvc-a" n) = Ok t0
               /\ snd (get_start_creation_time c interface "pvc-a" n) = S (S n)).
  { unfold get_start_creation_time, bind. rewrite Hp, provisioner_logs_run.
    unfold logs_at. rewrite Hl.
    match goal with
    | |- context [grep ?p ?l] =>
        let g := eval vm_compute in (grep p l) in
        change (grep p l) with g
    end.
    cbn [PyStr.first lift fst snd].
    rewrite (strptime_stamp _ t0); [split; reflexivity | reflexivity | | reflexivity | lia].
    apply V. lia. }
  assert (S1 : forall m, fst (get_end_creation_time c interface "pvc-a" m) = Ok t1).
  { intros m. unfold get_end_creation_time, bind. rewrite Hp, provisioner_logs_run.
    unfold logs_at. rewrite Hl.
    match goal with
    | |- context [grep ?p ?l] =>
        let g := eval vm_compute in (grep p l) in
        change (grep p l) with g
    end.
    cbn [PyStr.last lift fst snd].
    rewrite (strptime_stamp _ t1); [reflexivity | reflexivity | | reflexivity | lia].
    apply V. lia. }
  destruct S0 as [S0 S0'].
  exists (DateTime.total_seconds (DateTime.sub t1 t0)). split.
  - unfold measure_pvc_creation_time, bind.
    destruct (get_start_creation_time c interface "pvc-a" n) as [r0 n0].
    simpl in S0, S0'. subst r0 n0.
    specialize (S1 (S (S n))).
    destruct (get_end_creation_time c interface "pvc-a" (S (S n))) as [r1 n1].
    simpl in S1. subst r1. reflexivity.
  - unfold DateTime.sub, DateTime.toordinal, t0, t1. cbn [DateTime.year DateTime.month DateTime.day DateTime.hour DateTime.minute DateTime.second DateTime.microsecond].
    rewrite Z.sub_diag. reflexivity.
Qed.

End KlogLines.

Lemma measure_pvc_creation_time_klog_lines_witness :
  let c := cluster_with_log
             (log_text
                ["I0105 10:00:00.000000 ... provision ... pvc-a ... started";
                 "I0105 10:00:05.000000 ... provision ... pvc-a ... succeeded"])
             2026 in
  1000 <= now_year c <= 9999
  /\ exists q : Q,
      fst (measure_pvc_creation_time c "rbd" "pvc-a" 0%nat) = Ok q /\ (q == 5)%Q.
Proof.
  intros c. split; [simpl; lia |].
  apply (measure_pvc_creation_time_klog_lines c "rbd"
           "csi-rbdplugin-provisioner-0" "csi-rbdplugin-provisioner-1" [] 0%nat).
  - reflexivity.
  - intros k. reflexivity.
  - simpl. lia.
Defined.

(** ** The order of the stamps is the order of the times

    [sorted] compares the stamps as texts.  On well-formed stamps of one
    year the order of the texts is the order of the datetimes. *)

Section StampOrder.

Lemma ltb_same_head (ch : ascii) (x y : string) :
  PyStr.ltb (String ch x) (String ch y) = PyStr.ltb x y.
Proof.
  cbn [PyStr.ltb]. rewrite Z.ltb_irrefl, Z.eqb_refl. reflexivity.
Qed.

Lemma ltb_same_prefix (p x y : string) :
  PyStr.ltb (String.append p x) (String.append p y) = PyStr.ltb x y.
Proof.
  induction p as [| ch p IH]; cbn [String.append]; [reflexivity |].
  rewrite ltb_same_head. exact IH.
Qed.

Lemma pow10_pos (k : nat) : 0 < 10 ^ Z.of_nat k.
Proof. apply Z.pow_pos_nonneg; lia. Qed.

Lemma pow10_succ (k : nat) : 10 ^ Z.of_nat (S k) = 10 * 10 ^ Z.of_nat k.
Proof. rewrite Nat2Z.inj_succ, Z.pow_succ_r by lia. reflexivity. Qed.

(** Two numbers on [k] digits compare as texts the way they compare as
    numbers, and what follows them decides between equal ones. *)
Lemma ltb_pad (k : nat) (a b : Z) (r1 r2 : string) :
  0 <= a < 10 ^ Z.of_nat k -> 0 <= b < 10 ^ Z.of_nat k ->
  PyStr.ltb (String.append (pad k a) r1) (String.append (pad k b) r2)
  = (a <? b) || ((a =? b) && PyStr.ltb r1 r2).
Proof.
  revert a b. induction k as [| k IH]; intros a b Ha Hb.
  - change (10 ^ Z.of_nat 0) with 1 in Ha, Hb.
    assert (a = 0) by lia. assert (b = 0) by lia. subst. reflexivity.
  - rewrite pow10_succ in Ha, Hb.
    pose proof (pow10_pos k) as HP.
    set (P := 10 ^ Z.of_nat k) in *.
    pose proof (Z.div_mod a P ltac:(lia)) as Da.
    pose proof (Z.div_mod b P ltac:(lia)) as Db.
    pose proof (Z.mod_pos_bound a P HP) as Ra.
    pose proof (Z.mod_pos_bound b P HP) as Rb.
    assert (Qa : 0 <= a / P <= 9).
    { split; [apply Z.div_pos; lia |].
      assert (a / P < 10) by (apply Z.div_lt_upper_bound; lia). lia. }
    assert (Qb : 0 <= b / P <= 9).
    { split; [apply Z.div_pos; lia |].
      assert (b / P < 10) by (apply Z.div_lt_upper_bound; lia). lia. }
    cbn [pad String.append PyStr.ltb]. fold P.
    rewrite !code_digit_char by lia.
    rewrite (IH (a mod P) (b mod P)) by lia.
    destruct (Z.ltb_spec (48 + a / P) (48 + b / P)) as [Hlt | Hge].
    + assert (a < b) by nia.
      destruct (Z.ltb_spec a b); [reflexivity | lia].
    + destruct (Z.eqb_spec (48 + a / P) (48 + b / P)) as [Heq | Hne].
      * assert (E : a / P = b / P) by lia. rewrite E in Da.
        destruct (Z.ltb_spec (a mod P) (b mod P)), (Z.ltb_spec a b),
          (Z.eqb_spec (a mod P) (b mod P)), (Z.eqb_spec a b);
          try reflexivity; lia.
      * assert (b < a) by nia.
        destruct (Z.ltb_spec a b), (Z.eqb_spec a b); try reflexivity; lia.
Qed.

(** [lex_ltb] is a strict total order. *)
Lemma lex_ltb_irrefl (a : list Z) : DateTime.lex_ltb a a = false.
Proof.
  induction a as [| x a IH]; [reflexivity |].
  cbn [DateTime.lex_ltb]. rewrite Z.ltb_irrefl, Z.eqb_refl, IH. reflexivity.
Qed.

Lemma lex_ltb_asym (a b : list Z) :
  DateTime.lex_ltb a b = true -> DateTime.lex_ltb b a = false.
Proof.
  revert b. induction a as [| x a IH]; intros [| y b]; cbn [DateTime.lex_ltb];
    try reflexivity; try discriminate.
  intros H.
  destruct (Z.ltb_spec x y), (Z.eqb_spec x y), (Z.ltb_spec y x), (Z.eqb_spec y x);
    cbn [andb orb] in *; try reflexivity; try discriminate; try lia.
  apply IH. exact H.
Qed.

Lemma lex_ltb_negtrans (a b c : list Z) :
  DateTime.lex_ltb a b = false -> DateTime.lex_ltb b c = false ->
  DateTime.lex_ltb a c = false.
Proof.
  revert b c. induction a as [| x a IH]; intros [| y b] [| z c];
    cbn [DateTime.lex_ltb]; try reflexivity; try discriminate.
  intros H1 H2.
  destruct (Z.ltb_spec x y), (Z.eqb_spec x y), (Z.ltb_spec y z), (Z.eqb_spec y z),
    (Z.ltb_spec x z), (Z.eqb_spec x z);
    cbn [andb orb] in *; try reflexivity; try discriminate; try lia.
  eapply IH; eassumption.
Qed.

End StampOrder.

Section SortedStamps.

Lemma ltb_klog_stamps (Y : string) (a b : DateTime.datetime) :
  DateTime.valid a = true -> DateTime.valid b = true ->
  DateTime.year a = DateTime.year b ->
  PyStr.ltb (String.append Y (String.append " " (klog_stamp a)))
            (String.append Y (String.append " " (klog_stamp b)))
  = DateTime.ltb a b.
Proof.
  intros Va Vb Hy.
  pose proof (valid_bounds a Va) as Ba. pose proof (valid_bounds b Vb) as Bb.
  assert (P2 : 10 ^ Z.of_nat 2 = 100) by reflexivity.
  assert (P6 : 10 ^ Z.of_nat 6 = 1000000) by reflexivity.
  rewrite ltb_same_prefix. unfold klog_stamp. cbn [String.append].
  rewrite !ltb_same_head.
  rewrite ltb_pad by (rewrite P2; lia).
  rewrite ltb_pad by (rewrite P2; lia).
  rewrite ltb_same_head.
  rewrite ltb_pad by (rewrite P2; lia).
  rewrite ltb_same_head.
  rewrite ltb_pad by (rewrite P2; lia).
  rewrite ltb_same_head.
  rewrite ltb_pad by (rewrite P2; lia).
  rewrite ltb_same_head.
  rewrite <- (append_empty (pad 6 (DateTime.microsecond a))).
  rewrite <- (append_empty (pad 6 (DateTime.microsecond b))).
  rewrite ltb_pad by (rewrite P6; lia).
  unfold DateTime.ltb, DateTime.key. cbn [DateTime.lex_ltb PyStr.ltb].
  rewrite Hy, Z.ltb_irrefl, Z.eqb_refl. reflexivity.
Qed.

(** *** [sorted] puts a smallest text first and a largest one last

    [K] reads a key off a text, and on the texts of the list the order of
    the texts is the order of the keys. *)

Variable K : string -> list Z.

Lemma keyed_tail (x : string) (l : list string) : keyed K (x :: l) -> keyed K l.
Proof. intros H a b Ha Hb. apply H; right; assumption. Qed.

Lemma insert_In (x y : string) (l : list string) :
  In y (PyStr.insert x l) <-> y = x \/ In y l.
Proof.
  induction l as [| z l IH]; cbn [PyStr.insert].
  - simpl. intuition.
  - destruct (PyStr.ltb z x); simpl; rewrite ?IH; intuition.
Qed.

Lemma sorted_In (y : string) (l : list string) :
  In y (PyStr.sorted l) <-> In y l.
Proof.
  induction l as [| x l IH]; cbn [PyStr.sorted]; [reflexivity |].
  rewrite insert_In, IH. simpl. intuition.
Qed.

Lemma first_sorted (l : list string) :
  keyed K l -> l <> [] ->
  exists m, PyStr.first (PyStr.sorted l) = Ok m /\ In m l
            /\ forall x, In x l -> DateTime.lex_ltb (K x) (K m) = false.
Proof.
  induction l as [| x l IH]; intros Hk Hne; [congruence |].
  destruct l as [| x' l'].
  - exists x. cbn. split; [reflexivity |]. split; [left; reflexivity |].
    intros y [<- | []]. apply lex_ltb_irrefl.
  - destruct (IH (keyed_tail _ _ Hk) ltac:(discriminate)) as (m & Hm & Im & Mm).
    cbn [PyStr.sorted] in *.
    destruct (PyStr.insert x' (PyStr.sorted l')) as [| h s] eqn:E;
      [discriminate |].
    cbn [PyStr.first] in Hm. injection Hm as ->.
    cbn [PyStr.insert].
    assert (Hxm : PyStr.ltb m x = DateTime.lex_ltb (K m) (K x))
      by (apply Hk; [right; exact Im | left; reflexivity]).
    destruct (PyStr.ltb m x) eqn:L.
    + exists m. split; [reflexivity |]. split; [right; exact Im |].
      intros y [<- | Hy]; [apply lex_ltb_asym; congruence | apply Mm; exact Hy].
    + exists x. split; [reflexivity |]. split; [left; reflexivity |].
      intros y [<- | Hy]; [apply lex_ltb_irrefl |].
      apply (lex_ltb_negtrans _ (K m)); [apply Mm; exact Hy | congruence].
Qed.

Lemma insert_cons (x y : string) (l : list string) :
  PyStr.insert x (y :: l)
  = if PyStr.ltb y x then y :: PyStr.insert x l else x :: y :: l.
Proof. reflexivity. Qed.

Lemma insert_not_nil (x : string) (l : list string) : PyStr.insert x l <> [].
Proof.
  destruct l as [| y l]; [discriminate |].
  rewrite insert_cons. destruct (PyStr.ltb y x); discriminate.
Qed.

Lemma last_cons (y : string) (l : list string) :
  l <> [] -> PyStr.last (y :: l) = PyStr.last l.
Proof. destruct l; [congruence | reflexivity]. Qed.

Lemma last_insert (x M : string) (s : list string) :
  PyStr.last s = Ok M ->
  (forall y, In y s -> PyStr.ltb M x = true -> PyStr.ltb y x = true) ->
  PyStr.last (PyStr.insert x s) = Ok (if PyStr.ltb M x then x else M).
Proof.
  induction s as [| y s IH]; intros HM Hs; [discriminate |].
  destruct s as [| y' s'].
  - cbn in HM. injection HM as ->. cbn.
    destruct (PyStr.ltb M x); reflexivity.
  - rewrite last_cons in HM by discriminate.
    assert (IH' := IH HM (fun z Hz => Hs z (or_intror Hz))).
    rewrite insert_cons.
    destruct (PyStr.ltb y x) eqn:L.
    + rewrite last_cons by apply insert_not_nil. exact IH'.
    + rewrite !last_cons by discriminate.
      destruct (PyStr.ltb M x) eqn:LM.
      * rewrite (Hs y (or_introl eq_refl) eq_refl) in L. discriminate.
      * exact HM.
Qed.

Lemma last_sorted (l : list string) :
  keyed K l -> l <> [] ->
  exists M, PyStr.last (PyStr.sorted l) = Ok M /\ In M l
            /\ forall x, In x l -> DateTime.lex_ltb (K M) (K x) = false.
Proof.
  induction l as [| x l IH]; intros Hk Hne; [congruence |].
  destruct l as [| x' l'].
  - exists x. cbn. split; [reflexivity |]. split; [left; reflexivity |].
    intros y [<- | []]. apply lex_ltb_irrefl.
  - destruct (IH (keyed_tail _ _ Hk) ltac:(discriminate)) as (M & HM & IM & MM).
    assert (Hxm : PyStr.ltb M x = DateTime.lex_ltb (K M) (K x))
      by (apply Hk; [right; exact IM | left; reflexivity]).
    assert (HL : PyStr.last (PyStr.sorted (x :: x' :: l'))
                 = Ok (if PyStr.ltb M x then x else M)).
    { change (PyStr.sorted (x :: x' :: l'))
        with (PyStr.insert x (PyStr.sorted (x' :: l'))).
      apply last_insert; [exact HM |].
      intros y Hy HMx. apply (proj1 (sorted_In _ _)) in Hy.
      rewrite (Hk y x (or_intror Hy) (or_introl eq_refl)).
      destruct (DateTime.lex_ltb (K y) (K x)) eqn:Lyx; [reflexivity |].
      rewrite (lex_ltb_negtrans _ _ _ (MM y Hy) Lyx) in Hxm. congruence. }
    rewrite HL. destruct (PyStr.ltb M x) eqn:L.
    + exists x. split; [reflexivity |]. split; [left; reflexivity |].
      intros y [<- | Hy]; [apply lex_ltb_irrefl |].
      destruct (DateTime.lex_ltb (K x) (K y)) eqn:Lxy; [| reflexivity].
      assert (A := lex_ltb_asym _ _ Lxy).
      rewrite (lex_ltb_negtrans _ _ _ (MM y Hy) A) in Hxm. congruence.
    + exists M. split; [reflexivity |]. split; [right; exact IM |].
      intros y [<- | Hy]; [congruence | apply MM; exact Hy].
Qed.

End SortedStamps.

(** * Batch mode of [get_provision_time] *)

Section BatchTimes.
Variable c : cluster.
Variables (interface p0 p1 : string) (rest : list string) (n : nat).
Hypothesis pods : get_csi_provisioner_pod c interface = p0 :: p1 :: rest.

Lemma get_provision_time_objs_start (objs : list OCS) :
  get_provision_time c interface (Objs objs) "start" n
  = ((try! all_stats := map_result (stat_of c p0 p1 n "started") objs in
      try! stat := PyStr.first (PyStr.sorted all_stats) in
      DateTime.strptime stat),
     S (S n)).
Proof.
  unfold get_provision_time. rewrite pods. unfold bind.
  rewrite provisioner_logs_run.
  change (String.eqb (PyStr.lower "start") "end") with false.
  change (String.eqb (PyStr.lower "start") "start") with true.
  cbv iota. fold (stat_of c p0 p1 n "started"). unfold lift, rbind.
  destruct (map_result (stat_of c p0 p1 n "started") objs) as [all_stats | e];
    [| reflexivity].
  destruct (PyStr.first (PyStr.sorted all_stats)); reflexivity.
Qed.

Lemma get_provision_time_objs_end (objs : list OCS) :
  get_provision_time c interface (Objs objs) "end" n
  = ((try! all_stats := map_result (stat_of c p0 p1 n "succeeded") objs in
      try! stat := PyStr.last (PyStr.sorted all_stats) in
      DateTime.strptime stat),
     S (S n)).
Proof.
  unfold get_provision_time. rewrite pods. unfold bind.
  rewrite provisioner_logs_run.
  change (String.eqb (PyStr.lower "end") "end") with true.
  cbv iota. fold (stat_of c p0 p1 n "succeeded"). unfold lift, rbind.
  destruct (map_result (stat_of c p0 p1 n "succeeded") objs) as [all_stats | e];
    [| reflexivity].
  destruct (PyStr.last (PyStr.sorted all_stats)); reflexivity.
Qed.

Lemma get_provision_time_single (status : string) (o : OCS) :
  fst (get_provision_time c interface (Name (name o)) status n)
  = (try! stat := stat_of c p0 p1 n (marker status) o in DateTime.strptime stat).
Proof.
  rewrite (get_provision_time_name c _ _ _ _ _ _ _ pods). unfold stat_of, rbind.
  cbn [fst]. destruct (PyStr.first _); reflexivity.
Qed.

Lemma map_result_ok {A B} (f : A -> result B) (g : A -> B) (l : list A) :
  (forall x, In x l -> f x = Ok (g x)) -> map_result f l = Ok (map g l).
Proof.
  induction l as [| x l IH]; intros H; [reflexivity |].
  cbn [map_result map]. rewrite (H x (or_introl eq_refl)).
  cbn [rbind]. rewrite IH by (intros y Hy; apply H; right; exact Hy).
  reflexivity.
Qed.

Section OneOperation.
Variable operation : string.
Variable objs : list OCS.
Hypothesis year_four : 1000 <= now_year c.
Hypothesis stamped :
  forall o, In o objs -> first_line_stamped c p0 p1 n (name o) operation.

Lemma stat_of_stamped (o : OCS) :
  In o objs ->
  exists d,
    stat_of c p0 p1 n operation o
    = Ok (String.append (PyStr.str (now_year c))
                        (String.append " " (klog_stamp d)))
    /\ DateTime.strptime (String.append (PyStr.str (now_year c))
                                        (String.append " " (klog_stamp d)))
       = Ok d
    /\ DateTime.valid d = true /\ DateTime.year d = now_year c.
Proof.
  intros Ho. destruct (stamped o Ho) as (line & d & Hl & Hm & Hv & Hy).
  exists d. unfold stat_of. rewrite Hl. cbn [rbind]. unfold stamp. rewrite Hm.
  repeat split; try assumption.
  rewrite <- Hy. apply strptime_klog_stamp; [exact Hv | lia].
Qed.

Lemma all_stats_stamped :
  map_result (stat_of c p0 p1 n operation) objs = Ok (map (text_of c p0 p1 n operation) objs).
Proof.
  apply map_result_ok. intros o Ho.
  destruct (stat_of_stamped o Ho) as (d & Hs & _).
  unfold text_of. rewrite Hs. reflexivity.
Qed.

Lemma all_stats_keyed : keyed time_key (map (text_of c p0 p1 n operation) objs).
Proof.
  intros x y Hx Hy.
  apply in_map_iff in Hx. destruct Hx as (o1 & <- & H1).
  apply in_map_iff in Hy. destruct Hy as (o2 & <- & H2).
  destruct (stat_of_stamped o1 H1) as (d1 & S1 & P1 & V1 & Y1).
  destruct (stat_of_stamped o2 H2) as (d2 & S2 & P2 & V2 & Y2).
  unfold text_of, time_key. rewrite S1, S2, P1, P2.
  apply ltb_klog_stamps; [exact V1 | exact V2 | congruence].
Qed.

(** What the single mode and the batch mode give for the texts. *)
Lemma picked_time (pick : list string -> result string) (m : string) :
  pick (PyStr.sorted (map (text_of c p0 p1 n operation) objs)) = Ok m ->
  In m (map (text_of c p0 p1 n operation) objs) ->
  exists o d,
    In o objs /\ stat_of c p0 p1 n operation o = Ok m /\ DateTime.strptime m = Ok d
    /\ time_key m = DateTime.key d.
Proof.
  intros _ Hm. apply in_map_iff in Hm. destruct Hm as (o & <- & Ho).
  destruct (stat_of_stamped o Ho) as (d & Hs & Hp & _).
  exists o, d. unfold text_of, time_key. rewrite Hs, Hp. repeat split.
  exact Ho.
Qed.

End OneOperation.

End BatchTimes.

Section BatchOfStamped.
Variable c : cluster.
Variables (interface p0 p1 : string) (rest : list string) (n : nat).
Variable objs : list OCS.
Hypothesis pods : get_csi_provisioner_pod c interface = p0 :: p1 :: rest.
Hypothesis some : objs <> [].
Hypothesis year_four : 1000 <= now_year c.

Lemma texts_not_nil (operation : string) :
  map (text_of c p0 p1 n operation) objs <> [].
Proof. destruct objs; [congruence | discriminate]. Qed.

Lemma single_time (status : string) (o : OCS) (d : DateTime.datetime) :
  (forall o, In o objs -> first_line_stamped c p0 p1 n (name o) (marker status)) ->
  In o objs ->
  fst (get_provision_time c interface (Name (name o)) status n) = Ok d ->
  time_key (text_of c p0 p1 n (marker status) o) = DateTime.key d.
Proof.
  intros St Ho Hd.
  rewrite (get_provision_time_single c interface p0 p1 rest n pods) in Hd.
  destruct (stat_of_stamped c p0 p1 n _ objs year_four St o Ho)
    as (d0 & Hs & Hp & _).
  unfold text_of, time_key. rewrite Hs in *. cbn [rbind] in Hd.
  rewrite Hp in *. congruence.
Qed.

Lemma batch_start :
  (forall o, In o objs -> first_line_stamped c p0 p1 n (name o) "started") ->
  exists d,
    fst (get_provision_time c interface (Objs objs) "start" n) = Ok d
    /\ (exists o, In o objs
                  /\ fst (get_provision_time c interface (Name (name o)) "start" n)
                     = Ok d)
    /\ (forall o d',
           In o objs ->
           fst (get_provision_time c interface (Name (name o)) "start" n) = Ok d' ->
           DateTime.leb d d' = true).
Proof.
  intros St.
  rewrite (get_provision_time_objs_start c interface p0 p1 rest n pods).
  rewrite (all_stats_stamped c p0 p1 n "started" objs year_four St).
  cbn [rbind fst].
  destruct (first_sorted time_key _
              (all_stats_keyed c p0 p1 n "started" objs year_four St)
              (texts_not_nil "started")) as (m & Hm & Im & Mm).
  destruct (picked_time c p0 p1 n "started" objs year_four St PyStr.first m Hm Im)
    as (o & d & Ho & Hs & Hp & Hk).
  rewrite Hm. exists d. split; [exact Hp |]. split.
  - exists o. split; [exact Ho |].
    rewrite (get_provision_time_single c interface p0 p1 rest n pods).
    change (marker "start") with "started". rewrite Hs. exact Hp.
  - intros o' d' Ho' Hd'.
    pose proof (single_time "start" o' d' St Ho' Hd') as Hk'.
    change (marker "start") with "started" in Hk'.
    specialize (Mm _ (in_map _ _ _ Ho')). rewrite Hk, Hk' in Mm.
    unfold DateTime.leb, DateTime.ltb. rewrite Mm. reflexivity.
Qed.

Lemma batch_end :
  (forall o, In o objs -> first_line_stamped c p0 p1 n (name o) "succeeded") ->
  exists d,
    fst (get_provision_time c interface (Objs objs) "end" n) = Ok d
    /\ (exists o, In o objs
                  /\ fst (get_provision_time c interface (Name (name o)) "end" n)
                     = Ok d)
    /\ (forall o d',
           In o objs ->
           fst (get_provision_time c interface (Name (name o)) "end" n) = Ok d' ->
           DateTime.leb d' d = true).
Proof.
  intros St.
  rewrite (get_provision_time_objs_end c interface p0 p1 rest n pods).
  rewrite (all_stats_stamped c p0 p1 n "succeeded" objs year_four St).
  cbn [rbind fst].
  destruct (last_sorted time_key _
              (all_stats_keyed c p0 p1 n "succeeded" objs year_four St)
              (texts_not_nil "succeeded")) as (m & Hm & Im & Mm).
  destruct (picked_time c p0 p1 n "succeeded" objs year_four St PyStr.last m Hm Im)
    as (o & d & Ho & Hs & Hp & Hk).
  rewrite Hm. exists d. split; [exact Hp |]. split.
  - exists o. split; [exact Ho |].
    rewrite (get_provision_time_single c interface p0 p1 rest n pods).
    change (marker "end") with "succeeded". rewrite Hs. exact Hp.
  - intros o' d' Ho' Hd'.
    pose proof (single_time "end" o' d' St Ho' Hd') as Hk'.
    change (marker "end") with "succeeded" in Hk'.
    specialize (Mm _ (in_map _ _ _ Ho')). rewrite Hk, Hk' in Mm.
    unfold DateTime.leb, DateTime.ltb. rewrite Mm. reflexivity.
Qed.

End BatchOfStamped.




(** * Bulk measurements *)

Section LinesOfALog.

Lemma has_line_grep (p : string) (logs : list string) :
  has_line p logs
  = match grep p logs with
    | [] => false
    | _ :: _ => true
    end.
Proof.
  unfold has_line, grep. induction logs as [| x l IH]; [reflexivity |].
  cbn [existsb List.filter]. destruct (Re.search p x); [reflexivity | exact IH].
Qed.

Lemma first_grep (p : string) (logs : list string) :
  PyStr.first (grep p logs)
  = match first_line p logs with
    | Some l => Ok l
    | None => Raise IndexError
    end.
Proof.
  unfold first_line, grep. induction logs as [| x l IH]; [reflexivity |].
  cbn [List.find List.filter]. destruct (Re.search p x); [reflexivity | exact IH].
Qed.

Lemma has_line_first (p : string) (logs : list string) :
  has_line p logs = true -> exists l, first_line p logs = Some l.
Proof.
  unfold has_line, first_line. induction logs as [| x l IH]; [discriminate |].
  cbn [existsb List.find]. destruct (Re.search p x); [eauto | exact IH].
Qed.

Lemma no_data_without (started succeeded : string -> string)
      (logs names : list string) :
  Bulk.no_data started succeeded logs names
  = without_data started succeeded logs names.
Proof.
  unfold Bulk.no_data, without_data. apply List.filter_ext. intros name.
  unfold lacks_data. rewrite !has_line_grep.
  destruct (grep (started name) logs); destruct (grep (succeeded name) logs);
    reflexivity.
Qed.

Lemma without_data_nil (started succeeded : string -> string)
      (logs names : list string) (name : string) :
  without_data started succeeded logs names = [] -> In name names ->
  exists start end_,
    first_line (started name) logs = Some start
    /\ first_line (succeeded name) logs = Some end_.
Proof.
  unfold without_data. induction names as [| x l IH]; intros H Hin; [contradiction |].
  cbn [List.filter] in H.
  destruct (lacks_data started succeeded logs x) eqn:E; [discriminate |].
  destruct Hin as [<- | Hin]; [| apply IH; assumption].
  unfold lacks_data in E. apply orb_false_iff in E. destruct E as [E1 E2].
  apply negb_false_iff in E1. apply negb_false_iff in E2.
  destruct (has_line_first _ _ E1) as [s Hs].
  destruct (has_line_first _ _ E2) as [e He].
  exists s, e. split; assumption.
Qed.

Lemma fill_keys (started succeeded : string -> string) (this_year : string)
      (logs todo : list string) (d0 d : gmap string Q) :
  Bulk.fill started succeeded this_year logs todo d0 = Ok d ->
  forall k, is_Some (d !! k) <-> is_Some (d0 !! k) \/ In k todo.
Proof.
  revert d0. induction todo as [| x todo IH]; intros d0 H k.
  - cbn in H. injection H as <-. cbn. tauto.
  - cbn [Bulk.fill] in H.
    destruct (PyStr.first (grep (started x) logs)); [| discriminate].
    cbn [rbind] in H.
    destruct (DateTime.strptime (stamp this_year a)); [| discriminate].
    cbn [rbind] in H.
    destruct (PyStr.first (grep (succeeded x) logs)); [| discriminate].
    cbn [rbind] in H.
    destruct (DateTime.strptime (stamp this_year a1)); [| discriminate].
    cbn [rbind] in H.
    rewrite (IH _ H k). cbn [In].
    destruct (decide (x = k)) as [<- | Hne].
    + rewrite lookup_insert_eq. split; [auto |]. intros _. left. eauto.
    + rewrite lookup_insert_ne by assumption. tauto.
Qed.

Lemma strptime_value_error (s : string) (err : exn) :
  DateTime.strptime s = Raise err -> err = ValueError.
Proof.
  unfold DateTime.strptime.
  destruct (DateTime.match_format s) as [[dd [| ? ?]] |];
    try (destruct (DateTime.valid dd)); congruence.
Qed.

End LinesOfALog.

Section BulkRuns.
Variable e : Bulk.env.
Variables started succeeded : string -> string.
Variables (p0 p1 : string) (rest : list string).
Variable names : list string.
Variable wait_time : Z.
Variable n : nat.
Hypothesis wait_time_ok : 0 <= wait_time.
Hypothesis sleep_ok : Bulk.time_sleep e wait_time = Ok tt.

Lemma sleep_ends : Bulk.sleep e wait_time = Ok tt.
Proof.
  unfold Bulk.sleep. destruct (Z.ltb_spec wait_time 0); [lia | exact sleep_ok].
Qed.

(** A fetch gives the lines of the two logs, or the exception of the
    read that fails. *)
Lemma fetch_run (m : nat) :
  Bulk.fetch e wait_time (p0 :: p1 :: rest) m
  = (fetched e p0 p1 m, (m + reads_of e p0 m)%nat).
Proof.
  unfold Bulk.fetch, bind, lift. rewrite sleep_ends.
  unfold index. cbn [nth_error]. unfold Bulk.read_logs, fetched, reads_of, ret.
  destruct (Bulk.get_pod_logs e m p0 (Some "csi-provisioner") None)
    as [l0 | err]; cbn [rbind].
  - destruct (Bulk.get_pod_logs e (S m) p1 (Some "csi-provisioner") None)
      as [l1 | err]; cbn [rbind]; f_equal; lia.
  - f_equal. lia.
Qed.

Lemma fetched_reads (m : nat) (logs : list string) :
  fetched e p0 p1 m = Ok logs -> reads_of e p0 m = 2%nat.
Proof.
  unfold fetched, reads_of.
  destruct (Bulk.get_pod_logs e m p0 (Some "csi-provisioner") None);
    [reflexivity | discriminate].
Qed.

(** The loop, entered with the log of fetch [i] after [i] re-fetches.  It
    fetches [k - i] more logs, each because the one before lacked data,
    and stops on a read that fails, on a log that has data for every
    name, or after the sixth re-fetch, naming the subjects the log of the
    fifth had no data for. *)
Lemma await_data_run (fuel i : nat) (logs : list string) :
  (i <= 5)%nat -> (6 - i <= fuel)%nat ->
  fetched e p0 p1 (n + 2 * i) = Ok logs ->
  exists k : nat,
    (i <= k <= 6)%nat
    /\ (forall j, (i <= j < k)%nat ->
                  exists lj,
                    fetched e p0 p1 (n + 2 * j) = Ok lj
                    /\ without_data started succeeded lj names <> [])
    /\ snd (Bulk.await_data e started succeeded fuel wait_time (p0 :: p1 :: rest)
              names (Z.of_nat i) logs (n + 2 * i + 2)%nat)
       = (n + 2 * k + reads_of e p0 (n + 2 * k))%nat
    /\ match fetched e p0 p1 (n + 2 * k) with
       | Raise err =>
           fst (Bulk.await_data e started succeeded fuel wait_time
                  (p0 :: p1 :: rest) names (Z.of_nat i) logs (n + 2 * i + 2)%nat)
           = Raise err
       | Ok lk =>
           if (k =? 6)%nat
           then exists l5,
               fetched e p0 p1 (n + 2 * 5) = Ok l5
               /\ fst (Bulk.await_data e started succeeded fuel wait_time
                         (p0 :: p1 :: rest) names (Z.of_nat i) logs
                         (n + 2 * i + 2)%nat)
                  = Raise (UnexpectedBehaviour
                             (without_data started succeeded l5 names))
           else
             without_data started succeeded lk names = []
             /\ fst (Bulk.await_data e started succeeded fuel wait_time
                       (p0 :: p1 :: rest) names (Z.of_nat i) logs
                       (n + 2 * i + 2)%nat)
                = Ok (Some lk)
       end.
Proof.
  revert i logs. induction fuel as [| fuel IH]; intros i logs Hi Hf Hlogs; [lia |].
  cbn [Bulk.await_data]. rewrite no_data_without.
  destruct (without_data started succeeded logs names) as [| x l] eqn:E.
  - exists i. cbn [ret fst snd]. split; [lia |].
    split; [intros j Hj; lia |].
    split; [rewrite (fetched_reads _ _ Hlogs); reflexivity |].
    rewrite Hlogs. destruct (Nat.eqb_spec i 6); [lia |].
    split; [exact E | reflexivity].
  - unfold bind. rewrite fetch_run.
    replace (n + 2 * i + 2)%nat with (n + 2 * S i)%nat by lia.
    destruct (fetched e p0 p1 (n + 2 * S i)) as [logs' | err] eqn:F.
    + rewrite (fetched_reads _ _ F).
      destruct (Z.geb_spec (Z.of_nat i + 1) 6) as [Hge | Hlt].
      * assert (i = 5%nat) by lia. subst i.
        exists 6%nat. cbn [raise fst snd]. split; [lia |]. split.
        { intros j Hj. assert (j = 5%nat) by lia. subst j.
          exists logs. split; [exact Hlogs | rewrite E; discriminate]. }
        rewrite (fetched_reads _ _ F).
        split; [reflexivity |].
        rewrite F. cbn [Nat.eqb].
        exists logs. split; [exact Hlogs | rewrite E; reflexivity].
      * replace (Z.of_nat i + 1) with (Z.of_nat (S i)) by lia.
        destruct (IH (S i) logs' ltac:(lia) ltac:(lia) F)
          as (k & Hk & Hj & Hs & Hr).
        exists k. split; [lia |]. split.
        { intros j Hjk. destruct (Nat.eq_dec j i) as [-> | Hne].
          - exists logs. split; [exact Hlogs | rewrite E; discriminate].
          - apply Hj. lia. }
        split; [exact Hs | exact Hr].
    + exists (S i). cbn [fst snd]. split; [lia |]. split.
      { intros j Hj. assert (j = i) by lia. subst j.
        exists logs. split; [exact Hlogs | rewrite E; discriminate]. }
      split; [reflexivity |]. rewrite F. reflexivity.
Qed.

(** The loop that fills the dictionary, on a log that has data for every
    name: it ends with a time for every name, or with a stamp [strptime]
    cannot read. *)
Lemma fill_run (year : Z) (logs todo : list string) (d0 : gmap string Q) :
  (forall name, In name todo -> In name names) ->
  without_data started succeeded logs names = [] ->
  match Bulk.fill started succeeded (PyStr.str year) logs todo d0 with
  | Ok d =>
      (forall name, In name todo -> is_Some (d !! name))
      /\ (forall name, is_Some (d0 !! name) -> is_Some (d !! name))
      /\ (forall name q, d !! name = Some q ->
                         d0 !! name = Some q
                         \/ timed year started succeeded logs name q)
  | Raise err =>
      err = ValueError
      /\ exists name, In name todo /\ unreadable year started succeeded logs name
  end.
Proof.
  intros Hsub Hnd. revert d0.
  induction todo as [| x todo IH]; intros d0.
  - cbn [Bulk.fill]. split; [intros ? [] |]. split; [auto |]. intros; left; assumption.
  - cbn [Bulk.fill].
    destruct (without_data_nil started succeeded logs names x Hnd
                (Hsub x (or_introl eq_refl))) as (s & en & Hs & He).
    rewrite !first_grep, Hs, He. cbn [rbind].
    destruct (DateTime.strptime (stamp (PyStr.str year) s))
      as [start_time | ex] eqn:Ps; cbn [rbind].
    2: { split; [exact (strptime_value_error _ _ Ps) |].
         exists x. split; [left; reflexivity |].
         exists s. split; [left; exact Hs |].
         rewrite Ps. f_equal. exact (strptime_value_error _ _ Ps). }
    destruct (DateTime.strptime (stamp (PyStr.str year) en))
      as [end_time | ex] eqn:Pe; cbn [rbind].
    2: { split; [exact (strptime_value_error _ _ Pe) |].
         exists x. split; [left; reflexivity |].
         exists en. split; [right; exact He |].
         rewrite Pe. f_equal. exact (strptime_value_error _ _ Pe). }
    specialize (IH (fun y Hy => Hsub y (or_intror Hy))
                   (<[x := DateTime.total_seconds (DateTime.sub end_time start_time)]> d0)).
    destruct (Bulk.fill started succeeded (PyStr.str year) logs todo _)
      as [d | ex].
    + destruct IH as (I1 & I2 & I3). split; [| split].
      * intros y [<- | Hy]; [| apply I1; exact Hy].
        apply I2. rewrite lookup_insert_eq. eauto.
      * intros y Hy. apply I2.
        destruct (decide (x = y)) as [<- | Hne];
          [rewrite lookup_insert_eq; eauto | rewrite lookup_insert_ne; assumption].
      * intros y q Hq. destruct (I3 y q Hq) as [H | H]; [| right; exact H].
        destruct (decide (x = y)) as [<- | Hne].
        -- rewrite lookup_insert_eq in H. injection H as <-.
           right. exists s, en, start_time, end_time. repeat split; assumption.
        -- rewrite lookup_insert_ne in H by assumption. left. exact H.
    + destruct IH as (I1 & y & Hy & Hu). split; [exact I1 |].
      exists y. split; [right; exact Hy | exact Hu].
Qed.

End BulkRuns.

(** The fuel beyond six rounds is never used. *)
Lemma await_data_fuel (e : Bulk.env) (started succeeded : string -> string)
      (wait_time : Z) (pod_name names : list string)
      (fuel fuel' : nat) (loop_counter : Z) (logs : list string) (n : nat) :
  0 <= loop_counter <= 5 ->
  6 - loop_counter <= Z.of_nat fuel -> 6 - loop_counter <= Z.of_nat fuel' ->
  Bulk.await_data e started succeeded fuel wait_time pod_name names
    loop_counter logs n
  = Bulk.await_data e started succeeded fuel' wait_time pod_name names
      loop_counter logs n.
Proof.
  revert fuel' loop_counter logs n.
  induction fuel as [| fuel IH]; intros [| fuel'] lc logs n H0 Hf Hf'; try lia.
  cbn [Bulk.await_data].
  destruct (Bulk.no_data started succeeded logs names); [reflexivity |].
  unfold bind.
  destruct (Bulk.fetch e wait_time pod_name n) as [[logs' | err] n']; [| reflexivity].
  destruct (Z.geb_spec (lc + 1) 6); [reflexivity |].
  apply IH; lia.
Qed.

Lemma measure_bulk_bounded (e : Bulk.env) (started succeeded : string -> string) :
  bounded_refetch e started succeeded (Bulk.measure_bulk e started succeeded).
Proof.
  intros interface p0 p1 rest names wait_time n fuel pods Hf. cbv zeta.
  split; [| split; [| split]].
  - intros Hneg. unfold Bulk.measure_bulk, bind, lift. rewrite pods.
    unfold Bulk.fetch, bind, lift, Bulk.sleep.
    destruct (Z.ltb_spec wait_time 0); [reflexivity | lia].
  - intros err Hpos Hsleep. unfold Bulk.measure_bulk, bind, lift. rewrite pods.
    unfold Bulk.fetch, bind, lift, Bulk.sleep.
    destruct (Z.ltb_spec wait_time 0); [lia |]. rewrite Hsleep. reflexivity.
  - intros Hpos Hsleep.
    remember (Bulk.measure_bulk e started succeeded fuel interface names
                wait_time n) as run eqn:Run.
    unfold Bulk.measure_bulk, bind in Run. unfold lift at 1 in Run.
    rewrite pods in Run.
    rewrite (fetch_run e p0 p1 rest wait_time Hpos Hsleep n) in Run.
    destruct (fetched e p0 p1 n) as [logs0 | err] eqn:F0.
    + rewrite (fetched_reads e p0 p1 n logs0 F0) in Run.
      assert (F0' : fetched e p0 p1 (n + 2 * 0) = Ok logs0)
        by (rewrite <- F0; f_equal; lia).
      destruct (await_data_run e started succeeded p0 p1 rest names wait_time n
                  Hpos Hsleep fuel 0 logs0 ltac:(lia) ltac:(lia) F0')
        as (k & Hk & Hj & Hs & Hr).
      replace (n + 2 * 0 + 2)%nat with (n + 2)%nat in Hs, Hr by lia.
      change (Z.of_nat 0) with 0 in Hs, Hr.
      destruct (Bulk.await_data e started succeeded fuel wait_time
                  (p0 :: p1 :: rest) names 0 logs0 (n + 2)%nat) as [r s] eqn:A.
      cbn [fst snd] in Hs, Hr. subst s.
      exists k. split; [lia |]. split; [intros j Hjk; apply Hj; lia |].
      destruct (fetched e p0 p1 (n + 2 * k)) as [lk | err] eqn:Fk.
      * destruct (Nat.eqb_spec k 6) as [-> | Hk6].
        -- destruct Hr as (l5 & H5 & ->). subst run. cbn [fst snd].
           split; [reflexivity |]. exists l5. split; [exact H5 | reflexivity].
        -- destruct Hr as [Hnd ->].
           pose proof (fill_run started succeeded names (Bulk.now_year e) lk names ∅
                         (fun _ H => H) Hnd) as Fl.
           unfold lift, ret in Run.
           destruct (Bulk.fill started succeeded (PyStr.str (Bulk.now_year e))
                       lk names ∅) as [d | ex] eqn:Fd.
           ++ subst run. cbn [fst snd]. split; [reflexivity |].
              split; [exact Hnd |].
              left. exists d. split; [reflexivity |].
              destruct Fl as (F1 & _ & F3). split.
              ** intros name Hin. destruct (F1 name Hin) as [q Hq].
                 exists q. split; [exact Hq |].
                 destruct (F3 name q Hq) as [H | H]; [| exact H].
                 rewrite lookup_empty in H. discriminate.
              ** intros name Hsome.
                 apply (fill_keys _ _ _ _ _ _ _ Fd name) in Hsome.
                 destruct Hsome as [[? H] | H]; [| exact H].
                 rewrite lookup_empty in H. discriminate.
           ++ subst run. cbn [fst snd]. destruct Fl as [-> Hu].
              split; [reflexivity |]. split; [exact Hnd |].
              right. split; [reflexivity | exact Hu].
      * subst r. subst run. cbn [fst snd]. split; reflexivity.
    + subst run. exists 0%nat. cbn [fst snd]. split; [lia |].
      split; [intros j Hj; lia |].
      replace (n + 2 * 0)%nat with n by lia.
      split; [reflexivity |]. rewrite F0. reflexivity.
  - unfold Bulk.measure_bulk, bind. unfold lift at 1 3. rewrite pods.
    destruct (Bulk.fetch e wait_time (p0 :: p1 :: rest) n)
      as [[logs0 | err] n0]; [| reflexivity].
    rewrite (await_data_fuel e started succeeded wait_time (p0 :: p1 :: rest)
               names fuel 6%nat) by lia.
    reflexivity.
Qed.



(** The deletion of [pv-a]: the line that only names the PV is not taken
    for its start line, and the dictionary holds 5.0 seconds. *)
Example bulk_deletion_of_one_pv :
  exists d,
    Bulk.measure_pv_deletion_time_bulk (reliable pv_a_deleted) 6 "rbd" ["pv-a"]
      60 0%nat = (Ok (Some d), 2%nat)
    /\ d !! "pv-a" = Some (5000000 # 1000000).
Proof. eexists. split; reflexivity. Qed.

(** The log has the lines of [pvc-a] at the second fetch: one re-fetch,
    and the dictionary holds 5.0 seconds for [pvc-a]. *)
Example bulk_after_one_reread :
  exists d,
    Bulk.measure_pvc_creation_time_bulk
      (reliable (cluster_with_log_after 2 pvc_a_provisioned 2026)) 6 "rbd"
      ["pvc-a"] 60 0%nat = (Ok (Some d), 4%nat)
    /\ d !! "pvc-a" = Some (5000000 # 1000000).
Proof. eexists. split; reflexivity. Qed.

(** The log never has a line of [pvc-c]: the two logs are read seven times
    in all and the call raises, naming [pvc-c]. *)
Example bulk_without_data :
  Bulk.measure_pvc_creation_time_bulk (reliable two_subjects) 6 "rbd"
    ["pvc-a"; "pvc-c"] 60 0%nat
  = (Raise (UnexpectedBehaviour ["pvc-c"]), 14%nat).
Proof. reflexivity. Qed.

(** The lines of [pvc-a] are in the log of the sixth re-fetch, which is
    fetched and not looked at: the call raises all the same, and with the
    fifth re-fetch it returns. *)
Example bulk_data_at_the_sixth_refetch :
  Bulk.measure_pvc_creation_time_bulk
    (reliable (cluster_with_log_after 12 pvc_a_provisioned 2026)) 6 "rbd"
    ["pvc-a"] 60 0%nat
  = (Raise (UnexpectedBehaviour ["pvc-a"]), 14%nat)
  /\ exists d,
      Bulk.measure_pvc_creation_time_bulk
        (reliable (cluster_with_log_after 10 pvc_a_provisioned 2026)) 6 "rbd"
        ["pvc-a"] 60 0%nat
      = (Ok (Some d), 12%nat).
Proof. split; [reflexivity | eexists; reflexivity]. Qed.

(** A read that fails ends the call with its exception: here the fourth
    read, the second one of the first re-fetch. *)
Example bulk_with_a_failed_read :
  Bulk.measure_pvc_creation_time_bulk
    (reads_fail_from 3 (cluster_with_log_after 4 pvc_a_provisioned 2026)) 6 "rbd"
    ["pvc-a"] 60 0%nat
  = (Raise (CommandFailed "unable to retrieve container logs"), 4%nat).
Proof. reflexivity. Qed.

(** * More on unique names *)

Section UuidPart.

Lemma create_unique_resource_name_take
      (uuid_hex resource_description resource_type : string) :
  create_unique_resource_name uuid_hex resource_description resource_type
  = PyStr.take 40 (full_name uuid_hex resource_description resource_type).
Proof.
  unfold create_unique_resource_name.
  fold (full_name uuid_hex resource_description resource_type).
  destruct (Z.ltb_spec
              (PyStr.len (full_name uuid_hex resource_description resource_type)) 40)
    as [H | H]; [| reflexivity].
  unfold PyStr.len in H. rewrite take_all by lia. reflexivity.
Qed.

Lemma take_append (n : nat) (s t : string) :
  PyStr.take n (String.append s t)
  = String.append (PyStr.take n s) (PyStr.take (n - String.length s) t).
Proof.
  revert n. induction s as [| ch s IH]; intros n.
  - simpl. rewrite Nat.sub_0_r. destruct n; reflexivity.
  - destruct n as [| n]; [reflexivity |].
    simpl. rewrite IH. reflexivity.
Qed.

(** The text before the uuid: ["{resource_type}-{resource_description[:23]}-"]. *)
Lemma full_name_base (uuid_hex resource_description resource_type : string) :
  full_name uuid_hex resource_description resource_type
  = String.append (name_base resource_description resource_type) uuid_hex.
Proof.
  unfold full_name, name_base. rewrite !append_assoc. reflexivity.
Qed.

(** X1: The name keeps the first [40 - len(base)] characters of the uuid, [base]
    being ["{resource_type}-{resource_description[:23]}-"], and none of them
    when [base] has 40 characters or more: two uuids that agree on these
    characters give the same name. *)
Theorem create_unique_resource_name_uuid_part
        (uuid_1 uuid_2 resource_description resource_type : string) :
  PyStr.take (40 - String.length (name_base resource_description resource_type)) uuid_1
  = PyStr.take (40 - String.length (name_base resource_description resource_type)) uuid_2 ->
  create_unique_resource_name uuid_1 resource_description resource_type
  = create_unique_resource_name uuid_2 resource_description resource_type.
Proof.
  intros H. rewrite !create_unique_resource_name_take, !full_name_base, !take_append.
  rewrite H. reflexivity.
Qed.

End UuidPart.

Lemma create_unique_resource_name_uuid_part_witness :
  PyStr.take (40 - String.length
                     (name_base "test-cephfilesystem-for-scale" "volumesnapshotcontent"))
             "0f8fad5bd9cb469fa16570867728950e"
  = PyStr.take (40 - String.length
                       (name_base "test-cephfilesystem-for-scale" "volumesnapshotcontent"))
               "7c9e6679742540de944be07fc1f90ae7"
  /\ create_unique_resource_name "0f8fad5bd9cb469fa16570867728950e"
       "test-cephfilesystem-for-scale" "volumesnapshotcontent"
     = create_unique_resource_name "7c9e6679742540de944be07fc1f90ae7"
         "test-cephfilesystem-for-scale" "volumesnapshotcontent".
Proof.
  split.
  - reflexivity.
  - apply create_unique_resource_name_uuid_part. reflexivity.
Defined.

(** * More on waiting and on batches *)

Section MoreOnWaiting.
Variable a : api.

(** X2: Only the timeout of the wait is turned into the wrong-state error.
    For a resource that is not a default storage class, when
    [wait_for_resource] returns, whatever it returns,
    [wait_for_resource_state] returns; when it raises another exception
    than [TimeoutExpiredError], the caller gets that exception.  In both
    cases the wait is the only call: the resource is neither reloaded nor
    described. *)
Theorem wait_for_resource_state_passes_on
        (resource : OCS) (state : string) (timeout : Z) (tr : trace) :
  name resource <> DEFAULT_STORAGECLASS_CEPHFS a ->
  name resource <> DEFAULT_STORAGECLASS_RBD a ->
  (forall b, wait_for_resource a (name resource) state timeout = Ok b ->
             wait_for_resource_state a resource state timeout tr
             = (Ok tt, app tr [WaitForResource (name resource) state timeout]))
  /\ (forall e, wait_for_resource a (name resource) state timeout = Raise e ->
                e <> TimeoutExpiredError ->
                wait_for_resource_state a resource state timeout tr
                = (Raise e, app tr [WaitForResource (name resource) state timeout])).
Proof.
  intros H1 H2. apply String.eqb_neq in H1. apply String.eqb_neq in H2.
  unfold wait_for_resource_state. rewrite H1, H2. cbn [orb].
  unfold except_timeout, bind, do_call at 1. split.
  - intros b Hb. rewrite Hb. reflexivity.
  - intros e He Hne. rewrite He. destruct e; try reflexivity. congruence.
Qed.

Lemma wait_for_resource_state_reaches
      (state : string) (timeout : Z) (o : OCS) (tr : trace) :
  reaches a state timeout o ->
  wait_for_resource_state a o state timeout tr
  = (Ok tt, app tr (wait_calls a state timeout o)).
Proof.
  unfold reaches, wait_calls, wait_for_resource_state.
  destruct (String.eqb (name o) (DEFAULT_STORAGECLASS_CEPHFS a)) eqn:E1.
  { intros _. cbn. rewrite app_nil_r. reflexivity. }
  destruct (String.eqb (name o) (DEFAULT_STORAGECLASS_RBD a)) eqn:E2.
  { intros _. cbn. rewrite app_nil_r. reflexivity. }
  apply String.eqb_neq in E1. apply String.eqb_neq in E2.
  intros [H | [H | [b Hb]]]; try congruence.
  cbn [orb]. unfold except_timeout, bind, do_call at 1. rewrite Hb. reflexivity.
Qed.

Lemma for_each_submit_calls {A X : Type} (ev : X -> call) (answer : X -> result A)
      (l : list X) (tr : trace) :
  for_each l (fun x => submit (do_call (ev x) (answer x))) tr
  = (Ok (map answer l), app tr (map ev l)).
Proof.
  revert tr. induction l as [| x l IH]; intros tr; cbn [for_each map].
  - rewrite app_nil_r. reflexivity.
  - unfold bind, submit, do_call at 1. rewrite IH. unfold ret.
    rewrite <- app_assoc. reflexivity.
Qed.

Lemma for_each_submit_waits (state : string) (timeout : Z)
      (objs : list OCS) (tr : trace) :
  (forall o, In o objs -> reaches a state timeout o) ->
  for_each objs (fun o => submit (wait_for_resource_state a o state timeout)) tr
  = (Ok (map (fun _ => Ok tt) objs),
     app tr (flat_map (wait_calls a state timeout) objs)).
Proof.
  revert tr. induction objs as [| o objs IH]; intros tr H; cbn [for_each map flat_map].
  - rewrite app_nil_r. reflexivity.
  - unfold bind, submit.
    rewrite (wait_for_resource_state_reaches _ _ _ _ (H o (or_introl eq_refl))).
    rewrite IH by (intros o' Ho'; apply H; right; exact Ho').
    unfold ret. rewrite <- app_assoc. reflexivity.
Qed.

Lemma for_each_results {A : Type} (values : list A) (tr : trace) :
  for_each (map Ok values) future_result tr = (Ok values, tr).
Proof.
  induction values as [| v values IH]; cbn [for_each map]; [reflexivity |].
  unfold bind, future_result at 1, lift. rewrite IH. reflexivity.
Qed.

Lemma for_each_results_raise {A : Type} (before : list A) (e : exn)
      (after : list (future A)) (tr : trace) :
  for_each (app (map Ok before) (Raise e :: after)) future_result tr
  = (Raise e, tr).
Proof.
  induction before as [| v before IH]; cbn [for_each map app].
  - reflexivity.
  - unfold bind, future_result at 1, lift. rewrite IH. reflexivity.
Qed.

(** X3: Every object of the list is deleted once, in a thread of its own,
    whether or not the deletes before it failed, and [delete] is the only
    call made. *)
Theorem delete_objs_parallel_deletes_every_object (obj_list : list OCS) (tr : trace) :
  snd (delete_objs_parallel a obj_list tr)
  = app tr (map (fun obj => Delete (name obj)) obj_list).
Proof. rewrite delete_objs_parallel_always_true. reflexivity. Qed.

Section Pvcs.
Variables (sc_obj : OCS) (namespace : string) (number_of_pvc : Z) (size : string).

(** X4: When the PVCs of every access mode are created and every wait comes to
    an end, [create_multiple_pvc_parallel] returns all the PVCs, those of
    the first access mode first, each list in the order it was created in;
    it makes one creation per access mode and then waits once for every
    PVC to be [Bound], for 90 seconds. *)
Theorem create_multiple_pvc_parallel_all_bound
        (access_modes : list string) (created : string -> list OCS) (tr : trace) :
  (forall mode, In mode access_modes ->
                create_multiple_pvcs a (name sc_obj) namespace number_of_pvc mode size
                = Ok (created mode)) ->
  (forall o, In o (concat (map created access_modes)) -> reaches a "Bound" 90 o) ->
  create_multiple_pvc_parallel a sc_obj namespace number_of_pvc size access_modes tr
  = (Ok (concat (map created access_modes)),
     app tr
       (app (map (creation sc_obj namespace number_of_pvc size) access_modes)
            (flat_map (wait_calls a "Bound" 90)
                      (concat (map created access_modes))))).
Proof.
  intros Hc Hw. unfold create_multiple_pvc_parallel, bind.
  rewrite (for_each_submit_calls (creation sc_obj namespace number_of_pvc size)).
  replace (map (fun mode =>
                  create_multiple_pvcs a (name sc_obj) namespace number_of_pvc mode size)
               access_modes)
    with (map Ok (map created access_modes)).
  2: { rewrite map_map. apply map_ext_in. intros m Hm. symmetry. apply Hc. exact Hm. }
  rewrite for_each_results. unfold converge_lists.
  rewrite (for_each_submit_waits _ _ _ _ Hw).
  replace (map (fun _ : OCS => Ok tt) (concat (map created access_modes)))
    with (map (@Ok unit) (map (fun _ : OCS => tt) (concat (map created access_modes))))
    by (rewrite map_map; reflexivity).
  rewrite for_each_results, False_in_None. unfold ret.
  rewrite <- app_assoc. reflexivity.
Qed.

(** X5: When the creation for one access mode fails, and those before it did
    not, [create_multiple_pvc_parallel] raises the exception of that
    creation.  By then the creation for every access mode has been
    attempted, also for the modes after the failing one, and no PVC is
    waited for. *)
Theorem create_multiple_pvc_parallel_failed_creation
        (before after : list string) (mode : string) (created : string -> list OCS)
        (e : exn) (tr : trace) :
  (forall m, In m before ->
             create_multiple_pvcs a (name sc_obj) namespace number_of_pvc m size
             = Ok (created m)) ->
  create_multiple_pvcs a (name sc_obj) namespace number_of_pvc mode size = Raise e ->
  create_multiple_pvc_parallel a sc_obj namespace number_of_pvc size
                               (app before (mode :: after)) tr
  = (Raise e,
     app tr (map (creation sc_obj namespace number_of_pvc size)
                 (app before (mode :: after)))).
Proof.
  intros Hb He. unfold create_multiple_pvc_parallel, bind.
  rewrite (for_each_submit_calls (creation sc_obj namespace number_of_pvc size)).
  rewrite map_app. cbn [map]. rewrite He.
  replace (map (fun mode0 =>
                  create_multiple_pvcs a (name sc_obj) namespace number_of_pvc mode0 size)
               before)
    with (map Ok (map created before)).
  2: { rewrite map_map. apply map_ext_in. intros m Hm. symmetry. apply Hb. exact Hm. }
  rewrite for_each_results_raise. reflexivity.
Qed.

End Pvcs.

(** X6: When the pod of every PVC is created and every wait comes to an end,
    [create_pods_parallel] returns one pod per PVC, in the order of the
    PVCs; every pod is created for the PVC of that name without reloading
    it, and once all are created each is waited for once to be [Running],
    for 300 seconds. *)
Theorem create_pods_parallel_all_running
        (pvc_list : list OCS) (namespace interface : string)
        (pod_dict_path sa_name : option string)
        (raw_block_pv dc_deployment : bool)
        (node_selector : option (list (string * string)))
        (pod_of : OCS -> OCS) (tr : trace) :
  let options :=
    options_of a namespace interface pod_dict_path sa_name raw_block_pv
               dc_deployment node_selector in
  (forall pvc_obj, In pvc_obj pvc_list ->
                   create_pod a (options pvc_obj) = Ok (pod_of pvc_obj)) ->
  (forall o, In o (map pod_of pvc_list) -> reaches a "Running" 300 o) ->
  create_pods_parallel a pvc_list namespace interface pod_dict_path sa_name
                       raw_block_pv dc_deployment node_selector tr
  = (Ok (map pod_of pvc_list),
     app tr
       (app (map (fun pvc_obj => CreatePod (options pvc_obj)) pvc_list)
            (flat_map (wait_calls a "Running" 300) (map pod_of pvc_list)))).
Proof.
  intros options Hc Hw. unfold create_pods_parallel, bind.
  fold (options_of a namespace interface pod_dict_path sa_name raw_block_pv
                   dc_deployment node_selector).
  fold options.
  rewrite (for_each_submit_calls (fun pvc_obj => CreatePod (options pvc_obj))
                                 (fun pvc_obj => create_pod a (options pvc_obj))).
  replace (map (fun pvc_obj => create_pod a (options pvc_obj)) pvc_list)
    with (map Ok (map pod_of pvc_list)).
  2: { rewrite map_map. apply map_ext_in. intros m Hm. symmetry. apply Hc. exact Hm. }
  rewrite for_each_results.
  rewrite (for_each_submit_waits _ _ _ _ Hw).
  rewrite for_each_results.
  replace (map (fun _ : OCS => Ok tt) (map pod_of pvc_list))
    with (map (@Ok unit) (map (fun _ : OCS => tt) (map pod_of pvc_list)))
    by (rewrite !map_map; reflexivity).
  rewrite for_each_results, False_in_objs. unfold ret.
  rewrite <- app_assoc. reflexivity.
Qed.

End MoreOnWaiting.

Lemma wait_for_resource_state_passes_on_witness :
  name pvc_1 <> DEFAULT_STORAGECLASS_CEPHFS api_down
  /\ name pvc_1 <> DEFAULT_STORAGECLASS_RBD api_down
  /\ wait_for_resource api_down (name pvc_1) "Bound" 60
     = Raise (CommandFailed "connection refused")
  /\ CommandFailed "connection refused" <> TimeoutExpiredError
  /\ wait_for_resource_state api_down pvc_1 "Bound" 60 []
     = (Raise (CommandFailed "connection refused"),
        [WaitForResource "pvc-1" "Bound" 60]).
Proof.
  assert (H1 : name pvc_1 <> DEFAULT_STORAGECLASS_CEPHFS api_down)
    by (vm_compute; discriminate).
  assert (H2 : name pvc_1 <> DEFAULT_STORAGECLASS_RBD api_down)
    by (vm_compute; discriminate).
  assert (H3 : wait_for_resource api_down (name pvc_1) "Bound" 60
               = Raise (CommandFailed "connection refused")) by reflexivity.
  assert (H4 : CommandFailed "connection refused" <> TimeoutExpiredError)
    by discriminate.
  split; [exact H1 | split; [exact H2 | split; [exact H3 | split; [exact H4 |]]]].
  exact (proj2 (wait_for_resource_state_passes_on api_down pvc_1 "Bound" 60 [] H1 H2)
               _ H3 H4).
Defined.

Lemma create_multiple_pvc_parallel_all_bound_witness :
  (forall mode, In mode ["ReadWriteOnce"; "ReadOnlyMany"] ->
                create_multiple_pvcs rwx_refused (name sc_rbd) "ns" 2 mode "10Gi"
                = Ok [pvc_1; pvc_2])
  /\ (forall o, In o [pvc_1; pvc_2; pvc_1; pvc_2] -> reaches rwx_refused "Bound" 90 o)
  /\ create_multiple_pvc_parallel rwx_refused sc_rbd "ns" 2 "10Gi"
       ["ReadWriteOnce"; "ReadOnlyMany"] []
     = (Ok [pvc_1; pvc_2; pvc_1; pvc_2],
        [CreateMultiplePvcs "sc-test-rbd" "ns" 2 "ReadWriteOnce" "10Gi";
         CreateMultiplePvcs "sc-test-rbd" "ns" 2 "ReadOnlyMany" "10Gi";
         WaitForResource "pvc-1" "Bound" 90; WaitForResource "pvc-2" "Bound" 90;
         WaitForResource "pvc-1" "Bound" 90; WaitForResource "pvc-2" "Bound" 90]).
Proof.
  assert (Hc : forall mode, In mode ["ReadWriteOnce"; "ReadOnlyMany"] ->
                 create_multiple_pvcs rwx_refused (name sc_rbd) "ns" 2 mode "10Gi"
                 = Ok [pvc_1; pvc_2]).
  { intros mode [<- | [<- | []]]; reflexivity. }
  assert (Hw : forall o, In o [pvc_1; pvc_2; pvc_1; pvc_2] ->
                 reaches rwx_refused "Bound" 90 o).
  { intros o _. right. right. exists true. reflexivity. }
  split; [exact Hc | split; [exact Hw |]].
  exact (create_multiple_pvc_parallel_all_bound rwx_refused sc_rbd "ns" 2 "10Gi"
           ["ReadWriteOnce"; "ReadOnlyMany"] (fun _ => [pvc_1; pvc_2]) [] Hc Hw).
Defined.

Lemma create_multiple_pvc_parallel_failed_creation_witness :
  (forall m, In m ["ReadWriteOnce"] ->
             create_multiple_pvcs rwx_refused (name sc_rbd) "ns" 2 m "10Gi"
             = Ok [pvc_1; pvc_2])
  /\ create_multiple_pvcs rwx_refused (name sc_rbd) "ns" 2 "ReadWriteMany" "10Gi"
     = Raise (CommandFailed "ReadWriteMany is not supported")
  /\ create_multiple_pvc_parallel rwx_refused sc_rbd "ns" 2 "10Gi"
       ["ReadWriteOnce"; "ReadWriteMany"; "ReadOnlyMany"] []
     = (Raise (CommandFailed "ReadWriteMany is not supported"),
        [CreateMultiplePvcs "sc-test-rbd" "ns" 2 "ReadWriteOnce" "10Gi";
         CreateMultiplePvcs "sc-test-rbd" "ns" 2 "ReadWriteMany" "10Gi";
         CreateMultiplePvcs "sc-test-rbd" "ns" 2 "ReadOnlyMany" "10Gi"]).
Proof.
  assert (Hb : forall m, In m ["ReadWriteOnce"] ->
                 create_multiple_pvcs rwx_refused (name sc_rbd) "ns" 2 m "10Gi"
                 = Ok [pvc_1; pvc_2]).
  { intros m [<- | []]. reflexivity. }
  assert (He : create_multiple_pvcs rwx_refused (name sc_rbd) "ns" 2
                                    "ReadWriteMany" "10Gi"
               = Raise (CommandFailed "ReadWriteMany is not supported"))
    by reflexivity.
  split; [exact Hb | split; [exact He |]].
  exact (create_multiple_pvc_parallel_failed_creation rwx_refused sc_rbd "ns" 2 "10Gi"
           ["ReadWriteOnce"] ["ReadOnlyMany"] "ReadWriteMany"
           (fun _ => [pvc_1; pvc_2]) _ [] Hb He).
Defined.

Lemma create_pods_parallel_all_running_witness :
  let options := options_of quiet_api "ns" "CephBlockPool" None None true false None in
  let pod_of pvc_obj :=
    {| name := String.append "pod-" (name pvc_obj); kind := "Pod" |} in
  (forall pvc_obj, In pvc_obj [pvc_1; pvc_2] ->
                   create_pod quiet_api (options pvc_obj) = Ok (pod_of pvc_obj))
  /\ (forall o, In o (map pod_of [pvc_1; pvc_2]) -> reaches quiet_api "Running" 300 o)
  /\ create_pods_parallel quiet_api [pvc_1; pvc_2] "ns" "CephBlockPool" None None
                          true false None []
     = (Ok (map pod_of [pvc_1; pvc_2]),
        [CreatePod (options pvc_1); CreatePod (options pvc_2);
         WaitForResource "pod-pvc-1" "Running" 300;
         WaitForResource "pod-pvc-2" "Running" 300]).
Proof.
  intros options pod_of.
  assert (Hc : forall pvc_obj, In pvc_obj [pvc_1; pvc_2] ->
                 create_pod quiet_api (options pvc_obj) = Ok (pod_of pvc_obj)).
  { intros pvc_obj _. reflexivity. }
  assert (Hw : forall o, In o (map pod_of [pvc_1; pvc_2]) ->
                 reaches quiet_api "Running" 300 o).
  { intros o _. right. right. exists true. reflexivity. }
  split; [exact Hc | split; [exact Hw |]].
  exact (create_pods_parallel_all_running quiet_api [pvc_1; pvc_2] "ns" "CephBlockPool"
           None None true false None pod_of [] Hc Hw).
Defined.

(** * More on the timestamps from the logs *)

Section MoreOnLookups.
Variable c : cluster.

(** X7: The status is read without regard to the case of its letters, and
    every status but ["end"] stands for the start: for a name,
    [get_provision_time] with such a status is [get_start_creation_time]. *)
Theorem get_provision_time_start (interface nm status : string) (n : nat) :
  PyStr.lower status <> "end" ->
  get_provision_time c interface (Name nm) status n
  = get_start_creation_time c interface nm n.
Proof.
  intros H. apply String.eqb_neq in H.
  unfold get_provision_time, get_start_creation_time. rewrite H.
  unfold bind, lift.
  destruct (provisioner_logs c (get_csi_provisioner_pod c interface) n)
    as [[logs | e] n']; [| reflexivity].
  destruct (PyStr.first (grep (provision_pattern nm "started") logs));
    reflexivity.
Qed.

(** X8: For a name whose first and last ["succeeded"] lines in the log are the
    same line, as when there is only one, [get_provision_time] with the
    status ["end"], in any case of letters, is [get_end_creation_time]. *)
Theorem get_provision_time_end
        (interface nm status p0 p1 : string) (rest : list string) (n : nat) :
  get_csi_provisioner_pod c interface = p0 :: p1 :: rest ->
  PyStr.lower status = "end" ->
  PyStr.first (grep (provision_pattern nm "succeeded") (logs_at c p0 p1 n))
  = PyStr.last (grep (provision_pattern nm "succeeded") (logs_at c p0 p1 n)) ->
  get_provision_time c interface (Name nm) status n
  = get_end_creation_time c interface nm n.
Proof.
  intros Hp Hs Hl.
  unfold get_provision_time, get_end_creation_time. rewrite Hs, Hp.
  change (String.eqb "end" "end") with true. cbv iota.
  unfold bind, lift. rewrite provisioner_logs_run. rewrite Hl.
  destruct (PyStr.last (grep (provision_pattern nm "succeeded") (logs_at c p0 p1 n)));
    reflexivity.
Qed.


End MoreOnLookups.

Lemma get_provision_time_start_witness :
  PyStr.lower "Begin" <> "end"
  /\ get_provision_time two_subjects "rbd" (Name "pvc-b") "Begin" 0%nat
     = get_start_creation_time two_subjects "rbd" "pvc-b" 0%nat.
Proof.
  assert (H : PyStr.lower "Begin" <> "end") by (vm_compute; discriminate).
  split; [exact H |].
  exact (get_provision_time_start two_subjects "rbd" "pvc-b" "Begin" 0%nat H).
Defined.

Lemma get_provision_time_end_witness :
  get_csi_provisioner_pod two_subjects "rbd"
  = "csi-rbdplugin-provisioner-0" :: "csi-rbdplugin-provisioner-1" :: []
  /\ PyStr.lower "END" = "end"
  /\ PyStr.first (grep (provision_pattern "pvc-b" "succeeded")
                       (logs_at two_subjects "csi-rbdplugin-provisioner-0"
                                "csi-rbdplugin-provisioner-1" 0))
     = PyStr.last (grep (provision_pattern "pvc-b" "succeeded")
                        (logs_at two_subjects "csi-rbdplugin-provisioner-0"
                                 "csi-rbdplugin-provisioner-1" 0))
  /\ get_provision_time two_subjects "rbd" (Name "pvc-b") "END" 0%nat
     = get_end_creation_time two_subjects "rbd" "pvc-b" 0%nat.
Proof.
  assert (Hp : get_csi_provisioner_pod two_subjects "rbd"
               = "csi-rbdplugin-provisioner-0" :: "csi-rbdplugin-provisioner-1" :: [])
    by reflexivity.
  assert (Hs : PyStr.lower "END" = "end") by reflexivity.
  assert (Hl : PyStr.first (grep (provision_pattern "pvc-b" "succeeded")
                                 (logs_at two_subjects "csi-rbdplugin-provisioner-0"
                                          "csi-rbdplugin-provisioner-1" 0))
               = PyStr.last (grep (provision_pattern "pvc-b" "succeeded")
                                  (logs_at two_subjects "csi-rbdplugin-provisioner-0"
                                           "csi-rbdplugin-provisioner-1" 0)))
    by reflexivity.
  split; [exact Hp | split; [exact Hs | split; [exact Hl |]]].
  exact (get_provision_time_end two_subjects "rbd" "pvc-b" "END" _ _ _ 0%nat Hp Hs Hl).
Defined.


(** * More on the bulk measurements *)

Section BulkKeys.
Variable e : Bulk.env.
Variables started succeeded : string -> string.

Lemma measure_bulk_filled (fuel : nat) (interface : string) (names : list string)
      (wait_time : Z) (n : nat) (d : gmap string Q) :
  fst (Bulk.measure_bulk e started succeeded fuel interface names wait_time n)
  = Ok (Some d) ->
  exists logs,
    Bulk.fill started succeeded (PyStr.str (Bulk.now_year e)) logs names ∅ = Ok d.
Proof.
  unfold Bulk.measure_bulk, bind. unfold lift at 1.
  destruct (Bulk.get_csi_provisioner_pod e interface) as [pod_name | err];
    [| discriminate].
  destruct (Bulk.fetch e wait_time pod_name n) as [[logs0 | err] n0];
    [| discriminate].
  destruct (Bulk.await_data e started succeeded fuel wait_time pod_name names 0
              logs0 n0)
    as [[[logs |] | err] n1]; try discriminate.
  unfold lift, ret.
  destruct (Bulk.fill started succeeded (PyStr.str (Bulk.now_year e)) logs names ∅)
    as [d' | err] eqn:E; [| discriminate].
  cbn. intros [= <-]. exists logs. exact E.
Qed.

End BulkKeys.

(** X10: The keys of a dictionary a bulk measurement returns are the names of
    the list, no more and no less; a name that comes twice in the list has
    one entry. *)
Theorem bulk_measurement_keys (e : Bulk.env) (fuel : nat) (interface : string)
        (names : list string) (wait_time : Z) (n : nat) (d : gmap string Q) :
  fst (Bulk.measure_pvc_creation_time_bulk e fuel interface names wait_time n)
  = Ok (Some d)
  \/ fst (Bulk.measure_pv_deletion_time_bulk e fuel interface names wait_time n)
     = Ok (Some d) ->
  forall k, is_Some (d !! k) <-> In k names.
Proof.
  intros H k.
  assert (E : exists st su logs,
             Bulk.fill st su (PyStr.str (Bulk.now_year e)) logs names ∅ = Ok d).
  { destruct H as [H | H];
      destruct (measure_bulk_filled e _ _ fuel interface names wait_time n d H)
        as [logs Hl];
      eauto. }
  destruct E as (st & su & logs & Hl).
  rewrite (fill_keys st su _ _ _ _ _ Hl k), lookup_empty.
  split; [intros [[? ?] | ?]; [discriminate | assumption] | auto].
Qed.

Lemma bulk_measurement_keys_witness :
  let e := reliable
             (cluster_with_late_log
                (log_text
                   ["I0105 10:00:00.000000 provision pvc-a started";
                    "I0105 10:00:05.000000 provision pvc-a succeeded"]) 2026) in
  exists d,
    fst (Bulk.measure_pvc_creation_time_bulk e 6 "rbd" ["pvc-a"; "pvc-a"] 60 0%nat)
    = Ok (Some d)
    /\ forall k, is_Some (d !! k) <-> In k ["pvc-a"; "pvc-a"].
Proof.
  intros e.
  destruct (fst (Bulk.measure_pvc_creation_time_bulk e 6 "rbd" ["pvc-a"; "pvc-a"]
                   60 0%nat))
    as [[d |] | err] eqn:E; try (vm_compute in E; discriminate).
  exists d. split; [reflexivity |].
  exact (bulk_measurement_keys e 6 "rbd" ["pvc-a"; "pvc-a"] 60 0%nat d (or_introl E)).
Defined.

(** * Deleting one after the other *)

Section OneAfterTheOther.
Variable a : api.

Lemma for_each_delete_fails (pre : list OCS) (sc : OCS) (post : list OCS)
      (e : exn) (tr : trace) :
  (forall o, In o pre -> delete a (name o) = Ok tt) ->
  delete a (name sc) = Raise e ->
  for_each (app pre (sc :: post))
    (fun o => do_call (Delete (name o)) (delete a (name o))) tr
  = (Raise e, app tr (deletions (app pre [sc]))).
Proof.
  intros Hpre Hsc. revert tr.
  induction pre as [| p pre IH]; intros tr.
  - cbn. unfold bind, do_call. rewrite Hsc. reflexivity.
  - cbn [app for_each]. unfold bind at 1. unfold do_call at 1.
    rewrite (Hpre p (or_introl eq_refl)).
    unfold bind at 1. rewrite IH by (intros o Ho; apply Hpre; right; exact Ho).
    unfold deletions. cbn [map app]. rewrite <- app_assoc. reflexivity.
Qed.

End OneAfterTheOther.

(** X11: [delete_storageclasses] and [delete_cephblockpools] stop at the first
    object whose deletion fails: the exception of that deletion is raised,
    the objects before it have been deleted and no deletion of an object
    after it is asked for. *)
Theorem sequential_delete_stops_at_failure (a : api) (pre : list OCS) (sc : OCS)
        (post : list OCS) (e : exn) (tr : trace) :
  (forall o, In o pre -> delete a (name o) = Ok tt) ->
  delete a (name sc) = Raise e ->
  delete_storageclasses a (app pre (sc :: post)) tr
  = (Raise e, app tr (deletions (app pre [sc])))
  /\ delete_cephblockpools a (app pre (sc :: post)) tr
     = (Raise e, app tr (deletions (app pre [sc]))).
Proof.
  intros Hpre Hsc.
  unfold delete_storageclasses, delete_cephblockpools, bind.
  rewrite (for_each_delete_fails a pre sc post e tr Hpre Hsc).
  split; reflexivity.
Qed.

Lemma sequential_delete_stops_at_failure_witness :
  delete_storageclasses pvc_2_protected (app [pvc_1] (pvc_2 :: [sc_rbd])) []
  = (Raise (CommandFailed "pvc-2 is in use"), [Delete "pvc-1"; Delete "pvc-2"])
  /\ delete_cephblockpools pvc_2_protected (app [pvc_1] (pvc_2 :: [sc_rbd])) []
     = (Raise (CommandFailed "pvc-2 is in use"), [Delete "pvc-1"; Delete "pvc-2"]).
Proof.
  apply (sequential_delete_stops_at_failure pvc_2_protected [pvc_1] pvc_2 [sc_rbd]
           (CommandFailed "pvc-2 is in use") []).
  - intros o [<- | []]. reflexivity.
  - reflexivity.
Defined.

(** * The deployment of an OSD *)

Section OsdName.

Lemma split_cons (s : string) :
  exists w ws, PyStr.split dash s = w :: ws /\ PyStr.split_go dash s = (w, ws).
Proof.
  unfold PyStr.split. destruct (PyStr.split_go dash s) as [w ws].
  exists w, ws. split; reflexivity.
Qed.

Lemma join_cut (s : string) :
  forall k : nat,
    exists rest,
      s = String.append (PyStr.join "-" (firstn (S k) (PyStr.split dash s))) rest
      /\ (dashes (PyStr.join "-" (firstn (S k) (PyStr.split dash s))) <= k)%nat
      /\ (rest = EmptyString
          \/ dashes (PyStr.join "-" (firstn (S k) (PyStr.split dash s))) = k
             /\ exists r, rest = String dash r).
Proof.
  induction s as [| c s IH]; intros k.
  - exists EmptyString.
    change (firstn (S k) (PyStr.split dash EmptyString))
      with (EmptyString :: firstn k (@nil string)).
    rewrite firstn_nil. cbn.
    split; [reflexivity | split; [lia | left; reflexivity]].
  - destruct (split_cons s) as (w & ws & Hs & Hgo).
    unfold PyStr.split. cbn [PyStr.split_go]. rewrite Hgo.
    destruct (Ascii.eqb c dash) eqn:Ec.
    + apply Ascii.eqb_eq in Ec. subst c.
      destruct k as [| k].
      * exists (String dash s). cbn.
        split; [reflexivity | split; [lia | right; split; [reflexivity | eauto]]].
      * destruct (IH k) as (rest & Hrest & Hle & Hor).
        rewrite Hs in Hrest, Hle, Hor.
        exists rest.
        change (firstn (S (S k)) (EmptyString :: w :: ws))
          with (EmptyString :: firstn (S k) (w :: ws)).
        change (firstn (S k) (w :: ws)) with (w :: firstn k ws) in *.
        change (PyStr.join "-" (EmptyString :: w :: firstn k ws))
          with (String dash (PyStr.join "-" (w :: firstn k ws))).
        cbn [String.append dashes]. rewrite Ascii.eqb_refl.
        split; [rewrite <- Hrest; reflexivity |].
        split; [lia |].
        destruct Hor as [-> | [Hd Hr]]; [left; reflexivity | right].
        split; [lia | exact Hr].
    + destruct (IH k) as (rest & Hrest & Hle & Hor).
      rewrite Hs in Hrest, Hle, Hor.
      exists rest.
      change (firstn (S k) (String c w :: ws)) with (String c w :: firstn k ws).
      change (firstn (S k) (w :: ws)) with (w :: firstn k ws) in *.
      assert (Hj : PyStr.join "-" (String c w :: firstn k ws)
                   = String c (PyStr.join "-" (w :: firstn k ws))).
      { unfold PyStr.join. cbn [String.concat].
        destruct (firstn k ws); reflexivity. }
      rewrite Hj. cbn [String.append dashes]. rewrite Ec.
      split; [rewrite <- Hrest; reflexivity |].
      split; [exact Hle | exact Hor].
Qed.

End OsdName.

(** X12: [modify_osd_replica_count] patches the deployment whose name is the
    given name up to its fourth dash, the dash left out, and the whole
    name when it has fewer than four dashes; it does to that deployment
    what [modify_deployment_replica_count] does. *)
Theorem modify_osd_replica_count_deployment (o : ocp) (resource_name : string)
        (replica_count : Z) (tr : list ocp_call) :
  exists deployment rest,
    resource_name = String.append deployment rest
    /\ (dashes deployment <= 3)%nat
    /\ (rest = EmptyString
        \/ dashes deployment = 3%nat /\ exists r, rest = String dash r)
    /\ modify_osd_replica_count o resource_name replica_count tr
       = modify_deployment_replica_count o deployment replica_count tr.
Proof.
  destruct (join_cut resource_name 3) as (rest & Hrest & Hle & Hor).
  exists (PyStr.join "-" (firstn 4 (PyStr.split dash resource_name))), rest.
  split; [exact Hrest |].
  split; [exact Hle |].
  split; [exact Hor | reflexivity].
Qed.

(** * Waiting for a count to change *)

Section CountChange.
Variable ts : sampler.
Variable f : fetcher.
Variables previous_num min_difference timeout interval : Z.
Variables namespace change_type : string.
Variable func_kwargs : list (string * string).

Lemma count_changed_test (s : sample f) :
  (min_difference <=? (if String.eqb change_type "increase"
                       then current_num f s - previous_num
                       else previous_num - current_num f s)) = true
  <-> count_changed f change_type previous_num min_difference s.
Proof.
  unfold count_changed. rewrite Z.leb_le.
  destruct (String.eqb change_type "increase"); lia.
Qed.

Lemma wait_for_resource_count_change_cases :
  Py.ending (ts f timeout interval namespace func_kwargs)
  = Some TimeoutExpiredError ->
  (wait_for_resource_count_change ts f previous_num namespace change_type
     min_difference timeout interval func_kwargs = Ok (Some true)
   /\ exists s,
       In s (Py.yields (ts f timeout interval namespace func_kwargs))
       /\ count_changed f change_type previous_num min_difference s)
  \/ (wait_for_resource_count_change ts f previous_num namespace change_type
        min_difference timeout interval func_kwargs = Ok (Some false)
      /\ forall s,
          In s (Py.yields (ts f timeout interval namespace func_kwargs)) ->
          ~ count_changed f change_type previous_num min_difference s).
Proof.
  intros Hend. unfold wait_for_resource_count_change. rewrite Hend.
  induction (Py.yields (ts f timeout interval namespace func_kwargs))
    as [| s l IH].
  - right. split; [reflexivity | intros s []].
  - destruct (min_difference <=? _) eqn:E.
    + left. split; [reflexivity |].
      exists s. split; [left; reflexivity | apply count_changed_test; exact E].
    + destruct IH as [[H (s' & Hin & Hs')] | [H Hall]].
      * left. split; [exact H | exists s'; split; [right; exact Hin | exact Hs']].
      * right. split; [exact H |].
        intros s' [<- | Hin]; [| apply Hall; exact Hin].
        intros Hc. apply count_changed_test in Hc. congruence.
Qed.

End CountChange.

(** X13: When the sampler ends with its time-out,
    [wait_for_resource_count_change] returns [True] if one of the samples
    taken shows the change (at least [min_difference] more than
    [previous_num] for [increase], at least that many fewer for any other
    change type) and [False] if none does. *)
Theorem wait_for_resource_count_change_result (ts : sampler) (f : fetcher)
        (previous_num : Z) (namespace change_type : string)
        (min_difference timeout interval : Z)
        (func_kwargs : list (string * string)) :
  Py.ending (ts f timeout interval namespace func_kwargs)
  = Some TimeoutExpiredError ->
  (wait_for_resource_count_change ts f previous_num namespace change_type
     min_difference timeout interval func_kwargs = Ok (Some true)
   <-> exists s,
       In s (Py.yields (ts f timeout interval namespace func_kwargs))
       /\ count_changed f change_type previous_num min_difference s)
  /\ (wait_for_resource_count_change ts f previous_num namespace change_type
        min_difference timeout interval func_kwargs = Ok (Some false)
      <-> forall s,
          In s (Py.yields (ts f timeout interval namespace func_kwargs)) ->
          ~ count_changed f change_type previous_num min_difference s).
Proof.
  intros Hend.
  destruct (wait_for_resource_count_change_cases ts f previous_num min_difference
              timeout interval namespace change_type func_kwargs Hend)
    as [[H (s & Hin & Hs)] | [H Hall]]; rewrite H.
  - split; split.
    + intros _. exists s. split; assumption.
    + reflexivity.
    + discriminate.
    + intros Hall. exfalso. exact (Hall s Hin Hs).
  - split; split.
    + discriminate.
    + intros (s & Hin & Hs). exfalso. exact (Hall s Hin Hs).
    + intros _. exact Hall.
    + reflexivity.
Qed.

Lemma wait_for_resource_count_change_result_witness :
  Py.ending (growing get_all_pods 20 2 "openshift-storage" [])
  = Some TimeoutExpiredError
  /\ wait_for_resource_count_change growing get_all_pods 3 "openshift-storage"
       "increase" 1 20 2 [] = Ok (Some true)
  /\ wait_for_resource_count_change growing get_all_pods 3 "openshift-storage"
       "increase" 2 20 2 [] = Ok (Some false).
Proof.
  split; [reflexivity |].
  split.
  - apply (proj1 (wait_for_resource_count_change_result growing get_all_pods 3
                    "openshift-storage" "increase" 1 20 2 [] eq_refl)).
    exists [tools_pod; tools_pod; tools_pod; tools_pod].
    split; [right; left; reflexivity | cbn; lia].
  - apply (proj2 (wait_for_resource_count_change_result growing get_all_pods 3
                    "openshift-storage" "increase" 2 20 2 [] eq_refl)).
    intros s [<- | [<- | []]]; cbn; lia.
Defined.

(** X14: A change type that is not exactly [increase] is taken for a decrease:
    the call does what it does for [decrease]. *)
Theorem wait_for_resource_count_change_other_type (ts : sampler) (f : fetcher)
        (previous_num : Z) (namespace change_type : string)
        (min_difference timeout interval : Z)
        (func_kwargs : list (string * string)) :
  change_type <> "increase" ->
  wait_for_resource_count_change ts f previous_num namespace change_type
    min_difference timeout interval func_kwargs
  = wait_for_resource_count_change ts f previous_num namespace "decrease"
      min_difference timeout interval func_kwargs.
Proof.
  intros Hne. unfold wait_for_resource_count_change.
  apply String.eqb_neq in Hne. rewrite Hne. reflexivity.
Qed.

Lemma wait_for_resource_count_change_other_type_witness :
  wait_for_resource_count_change growing get_all_pods 3 "openshift-storage"
    "Increase" 1 20 2 []
  = wait_for_resource_count_change growing get_all_pods 3 "openshift-storage"
      "decrease" 1 20 2 [].
Proof.
  apply (wait_for_resource_count_change_other_type growing get_all_pods 3
           "openshift-storage" "Increase" 1 20 2 []).
  discriminate.
Defined.

(** * The recovery of the Ceph tools pod *)

Section Occurrences.

Lemma prefix_spec (sub s : string) :
  String.prefix sub s = true <-> exists post, s = String.append sub post.
Proof.
  revert s. induction sub as [| c sub IH]; intros s.
  - cbn. destruct s; split; eauto.
  - destruct s as [| c' s]; cbn [String.prefix String.append].
    + split; [discriminate | intros [post H]; discriminate].
    + destruct (ascii_dec c c') as [<- | Hne].
      * rewrite IH. split; intros [post H]; exists post; congruence.
      * split; [discriminate | intros [post H]; congruence].
Qed.

Lemma contains_spec (sub s : string) :
  Py.contains sub s = true <-> occurs_in sub s.
Proof.
  unfold occurs_in. split.
  - induction s as [| c s IH]; cbn [Py.contains]; intros H;
      apply orb_true_iff in H; destruct H as [H | H]; try discriminate.
    + apply prefix_spec in H. destruct H as [post H]. exists EmptyString, post. exact H.
    + apply prefix_spec in H. destruct H as [post H]. exists EmptyString, post. exact H.
    + destruct (IH H) as (pre & post & E).
      exists (String c pre), post. cbn. congruence.
  - intros (pre & post & E). revert s E.
    induction pre as [| c pre IH]; intros s E.
    + assert (P : String.prefix sub s = true) by (apply prefix_spec; eauto).
      destruct s; cbn [Py.contains]; rewrite P; reflexivity.
    + subst s. cbn [String.append Py.contains].
      rewrite (IH _ eq_refl). apply orb_true_r.
Qed.

End Occurrences.

(** X15: When the admin key cannot be fetched because the connection timed
    out, [wait_for_ct_pod_recovery] returns [True] also when the wait for
    a new tools pod ends with its time-out: the outcome of the wait is not
    looked at. *)
Theorem wait_for_ct_pod_recovery_after_time_out (t : toolbox) (msg : string) :
  get_admin_key t = Raise (CommandFailed msg) ->
  occurs_in "connection timed out" msg ->
  Py.ending (TimeoutSampler t get_all_pods 120 2 (cluster_namespace t)
               [("selector", TOOL_APP_LABEL t)])
  = Some TimeoutExpiredError ->
  wait_for_ct_pod_recovery t = Ok true.
Proof.
  intros Hkey Hocc Hend. unfold wait_for_ct_pod_recovery. rewrite Hkey.
  apply contains_spec in Hocc. rewrite Hocc.
  destruct (wait_for_resource_count_change_cases (TimeoutSampler t) get_all_pods
              1 1 120 2 (cluster_namespace t) "increase"
              [("selector", TOOL_APP_LABEL t)] Hend)
    as [[H _] | [H _]]; rewrite H; reflexivity.
Qed.

Lemma wait_for_ct_pod_recovery_after_time_out_witness :
  wait_for_resource_count_change (TimeoutSampler lost_toolbox) get_all_pods 1
    (cluster_namespace lost_toolbox) "increase" 1 120 2
    [("selector", TOOL_APP_LABEL lost_toolbox)] = Ok (Some false)
  /\ wait_for_ct_pod_recovery lost_toolbox = Ok true.
Proof.
  split; [reflexivity |].
  apply (wait_for_ct_pod_recovery_after_time_out lost_toolbox
           "dial tcp 10.0.0.1:6443: connection timed out").
  - reflexivity.
  - exists "dial tcp 10.0.0.1:6443: ", EmptyString. reflexivity.
  - reflexivity.
Defined.

(** X16: [wait_for_ct_pod_recovery] returns [False] in one case only: the
    admin key could not be fetched, with a [CommandFailed] whose message
    does not hold [connection timed out]. *)
Theorem wait_for_ct_pod_recovery_false (t : toolbox) :
  wait_for_ct_pod_recovery t = Ok false ->
  exists msg,
    get_admin_key t = Raise (CommandFailed msg)
    /\ ~ occurs_in "connection timed out" msg.
Proof.
  unfold wait_for_ct_pod_recovery.
  destruct (get_admin_key t) as [k | e]; [discriminate |].
  destruct e; try discriminate.
  destruct (Py.contains "connection timed out" msg) eqn:E.
  - destruct (wait_for_resource_count_change _ _ _ _ _ _ _ _ _); discriminate.
  - intros _. exists msg. split; [reflexivity |].
    intros Hocc. apply contains_spec in Hocc. congruence.
Qed.

Lemma wait_for_ct_pod_recovery_false_witness :
  exists msg,
    get_admin_key broken_toolbox = Raise (CommandFailed msg)
    /\ ~ occurs_in "connection timed out" msg.
Proof.
  apply (wait_for_ct_pod_recovery_false broken_toolbox).
  reflexivity.
Defined.

(** * Volumes in the backend *)

Section PresentInBackend.
Import Py Backend.
Variable c : ceph.

Lemma any_in_occurs (valid_error : list string) (ecf : string) :
  any_in valid_error ecf = true
  <-> exists error, In error valid_error /\ occurs_in error ecf.
Proof.
  unfold any_in. rewrite existsb_exists.
  split; intros (x & Hin & Hx); exists x; (split; [exact Hin |]);
    apply contains_spec; exact Hx.
Qed.

Lemma then_returns {A C} (m : B A) (k : A -> B C) (n n' : nat) (b : C) :
  then_ m k n = (Returns b, n') ->
  exists a n1, m n = (Returns a, n1) /\ k a n1 = (Returns b, n').
Proof.
  unfold then_. destruct (m n) as [[x | e] n1]; [eauto | discriminate].
Qed.

Lemma call_returns {A} (r : result A) (n n' : nat) (x : A) :
  call r n = (Returns x, n') -> r = Ok x /\ n' = n.
Proof.
  unfold call. destruct r; cbn; intros [= -> ->]; auto.
Qed.

Lemma get_cephfs_name_counter (n n' : nat) (fs : string) :
  get_cephfs_name c n = (Returns fs, n') -> n' = S n.
Proof.
  unfold get_cephfs_name. intros H.
  apply then_returns in H. destruct H as (u & n1 & H1 & H).
  apply call_returns in H1. destruct H1 as [_ ->].
  apply then_returns in H. destruct H as (l & n2 & H2 & H).
  apply call_returns in H. destruct H as [_ ->].
  unfold exec in H2. injection H2 as _ <-. reflexivity.
Qed.

Lemma get_pool_cr_counter (pool_name : option string) (n n' : nat)
      (r : outcome (option string)) :
  get_pool_cr c pool_name n = (r, n') -> n' = n.
Proof.
  unfold get_pool_cr, then_, call, unit_.
  destruct (ocp_get c (CEPHBLOCKPOOL c) pool_name) as [[k |] | e]; cbn;
    intros [= _ <-]; reflexivity.
Qed.

End PresentInBackend.

(** X17: For an interface that is neither [CEPHBLOCKPOOL] nor
    [CEPHFILESYSTEM], [is_volume_present_in_backend] runs the empty
    command and never reports the volume absent: when the command fails
    with [CommandFailed] an [AssertionError] is raised. *)
Theorem is_volume_present_in_backend_other_interface (c : Backend.ceph)
        (interface image_uuid : string) (pool_name : option string) (n : nat) :
  interface <> Backend.CEPHBLOCKPOOL c ->
  interface <> Backend.CEPHFILESYSTEM c ->
  fst (Backend.is_volume_present_in_backend c interface image_uuid pool_name n)
  <> Py.Returns false
  /\ forall ecf,
      Backend.get_ceph_tools_pod c = Ok tt ->
      Backend.exec_ceph_cmd c n EmptyString = Raise (CommandFailed ecf) ->
      exists msg,
        Backend.is_volume_present_in_backend c interface image_uuid pool_name n
        = (Py.Fails (Py.AssertionError msg), S n).
Proof.
  intros Hb Hf.
  apply String.eqb_neq in Hb. apply String.eqb_neq in Hf.
  unfold Backend.is_volume_present_in_backend.
  rewrite Hb, Hf.
  unfold Backend.then_, Backend.call, Backend.unit_.
  split.
  - destruct (Backend.get_ceph_tools_pod c) as [u | e]; cbn; [| discriminate].
    destruct (Backend.exec_ceph_cmd c n EmptyString) as [u' | []]; cbn;
      discriminate.
  - intros ecf Hpod Hcmd. rewrite Hpod. cbn. rewrite Hcmd. cbn. eauto.
Qed.

Lemma is_volume_present_in_backend_other_interface_witness :
  fst (Backend.is_volume_present_in_backend ceph_image_removed "NooBaa"
         "f301898c" None 0%nat)
  <> Py.Returns false
  /\ forall ecf,
      Backend.get_ceph_tools_pod ceph_image_removed = Ok tt ->
      Backend.exec_ceph_cmd ceph_image_removed 0%nat EmptyString
      = Raise (CommandFailed ecf) ->
      exists msg,
        Backend.is_volume_present_in_backend ceph_image_removed "NooBaa"
          "f301898c" None 0%nat
        = (Py.Fails (Py.AssertionError msg), 1%nat).
Proof.
  apply (is_volume_present_in_backend_other_interface ceph_image_removed
           "NooBaa" "f301898c" None 0%nat); discriminate.
Defined.

(** X18: For the interface [CEPHBLOCKPOOL], [is_volume_present_in_backend]
    reports the volume absent exactly when the command [rbd info -p
    <pool> csi-vol-<uuid>] fails with a [CommandFailed] whose message
    holds [error opening image csi-vol-<uuid>]; the pool is written
    [None] when no pool name is given. *)
Theorem is_volume_present_in_backend_rbd_absent (c : Backend.ceph)
        (image_uuid : string) (pool_name : option string) (n : nat) :
  Backend.CEPHBLOCKPOOL c <> Backend.CEPHFILESYSTEM c ->
  (Backend.is_volume_present_in_backend c (Backend.CEPHBLOCKPOOL c) image_uuid
     pool_name n = (Py.Returns false, S n)
   <-> Backend.get_ceph_tools_pod c = Ok tt
       /\ exists ecf,
           Backend.exec_ceph_cmd c n
             (String.append "rbd info -p "
                (String.append (Backend.fmt pool_name)
                   (String.append " csi-vol-" image_uuid)))
           = Raise (CommandFailed ecf)
           /\ occurs_in (String.append "error opening image csi-vol-" image_uuid)
                        ecf).
Proof.
  intros Hne. apply String.eqb_neq in Hne.
  unfold Backend.is_volume_present_in_backend.
  rewrite String.eqb_refl, Hne.
  unfold Backend.then_, Backend.call, Backend.unit_.
  destruct (Backend.get_ceph_tools_pod c) as [[] | e]; cbn.
  - destruct (Backend.exec_ceph_cmd c n _) as [u | e] eqn:Hcmd; cbn.
    + split; [discriminate | intros [_ (ecf & H & _)]; discriminate].
    + destruct e; cbn;
        try (split; [discriminate | intros [_ (ecf & H & _)]; discriminate]).
      destruct (Py.contains _ msg) eqn:Hc; cbn.
      * split; [| reflexivity]. intros _. split; [reflexivity |].
        exists msg. split; [reflexivity |]. apply contains_spec. exact Hc.
      * split; [discriminate |]. intros [_ (ecf & [= <-] & Ho)].
        apply contains_spec in Ho. congruence.
  - split; [discriminate | intros [H _]; discriminate].
Qed.

Lemma is_volume_present_in_backend_rbd_absent_witness :
  Backend.is_volume_present_in_backend ceph_image_removed "CephBlockPool"
    "f301898c" None 2%nat = (Py.Returns false, 3%nat).
Proof.
  apply (proj2 (is_volume_present_in_backend_rbd_absent ceph_image_removed
                  "f301898c" None 2%nat ltac:(discriminate))).
  split; [reflexivity |].
  exists "rbd: error opening image csi-vol-f301898c: (2) No such file or directory".
  split; [reflexivity |].
  exists "rbd: ", ": (2) No such file or directory". reflexivity.
Defined.

(** X19: [delete_volume_in_backend] returns [True] only if the pool has a CR,
    the volume was found present at first and, after at least one more
    command, found absent by the last check. *)
Theorem delete_volume_in_backend_true (c : Backend.ceph) (img_uuid : string)
        (pool_name : option string) (n n' : nat) :
  Backend.delete_volume_in_backend c img_uuid pool_name n
  = (Py.Returns true, n') ->
  exists kind n1 n2,
    Backend.get_pool_cr c pool_name n = (Py.Returns (Some kind), n)
    /\ Backend.is_volume_present_in_backend c (interface_of kind) img_uuid
         pool_name n = (Py.Returns true, n1)
    /\ (n1 < n2)%nat
    /\ Backend.is_volume_present_in_backend c (interface_of kind) img_uuid
         pool_name n2 = (Py.Returns false, n').
Proof.
  intros H. unfold Backend.delete_volume_in_backend in H.
  apply then_returns in H. destruct H as (cr & n0 & Hcr & H).
  pose proof (get_pool_cr_counter c _ _ _ _ Hcr) as ->.
  destruct cr as [kind |]; [| discriminate].
  fold (interface_of kind) in H.
  apply then_returns in H. destruct H as (present & n1 & Hp & H).
  destruct present; [| discriminate].
  exists kind, n1.
  destruct (String.eqb (interface_of kind) (Backend.CEPHBLOCKPOOL c));
    destruct (String.eqb (interface_of kind) (Backend.CEPHFILESYSTEM c)).
  all: apply then_returns in H; destruct H as ([ve cmd] & n2 & Hcmd & H).
  all: apply then_returns in H; destruct H as (u & n3 & Hpod & H).
  all: apply call_returns in Hpod; destruct Hpod as [_ ->].
  all: apply then_returns in H; destruct H as (refused & n4 & Hrm & H).
  all: assert (Hn4 : n4 = S n2)
    by (destruct (Backend.exec_ceph_cmd c n2 cmd) as [? | []];
        injection Hrm as _ <-; reflexivity).
  all: destruct refused; [discriminate |].
  all: apply then_returns in H; destruct H as (verify & n5 & Hv & H).
  all: destruct verify; [discriminate |].
  all: injection H as <-.
  all: exists n4; split; [exact Hcr | split; [exact Hp | split; [| exact Hv]]].
  all: try (apply then_returns in Hcmd; destruct Hcmd as (fs & n6 & Hfs & Hcmd);
            apply (get_cephfs_name_counter c) in Hfs;
            injection Hcmd as _ _ <-; lia).
  all: injection Hcmd as _ _ <-; lia.
Qed.

Lemma delete_volume_in_backend_true_witness :
  exists kind n1 n2,
    Backend.get_pool_cr ceph_image_removed (Some "ocs-pool") 0%nat
    = (Py.Returns (Some kind), 0%nat)
    /\ Backend.is_volume_present_in_backend ceph_image_removed
         (interface_of kind) "f301898c" (Some "ocs-pool") 0%nat
       = (Py.Returns true, n1)
    /\ (n1 < n2)%nat
    /\ Backend.is_volume_present_in_backend ceph_image_removed
         (interface_of kind) "f301898c" (Some "ocs-pool") n2
       = (Py.Returns false, 3%nat).
Proof.
  apply (delete_volume_in_backend_true ceph_image_removed "f301898c"
           (Some "ocs-pool") 0%nat 3%nat).
  reflexivity.
Defined.

(** X20: [delete_volume_in_backend] returns [False] without running a command
    when the pool has no CR of either kind. *)
Theorem delete_volume_in_backend_no_pool (c : Backend.ceph) (img_uuid : string)
        (pool_name : option string) (n : nat) :
  Backend.ocp_get c (Backend.CEPHBLOCKPOOL c) pool_name = Ok None ->
  Backend.ocp_get c "CephFilesystem" pool_name = Ok None ->
  Backend.delete_volume_in_backend c img_uuid pool_name n
  = (Py.Returns false, n).
Proof.
  intros H1 H2.
  unfold Backend.delete_volume_in_backend, Backend.get_pool_cr,
    Backend.then_, Backend.call, Backend.unit_.
  rewrite H1. cbn. rewrite H2. reflexivity.
Qed.

Lemma delete_volume_in_backend_no_pool_witness :
  Backend.delete_volume_in_backend ceph_image_stays "f301898c" None 0%nat
  = (Py.Returns false, 0%nat).
Proof.
  apply (delete_volume_in_backend_no_pool ceph_image_stays "f301898c" None 0%nat);
    reflexivity.
Defined.

Section DeletedInBackend.
Variable c : Backend.ceph.
Variables interface image_uuid : string.
Variable pool_name : option string.
Variable timeout : Z.

Lemma verify_volume_deleted_in_backend_sample (n : nat) :
  In false (Py.yields (Backend.TimeoutSampler c timeout 2 interface image_uuid
                         pool_name)) ->
  Backend.verify_volume_deleted_in_backend c interface image_uuid pool_name
    timeout n = (Py.Returns true, n).
Proof.
  unfold Backend.verify_volume_deleted_in_backend.
  induction (Py.yields _) as [| r l IH]; [intros [] |].
  intros [-> | Hin]; [reflexivity |].
  destruct r; cbn [negb]; [exact (IH Hin) | reflexivity].
Qed.

Lemma verify_volume_deleted_in_backend_all_present (n : nat) :
  (forall r,
      In r (Py.yields (Backend.TimeoutSampler c timeout 2 interface image_uuid
                         pool_name)) -> r = true) ->
  Py.ending (Backend.TimeoutSampler c timeout 2 interface image_uuid pool_name)
  = Some TimeoutExpiredError ->
  Backend.verify_volume_deleted_in_backend c interface image_uuid pool_name
    timeout n
  = Backend.then_ (Backend.call (Backend.get_ceph_tools_pod c))
      (fun _ =>
         Backend.then_
           (Backend.exec (fun n => Backend.exec_ceph_cmd c n "ceph progress json"))
           (fun _ =>
              Backend.then_
                (Backend.exec
                   (fun n => Backend.exec_ceph_cmd c n "ceph rbd task list"))
                (fun _ => Backend.unit_ false))) n.
Proof.
  unfold Backend.verify_volume_deleted_in_backend. intros Hall ->.
  induction (Py.yields _) as [| r l IH]; [reflexivity |].
  rewrite (Hall r (or_introl eq_refl)). cbn [negb].
  apply IH. intros r' Hr'. apply Hall. right. exact Hr'.
Qed.

End DeletedInBackend.

(** X21: [verify_volume_deleted_in_backend] returns [True], without running a
    command of its own, as soon as one sample reports the volume absent.
    When every sample up to the time-out reports it present, the two
    commands for the record are run: it returns [False] if both succeed,
    and if the first fails its exception is raised in place of the
    result. *)
Theorem verify_volume_deleted_in_backend_result (c : Backend.ceph)
        (interface image_uuid : string) (pool_name : option string)
        (timeout : Z) (n : nat) :
  Py.ending (Backend.TimeoutSampler c timeout 2 interface image_uuid pool_name)
  = Some TimeoutExpiredError ->
  Backend.get_ceph_tools_pod c = Ok tt ->
  (In false (Py.yields (Backend.TimeoutSampler c timeout 2 interface image_uuid
                          pool_name)) ->
   Backend.verify_volume_deleted_in_backend c interface image_uuid pool_name
     timeout n = (Py.Returns true, n))
  /\ ((forall r,
          In r (Py.yields (Backend.TimeoutSampler c timeout 2 interface
                             image_uuid pool_name)) -> r = true) ->
      (Backend.exec_ceph_cmd c n "ceph progress json" = Ok tt ->
       Backend.exec_ceph_cmd c (S n) "ceph rbd task list" = Ok tt ->
       Backend.verify_volume_deleted_in_backend c interface image_uuid pool_name
         timeout n = (Py.Returns false, S (S n)))
      /\ forall e,
          Backend.exec_ceph_cmd c n "ceph progress json" = Raise e ->
          Backend.verify_volume_deleted_in_backend c interface image_uuid
            pool_name timeout n = (Py.Fails (Py.Exn e), S n)).
Proof.
  intros Hend Hpod. split.
  - apply verify_volume_deleted_in_backend_sample.
  - intros Hall.
    rewrite (verify_volume_deleted_in_backend_all_present c interface image_uuid
               pool_name timeout n Hall Hend).
    unfold Backend.then_, Backend.call, Backend.exec, Backend.unit_.
    rewrite Hpod. cbn. split.
    + intros H1 H2. rewrite H1. cbn. rewrite H2. reflexivity.
    + intros e H1. rewrite H1. reflexivity.
Qed.

Lemma verify_volume_deleted_in_backend_result_witness :
  Backend.verify_volume_deleted_in_backend ceph_image_removed "CephBlockPool"
    "f301898c" (Some "ocs-pool") 180 0%nat = (Py.Returns true, 0%nat)
  /\ Backend.verify_volume_deleted_in_backend ceph_image_stays "CephBlockPool"
       "f301898c" (Some "ocs-pool") 180 0%nat
     = (Py.Fails (Py.Exn (CommandFailed "no valid command found")),
        1%nat).
Proof.
  split.
  - apply (proj1 (verify_volume_deleted_in_backend_result ceph_image_removed
                    "CephBlockPool" "f301898c" (Some "ocs-pool") 180 0%nat
                    eq_refl eq_refl)).
    right. right. left. reflexivity.
  - apply (proj2 (verify_volume_deleted_in_backend_result ceph_image_stays
                    "CephBlockPool" "f301898c" (Some "ocs-pool") 180 0%nat
                    eq_refl eq_refl)).
    + intros r [<- | [<- | []]]; reflexivity.
    + reflexivity.
Defined.

(** X22: [validate_pod_oomkilled] returns [False] exactly when the log of the
    previous container was fetched and holds [signal: killed]. *)
Theorem validate_pod_oomkilled_false (c : Backend.ceph)
        (pod_name namespace : string) (container : option string) :
  Backend.validate_pod_oomkilled c pod_name namespace container
  = Py.Returns false
  <-> exists pod_log,
      Backend.pod_logs c pod_name namespace container true = Ok pod_log
      /\ occurs_in "signal: killed" pod_log.
Proof.
  unfold Backend.validate_pod_oomkilled.
  destruct (Backend.pod_logs c pod_name namespace container true)
    as [pod_log | e].
  - destruct (Py.contains "signal: killed" pod_log) eqn:Hc.
    + split; [| reflexivity]. intros _. exists pod_log.
      split; [reflexivity | apply contains_spec; exact Hc].
    + split; [discriminate |]. intros (l & [= <-] & Ho).
      apply contains_spec in Ho. congruence.
  - split.
    + destruct e; try discriminate.
      destruct (Py.contains _ msg); discriminate.
    + intros (l & H & _). discriminate.
Qed.

Lemma validate_pod_oomkilled_false_witness :
  Backend.validate_pod_oomkilled ceph_image_removed "rook-ceph-osd-0-abc"
    "openshift-storage" None = Py.Returns false.
Proof.
  apply (proj2 (validate_pod_oomkilled_false ceph_image_removed
                  "rook-ceph-osd-0-abc" "openshift-storage" None)).
  exists "starting; signal: killed". split; [reflexivity |].
  exists "starting; ", EmptyString. reflexivity.
Defined.

(** * Pods for a list of PVCs *)

Section NodesInTurn.
Variable e : Pods.env.
Variable first : string.
Variable others : list string.

Lemma keeps_turn_ret {A} (ns : list string) (x : A) :
  keeps_turn ns (ret x).
Proof. intros s H. exact H. Qed.

Lemma keeps_turn_lift {A} (ns : list string) (r : result A) :
  keeps_turn ns (lift r).
Proof. intros s H. exact H. Qed.

Lemma keeps_turn_bind {A C} (ns : list string) (m : M Pods.state A)
      (k : A -> M Pods.state C) :
  keeps_turn ns m -> (forall x, keeps_turn ns (k x)) -> keeps_turn ns (bind m k).
Proof.
  intros Hm Hk s H. unfold bind. specialize (Hm s H).
  destruct (m s) as [[x | err] s']; cbn in Hm |- *.
  - apply Hk. exact Hm.
  - exact Hm.
Qed.

Lemma keeps_turn_for_each {A C} (ns : list string) (l : list A)
      (f : A -> M Pods.state C) :
  (forall x, keeps_turn ns (f x)) -> keeps_turn ns (for_each l f).
Proof.
  intros Hf. induction l as [| x l IH]; cbn [for_each].
  - apply keeps_turn_ret.
  - apply keeps_turn_bind; [apply Hf |]. intros y.
    apply keeps_turn_bind; [exact IH |]. intros ys. apply keeps_turn_ret.
Qed.

Lemma mod_succ (a b n : nat) :
  (a mod n = b mod n -> (a + 1) mod n = (b + 1) mod n)%nat.
Proof.
  intros H. destruct n as [| n]; [cbn in *; lia |].
  rewrite (Nat.Div0.add_mod a 1), (Nat.Div0.add_mod b 1), H. reflexivity.
Qed.

Lemma nth_error_snoc {A} (l : list A) (x : A) (i : nat) (y : A) :
  nth_error (app l [x]) i = Some y ->
  nth_error l i = Some y \/ (i = length l /\ y = x).
Proof.
  intros H. destruct (Nat.lt_ge_cases i (length l)) as [Hlt | Hge].
  - left. rewrite nth_error_app1 in H by exact Hlt. exact H.
  - right. rewrite nth_error_app2 in H by exact Hge.
    destruct (i - length l)%nat as [| j] eqn:Ej.
    + cbn in H. injection H as <-. split; [lia | reflexivity].
    + cbn in H. destruct j; discriminate.
Qed.

Lemma keeps_turn_make_pod (interface : string) (pvc_obj : Pods.PVC)
      (status pod_dict : string) (raw : bool) :
  keeps_turn (first :: others)
    (Pods.make_pod e interface pvc_obj status (Some (first :: others))
       pod_dict raw).
Proof.
  intros [pending made] [(pre & Hns & Hlen) Hmade].
  cbn [fst snd] in Hns, Hlen, Hmade.
  unfold Pods.make_pod, bind, Pods.next_node, in_turn. cbn [fst snd].
  remember (length (first :: others)) as n eqn:En.
  destruct pending as [| x rest]; cbn [fst snd].
  - rewrite app_nil_r in Hns. subst pre.
    rewrite <- En, Nat.Div0.mod_same in Hlen.
    split.
    + exists [first]. split; [reflexivity |].
      rewrite length_app.
      apply (mod_succ (length made) 0). rewrite Hlen. symmetry.
      apply Nat.Div0.mod_0_l.
    + intros i args Hi. apply nth_error_snoc in Hi.
      destruct Hi as [Hi | [-> ->]]; [apply Hmade; exact Hi |].
      cbn [Pods.node_name]. rewrite Hlen. reflexivity.
  - assert (Hpre : (length pre < n)%nat).
    { rewrite En, Hns, length_app. cbn [length]. lia. }
    rewrite (Nat.mod_small (length pre)) in Hlen by exact Hpre.
    split.
    + exists (app pre [x]).
      split; [rewrite <- app_assoc; exact Hns |].
      rewrite !length_app.
      apply mod_succ. rewrite Hlen. symmetry. apply Nat.mod_small. exact Hpre.
    + intros i args Hi. apply nth_error_snoc in Hi.
      destruct Hi as [Hi | [-> ->]]; [apply Hmade; exact Hi |].
      cbn [Pods.node_name]. rewrite Hlen.
      rewrite Hns. rewrite nth_error_app2 by lia.
      rewrite Nat.sub_diag. reflexivity.
Qed.

Lemma keeps_turn_pods_of_pvc (interface : string) (pods_for_rwx : Z)
      (status : string) (pvc_obj : Pods.PVC) :
  keeps_turn (first :: others)
    (Pods.pods_of_pvc e interface pods_for_rwx status (Some (first :: others))
       pvc_obj).
Proof.
  unfold Pods.pods_of_pvc.
  apply keeps_turn_bind; [apply keeps_turn_lift |]. intros from_spec.
  apply keeps_turn_bind; [apply keeps_turn_lift |]. intros from_property.
  destruct (Pods.is_str _ "Block").
  all: apply keeps_turn_bind;
    [ destruct (Pods.is_str _ (Pods.ACCESS_MODE_RWX e));
      [ apply keeps_turn_for_each; intros _; apply keeps_turn_make_pod
      | apply keeps_turn_ret ]
    | intros rwx; apply keeps_turn_bind;
      [ apply keeps_turn_make_pod | intros p; apply keeps_turn_ret ] ].
Qed.

End NodesInTurn.

(** X23: [create_pods] gives the nodes of a non-empty list to the pods in
    turn: the call of [pod_factory] number [i], counted from 0 over all
    the PVCs, names the node at position [i mod len(nodes)]. *)
Theorem create_pods_nodes_in_turn (e : Pods.env) (pvc_objs : list Pods.PVC)
        (interface : string) (pods_for_rwx : Z) (status first : string)
        (others : list string) (i : nat) (args : Pods.factory_args) :
  nth_error
    (snd (Pods.create_pods e pvc_objs interface pods_for_rwx status
            (Some (first :: others)) []))
    i = Some args ->
  Pods.node_name args
  = nth_error (first :: others) (i mod length (first :: others))%nat.
Proof.
  unfold Pods.create_pods. cbn [snd].
  assert (H : in_turn (first :: others)
                (snd ((let! pod_objs :=
                         for_each pvc_objs
                           (Pods.pods_of_pvc e interface pods_for_rwx status
                              (Some (first :: others))) in
                       ret (concat pod_objs)) (first :: others, [])))).
  { apply keeps_turn_bind.
    - apply keeps_turn_for_each. intros p. apply keeps_turn_pods_of_pvc.
    - intros l. apply keeps_turn_ret.
    - split.
      + exists []. split; reflexivity.
      + intros j a Hj. destruct j; discriminate. }
  destruct H as [_ H]. apply H.
Qed.

Lemma create_pods_nodes_in_turn_witness :
  exists args,
    nth_error
      (snd (Pods.create_pods pods_env [shared_pvc; own_pvc] "CephBlockPool" 2
              "" (Some ["worker-0"; "worker-1"]) []))
      2 = Some args
    /\ Pods.pvc_name (Pods.pvc args) = "pvc-rwo"
    /\ Pods.node_name args = Some "worker-0".
Proof.
  eexists. split; [reflexivity |]. split; [reflexivity |].
  apply (create_pods_nodes_in_turn pods_env [shared_pvc; own_pvc] "CephBlockPool"
           2 "" "worker-0" ["worker-1"] 2).
  reflexivity.
Defined.

Section PodCount.
Variable e : Pods.env.
Hypothesis factory_ok : forall args, exists p, Pods.pod_factory e args = Ok p.

Lemma for_each_all {S A C} (P : A -> C -> Prop) (l : list A) (f : A -> M S C) :
  (forall x, In x l -> forall s, exists y s', f x s = (Ok y, s') /\ P x y) ->
  forall s, exists ys s', for_each l f s = (Ok ys, s') /\ Forall2 P l ys.
Proof.
  induction l as [| x l IH]; intros Hf s.
  - exists [], s. split; [reflexivity | constructor].
  - destruct (Hf x (or_introl eq_refl) s) as (y & s1 & Hy & Py).
    destruct (IH (fun z Hz => Hf z (or_intror Hz)) s1) as (ys & s2 & Hys & Pys).
    exists (y :: ys), s2. cbn [for_each]. unfold bind at 1. rewrite Hy.
    unfold bind at 1. rewrite Hys. split; [reflexivity | constructor; assumption].
Qed.

Lemma make_pod_ok (interface : string) (pvc_obj : Pods.PVC)
      (status : string) (nodes : option (list string)) (pod_dict : string)
      (raw : bool) (s : Pods.state) :
  exists p s',
    Pods.make_pod e interface pvc_obj status nodes pod_dict raw s = (Ok p, s')
    /\ True.
Proof.
  unfold Pods.make_pod, bind.
  destruct (Pods.next_node nodes s) as [[node | err] s1] eqn:Hn.
  - destruct (factory_ok
                {| Pods.interface := interface; Pods.pvc := pvc_obj;
                   Pods.status := status; Pods.node_name := node;
                   Pods.pod_dict_path := pod_dict; Pods.raw_block_pv := raw |})
      as [p Hp].
    rewrite Hp. eauto.
  - exfalso. unfold Pods.next_node in Hn.
    destruct nodes as [[| x l] |]; cbn in Hn; try discriminate.
    destruct (fst s); discriminate.
Qed.

Lemma pods_of_pvc_count (interface : string) (pods_for_rwx : Z)
      (status : string) (nodes : option (list string)) (pvc_obj : Pods.PVC)
      (vm am : option string) (s : Pods.state) :
  Pods.get_spec_volumeMode pvc_obj = Ok vm ->
  Pods.get_pvc_access_mode pvc_obj = Ok am ->
  exists pods s',
    Pods.pods_of_pvc e interface pods_for_rwx status nodes pvc_obj s
    = (Ok pods, s')
    /\ Z.of_nat (length pods) = pods_for e pods_for_rwx pvc_obj.
Proof.
  intros Hvm Ham. unfold Pods.pods_of_pvc, pods_for, is_rwx.
  rewrite Hvm, Ham. unfold bind at 1, lift at 1. unfold bind at 1, lift at 1.
  set (access := match Pods.access_mode pvc_obj with
                 | Some v => v
                 | None => am
                 end).
  assert (Hacc : match Pods.access_mode pvc_obj with
                 | Some v => Pods.is_str v (Pods.ACCESS_MODE_RWX e)
                 | None => Pods.is_str am (Pods.ACCESS_MODE_RWX e)
                 end = Pods.is_str access (Pods.ACCESS_MODE_RWX e))
    by (unfold access; destruct (Pods.access_mode pvc_obj); reflexivity).
  rewrite Hacc. clear Hacc.
  destruct (Pods.is_str _ "Block").
  all: destruct (Pods.is_str access (Pods.ACCESS_MODE_RWX e)).
  all: unfold bind, ret.
  all: try match goal with
       | |- context [for_each ?l ?f ?s1] =>
           destruct (for_each_all (fun _ _ => True) l f
                       (fun x _ s0 => make_pod_ok _ _ _ _ _ _ s0) s1)
             as (rwx & s1' & Hrwx & Hall);
           rewrite Hrwx; cbv beta iota;
           apply Forall2_length in Hall; rewrite length_seq in Hall
       end.
  all: match goal with
       | |- context [Pods.make_pod e ?i ?p ?st ?n ?d ?r ?s0] =>
           destruct (make_pod_ok i p st n d r s0) as (pod & s2 & Hpod & _);
           rewrite Hpod; cbv beta iota
       end.
  all: eexists; eexists; split; [reflexivity |].
  all: rewrite length_app; cbn [length]; lia.
Qed.

Lemma concat_count (pods_for_rwx : Z) (l : list Pods.PVC) (ys : list (list OCS)) :
  Forall2 (fun p pods => Z.of_nat (length pods) = pods_for e pods_for_rwx p) l ys ->
  Z.of_nat (length (concat ys))
  = fold_right Z.add 0 (map (pods_for e pods_for_rwx) l).
Proof.
  induction 1 as [| p pods l ys Hp _ IH]; [reflexivity |].
  cbn [concat map fold_right]. rewrite length_app. lia.
Qed.

End PodCount.

(** X24: When the PVCs can be read and [pod_factory] makes every pod it is
    asked for, [create_pods] returns one pod for a PVC whose access mode
    is not [ACCESS_MODE_RWX] and [max(1, pods_for_rwx)] pods for one whose
    access mode is: the number of pods is the sum of these. *)
Theorem create_pods_count (e : Pods.env) (pvc_objs : list Pods.PVC)
        (interface : string) (pods_for_rwx : Z) (status : string)
        (nodes : option (list string)) (made : list Pods.factory_args) :
  (forall args, exists p, Pods.pod_factory e args = Ok p) ->
  (forall p, In p pvc_objs ->
             exists vm am,
               Pods.get_spec_volumeMode p = Ok vm
               /\ Pods.get_pvc_access_mode p = Ok am) ->
  exists pods made',
    Pods.create_pods e pvc_objs interface pods_for_rwx status nodes made
    = (Ok pods, made')
    /\ Z.of_nat (length pods)
       = fold_right Z.add 0 (map (pods_for e pods_for_rwx) pvc_objs).
Proof.
  intros Hfactory Hread. unfold Pods.create_pods.
  destruct (for_each_all
              (fun p pods => Z.of_nat (length pods) = pods_for e pods_for_rwx p)
              pvc_objs
              (Pods.pods_of_pvc e interface pods_for_rwx status nodes)
              (fun p Hp s =>
                 match Hread p Hp with
                 | ex_intro _ vm (ex_intro _ am (conj Hvm Ham)) =>
                     pods_of_pvc_count e Hfactory interface pods_for_rwx status
                       nodes p vm am s Hvm Ham
                 end)
              (match nodes with Some l => l | None => [] end, made))
    as (ys & s' & Hys & Hall).
  unfold bind. rewrite Hys. unfold ret. cbn [fst snd].
  eexists. eexists. split; [reflexivity |].
  apply concat_count. exact Hall.
Qed.

Lemma create_pods_count_witness :
  exists pods made',
    Pods.create_pods pods_env [shared_pvc; own_pvc; shared_pvc] "CephBlockPool" 0
      "" None [] = (Ok pods, made')
    /\ Z.of_nat (length pods) = 3.
Proof.
  apply (create_pods_count pods_env [shared_pvc; own_pvc; shared_pvc]
           "CephBlockPool" 0 "" None []).
  - intros args. eexists. reflexivity.
  - intros p [<- | [<- | [<- | []]]]; eexists; eexists; split; reflexivity.
Defined.

(** * The start time of a pod *)

Section IsoStamps.
Context {R : Type}.
Variable P : R -> Prop.

Lemma results_alt (p q : option R) :
  results P p -> results P q -> results P (DateTime.alt p q).
Proof.
  intros Hp Hq. destruct p as [x |]; cbn; [exact Hp | exact Hq].
Qed.

Lemma results_none : results P None.
Proof. intros x H. discriminate. Qed.

Lemma results_two (ok : Z -> Z -> bool) (k : Z -> string -> option R)
      (s : string) :
  (forall v r, results P (k v r)) -> results P (DateTime.two ok k s).
Proof.
  intros Hk. unfold DateTime.two.
  destruct s as [| a [| b r]]; try apply results_none.
  destruct (_ && _); [apply Hk | apply results_none].
Qed.

Lemma results_one (ok : Z -> bool) (k : Z -> string -> option R) (s : string) :
  (forall v r, results P (k v r)) -> results P (DateTime.one ok k s).
Proof.
  intros Hk. unfold DateTime.one.
  destruct s as [| a r]; try apply results_none.
  destruct (_ && _); [apply Hk | apply results_none].
Qed.

Lemma results_lit (c : ascii) (k : string -> option R) (s : string) :
  (forall r, results P (k r)) -> results P (DateTime.lit c k s).
Proof.
  intros Hk. unfold DateTime.lit.
  destruct s as [| a r]; try apply results_none.
  destruct (Ascii.eqb _ _); [apply Hk | apply results_none].
Qed.

Lemma results_re_Y (k : Z -> string -> option R) (s : string) :
  (forall v r, results P (k v r)) -> results P (DateTime.re_Y k s).
Proof.
  intros Hk. unfold DateTime.re_Y.
  destruct s as [| a [| b [| c [| d r]]]]; try apply results_none.
  destruct (_ && _); [apply Hk | apply results_none].
Qed.

Lemma results_re_m (k : Z -> string -> option R) (s : string) :
  (forall v r, results P (k v r)) -> results P (DateTime.re_m k s).
Proof.
  intros Hk. unfold DateTime.re_m.
  repeat apply results_alt; try apply results_two; try apply results_one;
    exact Hk.
Qed.

Lemma results_re_d (k : Z -> string -> option R) (s : string) :
  (forall v r, results P (k v r)) -> results P (DateTime.re_d k s).
Proof.
  intros Hk. unfold DateTime.re_d.
  repeat apply results_alt; try apply results_two; try apply results_one;
    try exact Hk.
  apply results_lit. intros r. apply results_one. exact Hk.
Qed.

Lemma results_re_H (k : Z -> string -> option R) (s : string) :
  (forall v r, results P (k v r)) -> results P (DateTime.re_H k s).
Proof.
  intros Hk. unfold DateTime.re_H.
  repeat apply results_alt; try apply results_two; try apply results_one;
    exact Hk.
Qed.

Lemma results_re_M (k : Z -> string -> option R) (s : string) :
  (forall v r, results P (k v r)) -> results P (DateTime.re_M k s).
Proof.
  intros Hk. unfold DateTime.re_M.
  repeat apply results_alt; try apply results_two; try apply results_one;
    exact Hk.
Qed.

Lemma results_re_S (k : Z -> string -> option R) (s : string) :
  (forall v r, results P (k v r)) -> results P (DateTime.re_S k s).
Proof.
  intros Hk. unfold DateTime.re_S.
  repeat apply results_alt; try apply results_two; try apply results_one;
    exact Hk.
Qed.

End IsoStamps.

Lemma strptime_whole_seconds (s : string) (d : DateTime.datetime) :
  PodStart.strptime s = Py.Returns d -> DateTime.microsecond d = 0.
Proof.
  unfold PodStart.strptime.
  destruct (PodStart.match_format s) as [[d' rest] |] eqn:E; [| discriminate].
  assert (HR : results (fun x : DateTime.datetime * string =>
                          DateTime.microsecond (fst x) = 0)
                       (PodStart.match_format s)).
  { unfold PodStart.match_format.
    apply results_re_Y; intros Y r0.
    apply results_lit; intros r1.
    apply results_re_m; intros m r2.
    apply results_lit; intros r3.
    apply results_re_d; intros dd r4.
    apply results_lit; intros r5.
    apply results_re_H; intros H r6.
    apply results_lit; intros r7.
    apply results_re_M; intros M r8.
    apply results_lit; intros r9.
    apply results_re_S; intros S r10.
    apply results_lit; intros r11.
    intros x [= <-]. reflexivity. }
  pose proof (HR _ E) as H. cbn [fst] in H.
  destruct rest; [| discriminate].
  destruct (DateTime.valid d'); [| discriminate].
  intros [= <-]. exact H.
Qed.

(** X25: A dictionary [pod_start_time] returns has one entry, whatever the
    number of containers: the name of the first container, with the
    seconds from the time of day the pod started to the time of day that
    container started, modulo a day.  Whole days between the two are
    dropped, and a container started earlier in the day than the pod
    counts from the day before. *)
Theorem pod_start_time_first_container (pod_obj : PodStart.pod_status)
        (d : gmap string Z) :
  PodStart.pod_start_time pod_obj = Py.Returns (Some d) ->
  exists container rest s t start_time started_time,
    PodStart.containerStatuses pod_obj = Some (container :: rest)
    /\ PodStart.startTime pod_obj = Some s
    /\ PodStart.running_startedAt container = Some t
    /\ PodStart.strptime s = Py.Returns start_time
    /\ PodStart.strptime t = Py.Returns started_time
    /\ d = <[PodStart.container_name container :=
               (time_of_day started_time - time_of_day start_time) mod 86400]> ∅.
Proof.
  unfold PodStart.pod_start_time.
  destruct (PodStart.startTime pod_obj) as [s |] eqn:E1; [| discriminate].
  destruct (PodStart.strptime s) as [start_time | err] eqn:Es; [| discriminate].
  destruct (PodStart.containerStatuses pod_obj) as [[| container rest] |] eqn:E2;
    try discriminate.
  destruct (PodStart.running_startedAt container) as [t |] eqn:E3;
    [| discriminate].
  destruct (PodStart.strptime t) as [started_time | err] eqn:Et; [| discriminate].
  intros [= <-].
  exists container, rest, s, t, start_time, started_time.
  split; [reflexivity |]. split; [reflexivity |]. split; [exact E3 |].
  split; [exact Es |]. split; [exact Et |].
  f_equal. unfold DateTime.sub, DateTime.make_timedelta, time_of_day.
  cbn [DateTime.seconds].
  rewrite (strptime_whole_seconds s start_time Es),
    (strptime_whole_seconds t started_time Et).
  change ((0 - 0) / 1000000) with 0. f_equal. lia.
Qed.

Lemma pod_start_time_first_container_witness :
  PodStart.pod_start_time slow_pod = Py.Returns (Some (<["web" := 5]> ∅))
  /\ exists container rest s t start_time started_time,
      PodStart.containerStatuses slow_pod = Some (container :: rest)
      /\ PodStart.startTime slow_pod = Some s
      /\ PodStart.running_startedAt container = Some t
      /\ PodStart.strptime s = Py.Returns start_time
      /\ PodStart.strptime t = Py.Returns started_time
      /\ (<["web" := 5]> ∅ : gmap string Z)
         = <[PodStart.container_name container :=
               (time_of_day started_time - time_of_day start_time) mod 86400]> ∅.
Proof.
  assert (H : PodStart.pod_start_time slow_pod
              = Py.Returns (Some (<["web" := 5]> ∅))) by reflexivity.
  split; [exact H |].
  exact (pod_start_time_first_container slow_pod (<["web" := 5]> ∅) H).
Defined.

(** * Bulk and single measurements *)

(** X26: On a log that does not change from one read to the next and is
    always read, the time [measure_pv_deletion_time_bulk] gives for a PV of
    its list is the time [measure_pvc_deletion_time] returns for that
    PV. *)
Theorem bulk_deletion_time_is_single_time (c : cluster)
        (interface p0 p1 : string) (rest names : list string) (wait_time : Z)
        (fuel n m : nat) (d : gmap string Q) (pv_name : string) :
  (forall j k pod container namespace,
      get_pod_logs c j pod container namespace
      = get_pod_logs c k pod container namespace) ->
  get_csi_provisioner_pod c interface = p0 :: p1 :: rest ->
  (6 <= fuel)%nat ->
  fst (Bulk.measure_pv_deletion_time_bulk (reliable c) fuel interface names
         wait_time n) = Ok (Some d) ->
  In pv_name names ->
  exists q,
    d !! pv_name = Some q
    /\ fst (measure_pvc_deletion_time c interface pv_name m) = Ok q.
Proof.
  intros Hsteady Hpods Hfuel Hbulk Hin.
  assert (Hp : Bulk.get_csi_provisioner_pod (reliable c) interface
               = Ok (p0 :: p1 :: rest)) by (cbn; rewrite Hpods; reflexivity).
  pose proof (measure_bulk_bounded (reliable c)
                (fun pv => delete_pattern pv "started")
                (fun pv => delete_pattern pv "succeeded")
                interface p0 p1 rest names wait_time n fuel Hp Hfuel) as HB.
  cbv zeta in HB. destruct HB as (Hneg & _ & Hmain & _).
  unfold Bulk.measure_pv_deletion_time_bulk in Hbulk.
  destruct (Z.ltb_spec wait_time 0) as [Hlt | Hge].
  { rewrite (Hneg Hlt) in Hbulk. discriminate. }
  destruct (Hmain Hge eq_refl) as (k & Hk & _ & _ & Hres).
  change (fetched (reliable c) p0 p1 (n + 2 * k))
    with (Ok (A := list string) (logs_at c p0 p1 (n + 2 * k))) in Hres.
  cbv beta iota in Hres.
  destruct (k =? 6)%nat.
  { destruct Hres as (l5 & _ & H). rewrite H in Hbulk. discriminate. }
  destruct Hres as [_ [(d' & Hd & Hall & _) | [H _]]];
    [| rewrite H in Hbulk; discriminate].
  rewrite Hd in Hbulk. injection Hbulk as ->.
  destruct (Hall pv_name Hin)
    as (q & Hq & start & end_ & start_time & end_time & H1 & H2 & H3 & H4 & ->).
  eexists. split; [exact Hq |].
  assert (Hlogs : forall i, logs_at c p0 p1 i = logs_at c p0 p1 (n + 2 * k)).
  { intros i. unfold logs_at.
    rewrite (Hsteady i (n + 2 * k)%nat), (Hsteady (S i) (S (n + 2 * k))).
    reflexivity. }
  change (Bulk.now_year (reliable c)) with (now_year c) in H3, H4.
  unfold measure_pvc_deletion_time, get_start_deletion_time,
    get_end_deletion_time.
  rewrite Hpods. unfold bind, lift. rewrite provisioner_logs_run.
  rewrite (Hlogs m), first_grep, H1. cbv beta iota. rewrite H3. cbv beta iota.
  rewrite provisioner_logs_run. rewrite (Hlogs (S (S m))), first_grep, H2.
  cbv beta iota. rewrite H4. reflexivity.
Qed.

Lemma bulk_deletion_time_is_single_time_witness :
  exists d q,
    fst (Bulk.measure_pv_deletion_time_bulk (reliable deleted_pv) 6 "rbd" ["pv-a"]
           60 0%nat)
    = Ok (Some d)
    /\ d !! "pv-a" = Some q
    /\ fst (measure_pvc_deletion_time deleted_pv "rbd" "pv-a" 0%nat) = Ok q.
Proof.
  destruct (fst (Bulk.measure_pv_deletion_time_bulk (reliable deleted_pv) 6 "rbd"
                   ["pv-a"] 60 0%nat))
    as [[d |] | e] eqn:E; try (vm_compute in E; discriminate).
  destruct (bulk_deletion_time_is_single_time deleted_pv "rbd"
              "csi-rbdplugin-provisioner-0" "csi-rbdplugin-provisioner-1" []
              ["pv-a"] 60 6 0 0 d "pv-a")
    as (q & Hq & Hs).
  - intros; reflexivity.
  - reflexivity.
  - lia.
  - exact E.
  - left. reflexivity.
  - exists d, q. split; [reflexivity | split; assumption].
Defined.

(** * Lists of objects at the edges *)

Section ListEdges.
Variable c : cluster.

Lemma all_strings_none (l : list (option string)) :
  In None l -> all_strings l = None.
Proof.
  induction l as [| x l IH]; [intros [] |].
  intros [-> | Hin]; [reflexivity |].
  cbn [all_strings]. destruct x as [s |]; [| reflexivity].
  rewrite (IH Hin). reflexivity.
Qed.

Lemma snapshot_source_status (interface status pattern logs : string)
      (n n' : nat) :
  snapshot_source c interface status n = (Ok (Some (pattern, logs)), n') ->
  String.eqb (PyStr.lower status) "start" = true
  \/ (String.eqb (PyStr.lower status) "start" = false
      /\ String.eqb (PyStr.lower status) "end" = true).
Proof.
  unfold snapshot_source.
  destruct (String.eqb (PyStr.lower status) "start"); [left; reflexivity |].
  destruct (String.eqb (PyStr.lower status) "end"); [right; split; reflexivity |].
  discriminate.
Qed.

Lemma map_result_snoc {A B} (f : A -> result B) (g : A -> B) (l : list A)
      (x : A) :
  (forall o, In o l -> f o = Ok (g o)) ->
  map_result f (app l [x]) = (try! y := f x in Ok (app (map g l) [y])).
Proof.
  induction l as [| o l IH]; intros H.
  - cbn. destruct (f x); reflexivity.
  - cbn [app map_result map]. rewrite (H o (or_introl eq_refl)). cbn [rbind].
    rewrite IH by (intros o' Ho'; apply H; right; exact Ho').
    destruct (f x); reflexivity.
Qed.

Lemma last_snoc {A} (l : list A) (x : A) : PyStr.last (app l [x]) = Ok x.
Proof.
  induction l as [| y l IH]; [reflexivity |].
  cbn [app PyStr.last]. destruct (app l [x]) eqn:E; [| exact IH].
  destruct l; discriminate.
Qed.

End ListEdges.

(** X27: [get_snapshot_time] on a list, for a status that stands for a log:
    the empty list raises [IndexError], and a list of two snapshots or
    more raises [TypeError] as soon as one of them has no line in the log,
    the sort comparing [None] with the stamps of the others. *)
Theorem get_snapshot_time_list_edges (c : cluster)
        (interface status pattern logs : string) (n n' : nat) :
  snapshot_source c interface status n = (Ok (Some (pattern, logs)), n') ->
  get_snapshot_time c interface (Objs []) status n = (Raise IndexError, n')
  /\ forall snap_name s,
      (2 <= length snap_name)%nat ->
      In s snap_name ->
      get_pattern_time c (PyStr.split PyStr.newline logs) (name s) pattern = None ->
      get_snapshot_time c interface (Objs snap_name) status n
      = (Raise TypeError, n').
Proof.
  intros Hsrc. pose proof (snapshot_source_status c _ _ _ _ _ _ Hsrc) as Hst.
  unfold get_snapshot_time, bind. rewrite Hsrc. unfold lift. split.
  - cbn [map sorted_stats rbind].
    destruct Hst as [-> | [-> ->]];
      [destruct (String.eqb (PyStr.lower status) "end") |]; reflexivity.
  - intros snap_name s Hlen Hin Hnone.
    assert (Hall : all_strings
                     (map (fun snapname =>
                             get_pattern_time c (PyStr.split PyStr.newline logs)
                               (name snapname) pattern) snap_name) = None).
    { apply all_strings_none. rewrite <- Hnone.
      apply (in_map (fun snapname =>
                       get_pattern_time c (PyStr.split PyStr.newline logs)
                         (name snapname) pattern)). exact Hin. }
    destruct snap_name as [| x [| y l]]; cbn [length] in Hlen; try lia.
    unfold sorted_stats. cbn [map] in Hall |- *. rewrite Hall. reflexivity.
Qed.

Lemma get_snapshot_time_list_edges_witness :
  get_snapshot_time one_snapshot_logged "rbd" (Objs []) "start" 0%nat
  = (Raise IndexError, 1%nat)
  /\ get_snapshot_time one_snapshot_logged "rbd" (Objs [snap_a; snap_b]) "start"
       0%nat
     = (Raise TypeError, 1%nat).
Proof.
  destruct (get_snapshot_time_list_edges one_snapshot_logged "rbd" "start"
              "Creating content for snapshot"
              (get_pod_logs one_snapshot_logged 0 "csi-snapshot-controller-0" None
                 (Some "openshift-cluster-storage-operator"))
              0 1 eq_refl) as [H0 H2].
  split; [exact H0 |].
  apply (H2 [snap_a; snap_b] snap_a).
  - cbn. lia.
  - left. reflexivity.
  - reflexivity.
Defined.

(** X28: [get_provision_time] on a list with a status that is neither [start]
    nor [end]: the stamps are not chosen among, the one of the last object
    of the list is used, so when every object before it has its line the
    result is the result for the name of the last object; for the empty
    list it is [UnboundLocalError]. *)
Theorem get_provision_time_list_other_status (c : cluster)
        (interface p0 p1 : string) (rest : list string)
        (objs : list OCS) (last : OCS) (status : string) (n : nat) :
  get_csi_provisioner_pod c interface = p0 :: p1 :: rest ->
  PyStr.lower status <> "start" ->
  PyStr.lower status <> "end" ->
  (forall o, In o objs ->
             grep (provision_pattern (name o) "started") (logs_at c p0 p1 n)
             <> []) ->
  get_provision_time c interface (Objs (app objs [last])) status n
  = get_provision_time c interface (Name (name last)) status n
  /\ get_provision_time c interface (Objs []) status n
     = (Raise UnboundLocalError, S (S n)).
Proof.
  intros Hpods Hs He Hlines.
  apply String.eqb_neq in Hs. apply String.eqb_neq in He.
  unfold get_provision_time. rewrite Hpods. unfold bind.
  rewrite provisioner_logs_run. rewrite Hs, He. unfold lift. split.
  - rewrite (map_result_snoc _
               (fun o => stamp (PyStr.str (now_year c))
                           (hd EmptyString
                              (grep (provision_pattern (name o) "started")
                                 (logs_at c p0 p1 n))))).
    + destruct (PyStr.first
                  (grep (provision_pattern (name last) "started")
                     (logs_at c p0 p1 n))) as [line | e]; [| reflexivity].
      cbn [rbind]. rewrite last_snoc. reflexivity.
    + intros o Ho. specialize (Hlines o Ho).
      destruct (grep (provision_pattern (name o) "started") (logs_at c p0 p1 n));
        [congruence | reflexivity].
  - reflexivity.
Qed.

Lemma get_provision_time_list_other_status_witness :
  get_provision_time two_subjects "rbd" (Objs (app [pvc_b] [pvc_a])) "begin" 0%nat
  = get_provision_time two_subjects "rbd" (Name (name pvc_a)) "begin" 0%nat
  /\ get_provision_time two_subjects "rbd" (Objs []) "begin" 0%nat
     = (Raise UnboundLocalError, 2%nat).
Proof.
  apply (get_provision_time_list_other_status two_subjects "rbd"
           "csi-rbdplugin-provisioner-0" "csi-rbdplugin-provisioner-1" []
           [pvc_b] pvc_a "begin" 0%nat).
  - reflexivity.
  - discriminate.
  - discriminate.
  - intros o [<- | []]. discriminate.
Defined.
